(** * NDITracker: a shallow embedding of [sksurgerynditracker/nditracker.py]

    The driver object is a record, its methods are computations in a state
    and exception monad over the record and the trace of calls made to the
    collaborators (the [ndicapy] primitives, [subprocess.call], [platform.system]
    and [time.time]).  The collaborators answer through an arbitrary function
    of the whole call history, so every theorem holds for every device
    behaviour.

    What the embedding fixes:
    - a method that raises keeps the object and the trace as they were at
      the [raise], as Python does;
    - a collaborator always answers: an exception raised inside [ndicapy]
      itself (a wrong argument type, say) is not modelled;
    - the configuration dictionary is read through the seven keys the driver
      knows, each absent or holding a value of the type the driver expects;
    - the locals [name] and [result] of [_connect_serial] may be unassigned,
      and reading one that is raises [UnboundLocalError];
    - array cells are not-a-number or a number; nothing is computed with
      them. *)

From Stdlib Require Import ZArith QArith String Ascii List Lia Bool.
From Stdlib Require Import DecimalString HexadecimalString.
From stdpp Require Import base list option strings.

Open Scope string_scope.
Open Scope Z_scope.
Open Scope list_scope.

(** ** Python values used by the driver *)

(** A [numpy] float64 cell.  No arithmetic is ever done on the cells, they
    are only stored, so a finite value is kept as a rational. *)
Inductive float : Type :=
| nan
| fin (q : Q).

Definition float_of_int (z : Z) : float := fin (inject_Z z).

(** An object cell: tool descriptions are rom file names (vega, polaris,
    dummy) or port numbers (aurora); the description table also holds row
    indices. *)
Inductive pyobj : Type :=
| PyInt (z : Z)
| PyStr (s : string).

(** [self.device]: [None], [True] (the dummy) or the capsule returned by
    [ndiOpen] / [ndiOpenNetwork]. *)
Inductive pydevice : Type :=
| DevNone
| DevTrue
| DevCapsule (h : Z).

(** Python truthiness of [self.device] ([if not self.device]). *)
Definition truthy_device (dev : pydevice) : bool :=
  match dev with
  | DevNone => false
  | _ => true
  end.

(** Truthiness of a device name ([if not name]): [None] and the empty string
    are false. *)
Definition truthy_name (name : option string) : bool :=
  match name with
  | None => false
  | Some s => negb (String.eqb s "")
  end.

(** What [ndiGetBXTransform] / [ndiGetGXTransform] hand back: one of the two
    status strings, or a tuple of numbers. *)
Inductive transform : Type :=
| MISSING
| DISABLED
| Pose (vals : list float).

Inductive exn : Type :=
| KeyError (msg : string)
| ValueError (msg : string)
| IOError (msg : string)
| TypeError (msg : string)
| IndexError (msg : string)
| UnboundLocalError (var : string).

(** ** String helpers: the [str] methods and format codes the driver uses *)

(** ['{}'.format(z)] and ['{:d}'.format(z)]. *)
Definition format_d (z : Z) : string :=
  DecimalString.NilZero.string_of_int (Z.to_int z).

Fixpoint zeros (n : nat) : string :=
  match n with
  | O => ""
  | S n' => String "0" (zeros n')
  end.

(** Zero padding of a number to [width] characters; the sign, when there is
    one, counts and stays in front. *)
Definition zero_pad (width : nat) (negative : bool) (digits : string) : string :=
  let sign := if negative then "-" else "" in
  sign +:+ zeros (width - String.length sign - String.length digits) +:+ digits.

(** ['{:03d}'.format(z)]. *)
Definition format_03d (z : Z) : string :=
  zero_pad 3 (z <? 0)
    (DecimalString.NilZero.string_of_uint (N.to_uint (Z.abs_N z))).

(** ['{0:02x}'.format(z)]. *)
Definition format_02x (z : Z) : string :=
  zero_pad 2 (z <? 0)
    (HexadecimalString.NilZero.string_of_uint (N.to_hex_uint (Z.abs_N z))).

Definition lower_ascii (c : ascii) : ascii :=
  let n := nat_of_ascii c in
  if ((65 <=? n) && (n <=? 90))%nat then ascii_of_nat (n + 32) else c.

(** [s.lower()] on ASCII text. *)
Fixpoint lower (s : string) : string :=
  match s with
  | EmptyString => EmptyString
  | String c s' => String (lower_ascii c) (lower s')
  end.

(** [s.split(sep)] for a one-character separator: never the empty list. *)
Fixpoint split (sep : ascii) (s : string) : list string :=
  match s with
  | EmptyString => [EmptyString]
  | String c s' =>
      if Ascii.eqb c sep then EmptyString :: split sep s'
      else match split sep s' with
           | [] => [String c EmptyString]
           | w :: ws => String c w :: ws
           end
  end.

Definition newline : ascii := ascii_of_nat 10.
Definition tab : string := String (ascii_of_nat 9) EmptyString.
Definition nl : string := String newline EmptyString.

(** [s.startswith(p)]. *)
Definition startswith (p s : string) : bool := String.prefix p s.

(** ** Two-dimensional arrays ([numpy.full] and indexed assignment) *)

(** An array is the list of its rows. *)
Abbreviation array A := (list (list A)) (only parsing).

(** [full((rows, cols), v)]. *)
Definition full {A} (rows cols : nat) (v : A) : array A :=
  replicate rows (replicate cols v).

(** [a[i, j] = v]; an index out of range is an [IndexError]. *)
Definition set_cell {A} (a : array A) (i j : nat) (v : A) : exn + array A :=
  match a !! i with
  | None => inl (IndexError "index is out of bounds for axis 0")
  | Some row =>
      if (j <? length row)%nat then inr (<[i := <[j := v]> row]> a)
      else inl (IndexError "index is out of bounds for axis 1")
  end.

(** [a[i, lo:hi] = vals] for a tuple [vals]: the tuple has as many elements
    as the slice, or one element that is broadcast; anything else is a
    [ValueError]. *)
Definition set_slice {A} (a : array A) (i lo hi : nat) (vals : list A)
  : exn + array A :=
  match a !! i with
  | None => inl (IndexError "index is out of bounds for axis 0")
  | Some row =>
      let hi' := Nat.min hi (length row) in
      let n := (hi' - lo)%nat in
      let write (new : list A) := <[i := take lo row ++ new ++ drop hi' row]> a in
      if (length vals =? n)%nat then inr (write vals)
      else match vals with
           | [v] => inr (write (replicate n v))
           | _ => inl (ValueError "could not broadcast input array")
           end
  end.

(** How [numpy] stores a port handle in a float cell: an integer is
    converted, [None] becomes not-a-number. *)
Definition float_of_handle (h : option Z) : float :=
  match h with
  | None => nan
  | Some z => float_of_int z
  end.

(** ** The driver object *)

(** One entry of [self.tool_descriptors], a dict with the keys
    ["description"], ["port handle"] and ["c_str port handle"]; a key that is
    absent reads as [None] through [dict.get]. *)
Record tool_descriptor : Type := ToolDescriptor {
  description : pyobj;
  port_handle : option Z;
  c_str_port_handle : option string;
}.

Record NDITracker : Type := Build_NDITracker {
  device : pydevice;
  tool_descriptors : list tool_descriptor;
  tracker_type : option string;
  ip_address : option string;
  port : option Z;
  serial_port : option Z;
  ports_to_probe : option Z;
  _device_firmware_version : option string;
  _use_bx_transforms : option bool;
  _state : option string;
}.

(** [NDITracker.__init__]. *)
Definition __init__ : NDITracker :=
  {| device := DevNone;
     tool_descriptors := [];
     tracker_type := None;
     ip_address := None;
     port := None;
     serial_port := None;
     ports_to_probe := None;
     _device_firmware_version := None;
     _use_bx_transforms := None;
     _state := None |}.

Definition with_device (v : pydevice) (d : NDITracker) : NDITracker :=
  Build_NDITracker v (tool_descriptors d) (tracker_type d) (ip_address d)
    (port d) (serial_port d) (ports_to_probe d) (_device_firmware_version d)
    (_use_bx_transforms d) (_state d).

Definition with_tool_descriptors (v : list tool_descriptor) (d : NDITracker)
  : NDITracker :=
  Build_NDITracker (device d) v (tracker_type d) (ip_address d)
    (port d) (serial_port d) (ports_to_probe d) (_device_firmware_version d)
    (_use_bx_transforms d) (_state d).

Definition with_tracker_type (v : option string) (d : NDITracker) : NDITracker :=
  Build_NDITracker (device d) (tool_descriptors d) v (ip_address d)
    (port d) (serial_port d) (ports_to_probe d) (_device_firmware_version d)
    (_use_bx_transforms d) (_state d).

Definition with_ip_address (v : option string) (d : NDITracker) : NDITracker :=
  Build_NDITracker (device d) (tool_descriptors d) (tracker_type d) v
    (port d) (serial_port d) (ports_to_probe d) (_device_firmware_version d)
    (_use_bx_transforms d) (_state d).

Definition with_port (v : option Z) (d : NDITracker) : NDITracker :=
  Build_NDITracker (device d) (tool_descriptors d) (tracker_type d)
    (ip_address d) v (serial_port d) (ports_to_probe d)
    (_device_firmware_version d) (_use_bx_transforms d) (_state d).

Definition with_serial_port (v : option Z) (d : NDITracker) : NDITracker :=
  Build_NDITracker (device d) (tool_descriptors d) (tracker_type d)
    (ip_address d) (port d) v (ports_to_probe d)
    (_device_firmware_version d) (_use_bx_transforms d) (_state d).

Definition with_ports_to_probe (v : option Z) (d : NDITracker) : NDITracker :=
  Build_NDITracker (device d) (tool_descriptors d) (tracker_type d)
    (ip_address d) (port d) (serial_port d) v
    (_device_firmware_version d) (_use_bx_transforms d) (_state d).

Definition with_firmware_version (v : option string) (d : NDITracker)
  : NDITracker :=
  Build_NDITracker (device d) (tool_descriptors d) (tracker_type d)
    (ip_address d) (port d) (serial_port d) (ports_to_probe d) v
    (_use_bx_transforms d) (_state d).

Definition with_use_bx_transforms (v : option bool) (d : NDITracker)
  : NDITracker :=
  Build_NDITracker (device d) (tool_descriptors d) (tracker_type d)
    (ip_address d) (port d) (serial_port d) (ports_to_probe d)
    (_device_firmware_version d) v (_state d).

Definition with_state (v : option string) (d : NDITracker) : NDITracker :=
  Build_NDITracker (device d) (tool_descriptors d) (tracker_type d)
    (ip_address d) (port d) (serial_port d) (ports_to_probe d)
    (_device_firmware_version d) (_use_bx_transforms d) v.

(** [self.tracker_type == s]. *)
Definition type_is (d : NDITracker) (s : string) : bool :=
  match tracker_type d with
  | Some t => String.eqb t s
  | None => false
  end.

(** [self._state == s]. *)
Definition state_is (d : NDITracker) (s : string) : bool :=
  match _state d with
  | Some t => String.eqb t s
  | None => false
  end.

(** ** The collaborators *)

(** Every call the driver makes outside itself, with its arguments. *)
Inductive call : Type :=
| Call_system
| Call_ping (param : string) (address : option string)
| Call_time
| Call_ndiDeviceName (port_no : option Z)
| Call_ndiProbe (name : option string)
| Call_ndiOpen (name : option string)
| Call_ndiClose (dev : pydevice)
| Call_ndiOpenNetwork (address : option string) (port_no : option Z)
| Call_ndiCloseNetwork (dev : pydevice)
| Call_ndiGetPHSRNumberOfHandles (dev : pydevice)
| Call_ndiGetPHRQHandle (dev : pydevice) (index : option Z)
| Call_ndiPVWRFromFile (dev : pydevice) (handle : Z) (file : pyobj)
| Call_ndiGetBXTransform (dev : pydevice) (handle : option string)
| Call_ndiGetBXFrame (dev : pydevice) (handle : option string)
| Call_ndiGetGXTransform (dev : pydevice) (handle : option string)
| Call_ndiGetGXFrame (dev : pydevice) (handle : option string)
| Call_ndiCommand (dev : pydevice) (command : string)
| Call_ndiGetError (dev : pydevice)
| Call_ndiErrorString (errnum : Z)
| Call_ndiVER (dev : pydevice) (n : Z).

Definition trace : Type := list call.

(** The transport collaborators are the [ndicapy] primitives and the
    reachability probe; the host clock and the platform name are not. *)
Definition is_transport (c : call) : bool :=
  match c with
  | Call_system | Call_time => false
  | _ => true
  end.

(** The collaborators' side: the four [ndicapy] constants the driver reads,
    and the answer to a call as a function of the history that ends with this
    call, one function for each type of answer.  A device answers [None] for
    "no device". *)
Record collaborators : Type := {
  NDI_OKAY : Z;
  NDI_115200 : Z;
  NDI_8N1 : Z;
  NDI_NOHANDSHAKE : Z;
  reply_int : trace -> Z;
  reply_str : trace -> string;
  reply_name : trace -> option string;
  reply_device : trace -> option Z;
  reply_transform : trace -> transform;
  reply_time : trace -> float;
}.

Definition device_of_reply (r : option Z) : pydevice :=
  match r with
  | None => DevNone
  | Some h => DevCapsule h
  end.

(** ** The monad of methods: the object, the trace, and exceptions *)

Inductive outcome (A : Type) : Type :=
| Returns (a : A) (d : NDITracker) (tr : trace)
| Raises (e : exn) (d : NDITracker) (tr : trace).
Arguments Returns {A} a d tr.
Arguments Raises {A} e d tr.

Definition M (A : Type) : Type := NDITracker -> trace -> outcome A.

Definition ret {A} (a : A) : M A := fun d tr => Returns a d tr.

Definition raise {A} (e : exn) : M A := fun d tr => Raises e d tr.

Definition bind {A B} (m : M A) (k : A -> M B) : M B :=
  fun d tr =>
    match m d tr with
    | Returns a d' tr' => k a d' tr'
    | Raises e d' tr' => Raises e d' tr'
    end.

Notation "x <- m ;; k" := (bind m (fun x => k))
  (at level 90, m at level 80, right associativity).
Notation "m ;;; k" := (bind m (fun _ => k))
  (at level 90, right associativity).

(** Read and update [self]. *)
Definition get_self : M NDITracker := fun d tr => Returns d d tr.
Definition modify (f : NDITracker -> NDITracker) : M unit :=
  fun d tr => Returns tt (f d) tr.

(** [if c: body]. *)
Definition when (c : bool) (body : M unit) : M unit :=
  if c then body else ret tt.

(** A result of an array assignment. *)
Definition lift {A} (r : exn + A) : M A :=
  match r with
  | inl e => raise e
  | inr a => ret a
  end.

(** [for x in l: body x]. *)
Fixpoint for_each {A} (l : list A) (body : A -> M unit) : M unit :=
  match l with
  | [] => ret tt
  | x :: l' => body x ;;; for_each l' body
  end.

(** [range(n)]. *)
Definition range (n : nat) : list nat := seq 0 n.

(** The final object and trace of an outcome, however it ended. *)
Definition final_self {A} (o : outcome A) : NDITracker :=
  match o with
  | Returns _ d _ | Raises _ d _ => d
  end.

Definition final_trace {A} (o : outcome A) : trace :=
  match o with
  | Returns _ _ tr | Raises _ _ tr => tr
  end.

(** ** The configuration dictionary *)

(** The keys [connect] reads, each absent ([None]) or present with a value of
    the type the driver expects:
    ["tracker type"], ["ip address"], ["port"], ["romfiles"],
    ["serial port"], ["number of ports to probe"], ["ports to use"]. *)
Record configuration : Type := {
  cfg_tracker_type : option string;
  cfg_ip_address : option string;
  cfg_port : option Z;
  cfg_romfiles : option (list string);
  cfg_serial_port : option Z;
  cfg_number_of_ports_to_probe : option Z;
  cfg_ports_to_use : option (list Z);
}.

(** [key in configuration]. *)
Definition has_key {A} (v : option A) : bool :=
  match v with
  | Some _ => true
  | None => false
  end.

(** ['{}'.format(v)] for an attribute that may still be [None]. *)
Definition str_of_opt_int (v : option Z) : string :=
  match v with
  | Some z => format_d z
  | None => "None"
  end.

Definition str_of_opt_str (v : option string) : string :=
  match v with
  | Some s => s
  | None => "None"
  end.

Definition dquote : string := String (ascii_of_nat 34) EmptyString.

(** The text of the [IOError] of [_connect_serial]. *)
Definition no_device_message (candidates : option Z) : string :=
  "Could not find any NDI device in " +:+ str_of_opt_int candidates +:+
  " serial port candidates checked. Please check the following:" +:+ nl +:+
  tab +:+ "1) Is an NDI device connected to your computer?" +:+ nl +:+
  tab +:+ "2) Is the NDI device switched on?" +:+ nl +:+
  tab +:+ "3) Do you have sufficient privilege to connect to " +:+
  "the device? (e.g. on Linux are you part of the " +:+ dquote +:+ "dialout" +:+
  dquote +:+ " group?)".

(** The text of the [IOError] of [_check_for_errors]. *)
Definition error_message (message text : string) : string :=
  "error when " +:+ message +:+ ". the error was: " +:+ text.

(** ** The methods *)

Section Driver.

Variable ndi : collaborators.

(** A call to a collaborator: it is appended to the trace and answered from
    the history. *)
Definition invoke {A} (c : call) (answer : collaborators -> trace -> A) : M A :=
  fun d tr => Returns (answer ndi (tr ++ [c])) d (tr ++ [c]).

Definition system : M string := invoke Call_system reply_str.
Definition ping (param : string) (address : option string) : M Z :=
  invoke (Call_ping param address) reply_int.
Definition time : M float := invoke Call_time reply_time.
Definition ndiDeviceName (port_no : option Z) : M (option string) :=
  invoke (Call_ndiDeviceName port_no) reply_name.
Definition ndiProbe (name : option string) : M Z :=
  invoke (Call_ndiProbe name) reply_int.
Definition ndiOpen (name : option string) : M pydevice :=
  r <- invoke (Call_ndiOpen name) reply_device ;; ret (device_of_reply r).
Definition ndiClose (dev : pydevice) : M unit :=
  invoke (Call_ndiClose dev) (fun _ _ => tt).
Definition ndiOpenNetwork (address : option string) (port_no : option Z)
  : M pydevice :=
  r <- invoke (Call_ndiOpenNetwork address port_no) reply_device ;;
  ret (device_of_reply r).
Definition ndiCloseNetwork (dev : pydevice) : M unit :=
  invoke (Call_ndiCloseNetwork dev) (fun _ _ => tt).
Definition ndiGetPHSRNumberOfHandles (dev : pydevice) : M Z :=
  invoke (Call_ndiGetPHSRNumberOfHandles dev) reply_int.
Definition ndiGetPHRQHandle (dev : pydevice) (index : option Z) : M Z :=
  invoke (Call_ndiGetPHRQHandle dev index) reply_int.
Definition ndiPVWRFromFile (dev : pydevice) (handle : Z) (file : pyobj)
  : M unit :=
  invoke (Call_ndiPVWRFromFile dev handle file) (fun _ _ => tt).
Definition ndiGetBXTransform (dev : pydevice) (handle : option string)
  : M transform :=
  invoke (Call_ndiGetBXTransform dev handle) reply_transform.
Definition ndiGetBXFrame (dev : pydevice) (handle : option string) : M Z :=
  invoke (Call_ndiGetBXFrame dev handle) reply_int.
Definition ndiGetGXTransform (dev : pydevice) (handle : option string)
  : M transform :=
  invoke (Call_ndiGetGXTransform dev handle) reply_transform.
Definition ndiGetGXFrame (dev : pydevice) (handle : option string) : M Z :=
  invoke (Call_ndiGetGXFrame dev handle) reply_int.
Definition ndiCommand (dev : pydevice) (command : string) : M unit :=
  invoke (Call_ndiCommand dev command) (fun _ _ => tt).
Definition ndiGetError (dev : pydevice) : M Z :=
  invoke (Call_ndiGetError dev) reply_int.
Definition ndiErrorString (errnum : Z) : M string :=
  invoke (Call_ndiErrorString errnum) reply_str.
Definition ndiVER (dev : pydevice) (n : Z) : M string :=
  invoke (Call_ndiVER dev n) reply_str.

(** [_check_for_errors]: the serial [ndiClose] whatever the tracker type,
    then the error text is fetched for the message, then the raise;
    [self.device] is left as it is. *)
Definition _check_for_errors (message : string) : M unit :=
  self <- get_self ;;
  errnum <- ndiGetError (device self) ;;
  if negb (errnum =? NDI_OKAY ndi) then
    ndiClose (device self) ;;;
    text <- ndiErrorString errnum ;;
    raise (IOError (error_message message text))
  else ret tt.

Definition start_tracking : M unit :=
  self <- get_self ;;
  ndiCommand (device self) "TSTART:" ;;;
  _check_for_errors "starting tracking." ;;;
  modify (with_state (Some "tracking")).

Definition stop_tracking : M unit :=
  self <- get_self ;;
  ndiCommand (device self) "TSTOP:" ;;;
  _check_for_errors "stopping tracking." ;;;
  modify (with_state (Some "ready")).

Definition close : M unit :=
  self <- get_self ;;
  if negb (truthy_device (device self)) then
    raise (ValueError "close called with no NDI device")
  else
    when (state_is self "tracking") stop_tracking ;;;
    self <- get_self ;;
    when (type_is self "vega") (ndiCloseNetwork (device self)) ;;;
    self <- get_self ;;
    when (type_is self "aurora" || type_is self "polaris")
      (ndiClose (device self)) ;;;
    modify (with_device DevNone).

(** *** Configuration *)

(** [self.tool_descriptors.append(tool)]. *)
Definition append_tool (tool : tool_descriptor) : M unit :=
  modify (fun d => with_tool_descriptors (tool_descriptors d ++ [tool]) d).

Definition append_romfiles (romfiles : list string) : M unit :=
  for_each romfiles (fun romfile =>
    append_tool (ToolDescriptor (PyStr romfile) None None)).

Definition set_serial_options (cfg : configuration) : M unit :=
  (match cfg_serial_port cfg with
   | Some p => modify (with_serial_port (Some p))
   | None => modify (with_serial_port (Some (-1)))
   end) ;;;
  match cfg_number_of_ports_to_probe cfg with
  | Some n => modify (with_ports_to_probe (Some n))
  | None => modify (with_ports_to_probe (Some 20))
  end.

Definition _config_vega (cfg : configuration) : M unit :=
  match cfg_ip_address cfg with
  | None => raise (KeyError "Configuration for vega must contain'ip address'")
  | Some address =>
      modify (with_ip_address (Some address)) ;;;
      (match cfg_port cfg with
       | None => modify (with_port (Some 8765))
       | Some p => modify (with_port (Some p))
       end) ;;;
      match cfg_romfiles cfg with
      | None =>
          raise (KeyError
            "Configuration for vega and polaris mustcontain a list of 'romfiles'")
      | Some romfiles => append_romfiles romfiles
      end
  end.

Definition _config_polaris (cfg : configuration) : M unit :=
  match cfg_romfiles cfg with
  | None =>
      raise (KeyError
        "Configuration for vega and polaris mustcontain a list of 'romfiles'")
  | Some romfiles =>
      append_romfiles romfiles ;;;
      set_serial_options cfg
  end.

Definition _config_aurora (cfg : configuration) : M unit :=
  match cfg_ports_to_use cfg with
  | None =>
      raise (KeyError
        "Configuration for aurora mustcontain a list of 'ports to use'")
  | Some ports =>
      for_each ports (fun p =>
        append_tool (ToolDescriptor (PyInt p) (Some p) (Some (format_d p)))) ;;;
      set_serial_options cfg
  end.

Definition _config_dummy (cfg : configuration) : M unit :=
  match cfg_romfiles cfg with
  | Some romfiles => append_romfiles romfiles
  | None => ret tt
  end.

Definition supported_trackers : list string :=
  ["vega"; "polaris"; "aurora"; "dummy"].

Definition _configure (cfg : configuration) : M unit :=
  match cfg_tracker_type cfg with
  | None => raise (KeyError "Configuration must contain 'Tracker type'")
  | Some tracker =>
      (if existsb (String.eqb tracker) supported_trackers then
         modify (with_tracker_type (Some tracker))
       else
         raise (ValueError
           "Supported trackers are 'vega', 'aurora', 'polaris', and 'dummy'")) ;;;
      self <- get_self ;;
      when (type_is self "vega") (_config_vega cfg) ;;;
      self <- get_self ;;
      when (type_is self "polaris") (_config_polaris cfg) ;;;
      self <- get_self ;;
      when (type_is self "aurora") (_config_aurora cfg) ;;;
      self <- get_self ;;
      when (type_is self "dummy") (_config_dummy cfg)
  end.

(** *** Connection *)

Definition _connect_network : M unit :=
  platform <- system ;;
  let param := if String.eqb (lower platform) "windows" then "-n" else "-c" in
  self <- get_self ;;
  status <- ping param (ip_address self) ;;
  (if status =? 0 then
     dev <- ndiOpenNetwork (ip_address self) (port self) ;;
     modify (with_device dev)
   else
     raise (IOError ("Could not find a device at " +:+
                     str_of_opt_str (ip_address self)))) ;;;
  self <- get_self ;;
  (if negb (truthy_device (device self)) then
     raise (IOError ("Could not connect to network NDI device at " +:+
                     str_of_opt_str (ip_address self)))
   else ret tt) ;;;
  ndiCommand (device self) "INIT:" ;;;
  _check_for_errors "Sending INIT command".

(** The two locals of [_connect_serial]; [None] is "not yet assigned". *)
Record serial_locals : Type := {
  name : option (option string);
  result : option Z;
}.

(** The scan [for port_no in range(self.ports_to_probe)], with its
    [continue] and [break]. *)
Fixpoint probe_ports (candidates : list nat) (locals : serial_locals)
  : M serial_locals :=
  match candidates with
  | [] => ret locals
  | port_no :: rest =>
      n <- ndiDeviceName (Some (Z.of_nat port_no)) ;;
      if negb (truthy_name n) then
        probe_ports rest {| name := Some n; result := result locals |}
      else
        r <- ndiProbe n ;;
        if r =? NDI_OKAY ndi then ret {| name := Some n; result := Some r |}
        else probe_ports rest {| name := Some n; result := Some r |}
  end.

(** [range(self.ports_to_probe)]. *)
Definition probe_range (n : option Z) : M (list nat) :=
  match n with
  | None =>
      raise (TypeError "'NoneType' object cannot be interpreted as an integer")
  | Some z => ret (range (Z.to_nat z))
  end.

Definition _connect_serial : M unit :=
  self <- get_self ;;
  locals <-
    (if match serial_port self with Some p => p =? -1 | None => false end then
       candidates <- probe_range (ports_to_probe self) ;;
       probe_ports candidates {| name := None; result := None |}
     else
       n <- ndiDeviceName (serial_port self) ;;
       r <- ndiProbe n ;;
       ret {| name := Some n; result := Some r |}) ;;
  match result locals with
  | None => raise (UnboundLocalError "result")
  | Some r =>
      if negb (r =? NDI_OKAY ndi) then
        raise (IOError (no_device_message (ports_to_probe self)))
      else
        match name locals with
        | None => raise (UnboundLocalError "name")
        | Some n =>
            dev <- ndiOpen n ;;
            modify (with_device dev) ;;;
            self <- get_self ;;
            (if negb (truthy_device (device self)) then
               raise (IOError ("Could not connect to serial NDI device at " +:+
                               str_of_opt_str n))
             else ret tt) ;;;
            ndiCommand (device self) "INIT:" ;;;
            _check_for_errors "Sending INIT command" ;;;
            self <- get_self ;;
            ndiCommand (device self)
              ("COMM:" +:+ format_d (NDI_115200 ndi) +:+
               format_03d (NDI_8N1 ndi) +:+ format_d (NDI_NOHANDSHAKE ndi))
        end
  end.

(** *** Port lifecycle *)

(** [tool.update({"port handle": h})] then
    [tool.update({"c_str port handle": str(h).encode()})] on the [i]-th
    descriptor. *)
Definition update_handle (i : nat) (h : Z) : M unit :=
  modify (fun d =>
    with_tool_descriptors
      (alter (fun tool =>
                ToolDescriptor (description tool) (Some h) (Some (format_d h)))
             i (tool_descriptors d)) d).

(** [self.tool_descriptors[i]]. *)
Definition get_tool (i : nat) : M tool_descriptor :=
  self <- get_self ;;
  match tool_descriptors self !! i with
  | Some tool => ret tool
  | None => raise (IndexError "list index out of range")
  end.

(** ['{0:02x}'.format(tool.get("port handle"))]. *)
Definition format_handle_02x (h : option Z) : M string :=
  match h with
  | Some z => ret (format_02x z)
  | None =>
      raise (TypeError "unsupported format string passed to NoneType.__format__")
  end.

Definition _read_sroms_from_file : M unit :=
  self <- get_self ;;
  if negb (truthy_device (device self)) then
    raise (ValueError "read srom called with no NDI device")
  else
    stop_tracking ;;;
    self <- get_self ;;
    ndiCommand (device self) "PHSR:01" ;;;
    number_of_tools <- ndiGetPHSRNumberOfHandles (device self) ;;
    for_each (range (Z.to_nat number_of_tools)) (fun tool_index =>
      self <- get_self ;;
      port_handle <- ndiGetPHRQHandle (device self) (Some (Z.of_nat tool_index)) ;;
      ndiCommand (device self) ("PHF:" +:+ format_02x port_handle) ;;;
      _check_for_errors ("freeing port handle " +:+
                         format_02x (Z.of_nat tool_index) +:+ ".")) ;;;
    self <- get_self ;;
    for_each (range (length (tool_descriptors self))) (fun i =>
      self <- get_self ;;
      ndiCommand (device self) "PHRQ:*********1****" ;;;
      port_handle <- ndiGetPHRQHandle (device self) None ;;
      update_handle i port_handle ;;;
      _check_for_errors ("getting srom file port handle " +:+
                         format_d port_handle +:+ ".") ;;;
      tool <- get_tool i ;;
      self <- get_self ;;
      ndiPVWRFromFile (device self) port_handle (description tool) ;;;
      _check_for_errors ("setting srom file port handle " +:+
                         format_d port_handle +:+ ".")) ;;;
    self <- get_self ;;
    ndiCommand (device self) "PHSR:01".

Definition _initialise_ports : M unit :=
  self <- get_self ;;
  if negb (truthy_device (device self)) then
    raise (ValueError "init ports called with no NDI device")
  else
    ndiCommand (device self) "PHSR:02" ;;;
    self <- get_self ;;
    for_each (tool_descriptors self) (fun tool =>
      self <- get_self ;;
      handle <- format_handle_02x (port_handle tool) ;;
      ndiCommand (device self) ("PINIT:" +:+ handle) ;;;
      handle <- format_handle_02x (port_handle tool) ;;
      _check_for_errors ("Initialising port handle " +:+ handle +:+ ".")).

Definition _enable_tools : M unit :=
  self <- get_self ;;
  if negb (truthy_device (device self)) then
    raise (ValueError "enable tools called with no NDI device")
  else
    ndiCommand (device self) "PHSR:03" ;;;
    self <- get_self ;;
    for_each (tool_descriptors self) (fun tool =>
      let mode := "D" in
      self <- get_self ;;
      handle <- format_handle_02x (port_handle tool) ;;
      ndiCommand (device self) ("PENA:" +:+ handle +:+ mode) ;;;
      _check_for_errors ("Enabling port handle " +:+
                         str_of_opt_int (port_handle tool) +:+ ".")).

Definition _connect_vega : M unit :=
  _connect_network ;;;
  _read_sroms_from_file ;;;
  _initialise_ports ;;;
  _enable_tools.

Definition _connect_polaris : M unit :=
  _connect_serial ;;;
  _read_sroms_from_file ;;;
  _initialise_ports ;;;
  _enable_tools.

Definition _connect_aurora : M unit :=
  _connect_serial ;;;
  _initialise_ports ;;;
  _enable_tools.

(** *** Frames *)

(** A [for] loop that carries a local value, here the array being filled. *)
Fixpoint for_fold {A S} (l : list A) (s : S) (body : A -> S -> M S) : M S :=
  match l with
  | [] => ret s
  | x :: l' => s' <- body x s ;; for_fold l' s' body
  end.

(** The body of the loop of [_get_frame_bx] and [_get_frame_gx], which differ
    in the two primitives they call. *)
Definition read_tool
    (get_frame_number : pydevice -> option string -> M Z)
    (get_transform : pydevice -> option string -> M transform)
    (timestamp : float) (i : nat) (return_array : array float)
  : M (array float) :=
  tool <- get_tool i ;;
  return_array <- lift (set_cell return_array i 0
                          (float_of_handle (port_handle tool))) ;;
  return_array <- lift (set_cell return_array i 1 timestamp) ;;
  self <- get_self ;;
  tool <- get_tool i ;;
  frame <- get_frame_number (device self) (c_str_port_handle tool) ;;
  return_array <- lift (set_cell return_array i 2 (float_of_int frame)) ;;
  self <- get_self ;;
  tool <- get_tool i ;;
  transform <- get_transform (device self) (c_str_port_handle tool) ;;
  match transform with
  | MISSING | DISABLED => ret return_array
  | Pose vals => lift (set_slice return_array i 3 11 vals)
  end.

Definition get_frame_with (command : string)
    (get_frame_number : pydevice -> option string -> M Z)
    (get_transform : pydevice -> option string -> M transform)
  : M (array float) :=
  self <- get_self ;;
  let return_array := full (length (tool_descriptors self)) 11 nan in
  timestamp <- time ;;
  self <- get_self ;;
  if negb (type_is self "dummy") then
    ndiCommand (device self) command ;;;
    self <- get_self ;;
    for_fold (range (length (tool_descriptors self))) return_array
      (read_tool get_frame_number get_transform timestamp)
  else
    for_fold (range (length (tool_descriptors self))) return_array
      (fun i return_array => lift (set_cell return_array i 1 timestamp)).

Definition _get_frame_bx : M (array float) :=
  get_frame_with "BX:0801" ndiGetBXFrame ndiGetBXTransform.

Definition _get_frame_gx : M (array float) :=
  get_frame_with "GX:0801" ndiGetGXFrame ndiGetGXTransform.

(** [if self._use_bx_transforms]: [None] is false. *)
Definition get_frame : M (array float) :=
  self <- get_self ;;
  match _use_bx_transforms self with
  | Some true => _get_frame_bx
  | _ => _get_frame_gx
  end.

(** The body of the loop of [get_tool_descriptions]. *)
Definition describe_tool (i : nat) (descriptions : array pyobj)
  : M (array pyobj) :=
  descriptions <- lift (set_cell descriptions i 0 (PyInt (Z.of_nat i))) ;;
  tool <- get_tool i ;;
  lift (set_cell descriptions i 1 (description tool)).

Definition get_tool_descriptions : M (array pyobj) :=
  self <- get_self ;;
  let descriptions := full (length (tool_descriptors self)) 2 (PyStr "empty") in
  for_fold (range (length (tool_descriptors self))) descriptions describe_tool.

(** *** Firmware *)

Definition _set_use_bx_transforms : M unit :=
  modify (with_use_bx_transforms (Some true)) ;;;
  self <- get_self ;;
  when (match _device_firmware_version self with
        | Some v => String.eqb v " AURORA Rev 007"
        | None => false
        end)
    (modify (with_use_bx_transforms (Some false))).

Definition colon : ascii := ascii_of_nat 58.

Definition _get_firmware_version : M unit :=
  modify (with_firmware_version (Some "unknown 00.0")) ;;;
  self <- get_self ;;
  when (negb (type_is self "dummy"))
    (device_info <- ndiVER (device self) 0 ;;
     for_each (split newline device_info) (fun line =>
       when (startswith "Freeze Tag:" line)
         match split colon line with
         | _ :: version :: _ => modify (with_firmware_version (Some version))
         | _ => raise (IndexError "list index out of range")
         end)).

(** *** [connect] *)

Definition connect (cfg : configuration) : M unit :=
  _configure cfg ;;;
  self <- get_self ;;
  when (type_is self "vega") _connect_vega ;;;
  self <- get_self ;;
  when (type_is self "aurora") _connect_aurora ;;;
  self <- get_self ;;
  when (type_is self "polaris") _connect_polaris ;;;
  self <- get_self ;;
  when (type_is self "dummy") (modify (with_device DevTrue)) ;;;
  _get_firmware_version ;;;
  _set_use_bx_transforms.

End Driver.

(** ** Vocabulary of the properties *)

(** The revision string for which the binary frames are not used. *)
Definition legacy_revision : string := " AURORA Rev 007".

(** The version recorded when the device reports no "Freeze Tag". *)
Definition unknown_version : string := "unknown 00.0".

(** The derived flag: [not self._use_bx_transforms]. *)
Definition preferTextFrames (d : NDITracker) : bool :=
  match _use_bx_transforms d with
  | Some true => false
  | _ => true
  end.

(** The lines of a version reply that carry the firmware revision. *)
Definition freeze_tag_lines (device_info : string) : list string :=
  filter (fun line => startswith "Freeze Tag:" line = true)
         (split newline device_info).

(** [KeyError] and [ValueError] are what [_configure] raises for a bad
    configuration. *)
Definition is_configuration_error (e : exn) : bool :=
  match e with
  | KeyError _ | ValueError _ => true
  | _ => false
  end.

(** A configuration that lacks a required field: no tracker type, a tracker
    type that is not supported, no rom files for vega or polaris, no ports
    for aurora. *)
Definition missing_required_field (cfg : configuration) : bool :=
  match cfg_tracker_type cfg with
  | None => true
  | Some t =>
      negb (existsb (String.eqb t) supported_trackers)
      || ((String.eqb t "vega" || String.eqb t "polaris")
          && negb (has_key (cfg_romfiles cfg)))
      || (String.eqb t "aurora" && negb (has_key (cfg_ports_to_use cfg)))
  end.

(** The calls appended to a trace. *)
Definition calls_since (before after : trace) : trace :=
  drop (length before) after.

(** *** Sample collaborators and objects *)

Definition sample_pose : list float :=
  map float_of_int [10; 20; 30; 1; 0; 0; 0; 5].

(** A device that answers every command with [NDI_OKAY], reports the legacy
    revision, hands out the length of the history as port handle and loses
    sight of the tool it is asked about by its fortieth call. *)
Definition healthy_device : collaborators :=
  {| NDI_OKAY := 0; NDI_115200 := 5; NDI_8N1 := 0; NDI_NOHANDSHAKE := 0;
     reply_int := fun tr =>
       match last tr with
       | Some (Call_ndiGetPHRQHandle _ _) => Z.of_nat (length tr)
       | Some (Call_ndiGetBXFrame _ _) | Some (Call_ndiGetGXFrame _ _) => 77
       | _ => 0
       end;
     reply_str := fun _ => "Freeze Tag: AURORA Rev 007";
     reply_name := fun _ => Some "/dev/ttyS0";
     reply_device := fun _ => Some 1;
     reply_transform := fun tr =>
       if (length tr =? 40)%nat then MISSING else Pose sample_pose;
     reply_time := fun _ => fin (3 # 2) |}.

(** A host on which nothing is plugged in: no serial device has a name and
    every command fails with error 1. *)
Definition absent_device : collaborators :=
  {| NDI_OKAY := 0; NDI_115200 := 5; NDI_8N1 := 0; NDI_NOHANDSHAKE := 0;
     reply_int := fun _ => 1;
     reply_str := fun _ => "Bad CRC";
     reply_name := fun _ => None;
     reply_device := fun _ => None;
     reply_transform := fun _ => MISSING;
     reply_time := fun _ => fin 0 |}.

(** A network device that works until a port is enabled: the error register
    reads 4 after a [PENA] command, and [NDI_OKAY] otherwise. *)
Definition enable_fails_device : collaborators :=
  {| NDI_OKAY := 0; NDI_115200 := 5; NDI_8N1 := 0; NDI_NOHANDSHAKE := 0;
     reply_int := fun tr =>
       match rev tr with
       | Call_ndiGetError _ :: Call_ndiCommand _ command :: _ =>
           if startswith "PENA:" command then 4 else 0
       | Call_ndiGetPHRQHandle _ _ :: _ => 10
       | _ => 0
       end;
     reply_str := fun tr =>
       match last tr with
       | Some (Call_ndiErrorString _) => "Invalid port handle"
       | _ => "Linux"
       end;
     reply_name := fun _ => Some "/dev/ttyS0";
     reply_device := fun _ => Some 1;
     reply_transform := fun _ => MISSING;
     reply_time := fun _ => fin 0 |}.

Definition dummy_configuration (romfiles : option (list string)) : configuration :=
  {| cfg_tracker_type := Some "dummy"; cfg_ip_address := None; cfg_port := None;
     cfg_romfiles := romfiles; cfg_serial_port := None;
     cfg_number_of_ports_to_probe := None; cfg_ports_to_use := None |}.

Definition polaris_configuration (romfiles : list string) : configuration :=
  {| cfg_tracker_type := Some "polaris"; cfg_ip_address := None; cfg_port := None;
     cfg_romfiles := Some romfiles; cfg_serial_port := None;
     cfg_number_of_ports_to_probe := None; cfg_ports_to_use := None |}.

Definition vega_configuration (address : string) (romfiles : list string)
  : configuration :=
  {| cfg_tracker_type := Some "vega"; cfg_ip_address := Some address;
     cfg_port := None; cfg_romfiles := Some romfiles; cfg_serial_port := None;
     cfg_number_of_ports_to_probe := None; cfg_ports_to_use := None |}.

(** An aurora configuration without its port list. *)
Definition aurora_without_ports : configuration :=
  {| cfg_tracker_type := Some "aurora"; cfg_ip_address := None; cfg_port := None;
     cfg_romfiles := Some ["a.rom"]; cfg_serial_port := Some 0;
     cfg_number_of_ports_to_probe := None; cfg_ports_to_use := None |}.

(** *** Closing *)

(** The calls of a [stop_tracking] that meets no error. *)
Definition stop_calls (d : NDITracker) : trace :=
  [Call_ndiCommand (device d) "TSTOP:"; Call_ndiGetError (device d)].

(** The teardown [close] runs for each tracker type: the network close for
    vega, the serial close for aurora and polaris, nothing for the dummy. *)
Definition teardown_calls (d : NDITracker) : trace :=
  (if type_is d "vega" then [Call_ndiCloseNetwork (device d)] else []) ++
  (if type_is d "aurora" || type_is d "polaris"
   then [Call_ndiClose (device d)] else []).

(** The four lifecycle states, read off the object: the stored [_state] is
    ["tracking"] or ["ready"] once a start or a stop went through; before
    that the driver is connected when it holds a device and disconnected
    when it does not. *)
Inductive TrackingState : Type :=
| Disconnected
| Connected
| Ready
| Tracking.

Definition lifecycle_state (d : NDITracker) : TrackingState :=
  if state_is d "tracking" then Tracking
  else if state_is d "ready" then Ready
  else if truthy_device (device d) then Connected
  else Disconnected.

(** "The device handle is non-null whenever the state is not Disconnected". *)
Definition lifecycle_invariant (d : NDITracker) : Prop :=
  lifecycle_state d <> Disconnected -> device d <> DevNone.

(** A polaris with one tool, connected and tracking. *)
Definition tracking_polaris : NDITracker :=
  {| device := DevCapsule 1;
     tool_descriptors := [ToolDescriptor (PyStr "a.rom") (Some 10) (Some "10")];
     tracker_type := Some "polaris";
     ip_address := None;
     port := None;
     serial_port := Some (-1);
     ports_to_probe := Some 20;
     _device_firmware_version := Some "unknown 00.0";
     _use_bx_transforms := Some true;
     _state := Some "tracking" |}.

(** A vega with one tool, connected and ready. *)
Definition ready_vega : NDITracker :=
  {| device := DevCapsule 1;
     tool_descriptors := [ToolDescriptor (PyStr "a.rom") (Some 10) (Some "10")];
     tracker_type := Some "vega";
     ip_address := Some "10.0.0.1";
     port := Some 8765;
     serial_port := None;
     ports_to_probe := None;
     _device_firmware_version := Some "unknown 00.0";
     _use_bx_transforms := Some true;
     _state := Some "ready" |}.

(** *** Frames *)

(** A row of the dummy: only the host time is filled in. *)
Definition dummy_row (timestamp : float) : list float :=
  [nan; timestamp; nan; nan; nan; nan; nan; nan; nan; nan; nan].

(** The frame request and the two reads per tool that [get_frame] uses for
    this object: the binary ones when [_use_bx_transforms] is true, the text
    ones otherwise. *)
Definition frame_command (d : NDITracker) : string :=
  match _use_bx_transforms d with
  | Some true => "BX:0801"
  | _ => "GX:0801"
  end.

Definition frame_call (d : NDITracker) : pydevice -> option string -> call :=
  match _use_bx_transforms d with
  | Some true => Call_ndiGetBXFrame
  | _ => Call_ndiGetGXFrame
  end.

Definition transform_call (d : NDITracker) : pydevice -> option string -> call :=
  match _use_bx_transforms d with
  | Some true => Call_ndiGetBXTransform
  | _ => Call_ndiGetGXTransform
  end.

Definition tool_calls (d : NDITracker) (tool : tool_descriptor) : trace :=
  [frame_call d (device d) (c_str_port_handle tool);
   transform_call d (device d) (c_str_port_handle tool)].

(** The history at the moment [get_frame], called with trace [tr], turns to
    the tool of index [i]: the clock, the frame request, and the two reads of
    every tool before it. *)
Definition history_before (d : NDITracker) (tr : trace) (i : nat) : trace :=
  tr ++ [Call_time; Call_ndiCommand (device d) (frame_command d)]
     ++ flat_map (tool_calls d) (take i (tool_descriptors d)).

(** The eight cells a transform leaves in columns 3 to 10: not-a-number for
    the two status strings, the tuple for a tuple of eight, one value
    broadcast for a tuple of one; no other tuple can be stored. *)
Definition pose_block (t : transform) : option (list float) :=
  match t with
  | MISSING | DISABLED => Some (replicate 8 nan)
  | Pose vals =>
      if (length vals =? 8)%nat then Some vals
      else match vals with
           | [v] => Some (replicate 8 v)
           | _ => None
           end
  end.

(** The row [read_tool] writes for [tool] when the history is [h]. *)
Definition expected_row (ndi : collaborators)
    (frame transform : pydevice -> option string -> call)
    (dev : pydevice) (timestamp : float) (tool : tool_descriptor) (h : trace)
  : option (list float) :=
  let tr1 := h ++ [frame dev (c_str_port_handle tool)] in
  let tr2 := tr1 ++ [transform dev (c_str_port_handle tool)] in
  match pose_block (reply_transform ndi tr2) with
  | Some block =>
      Some (float_of_handle (port_handle tool) :: timestamp ::
            float_of_int (reply_int ndi tr1) :: block)
  | None => None
  end.

(** The tool descriptor [_configure] appends for a rom file, and for an
    aurora port. *)
Definition romfile_tool (romfile : string) : tool_descriptor :=
  ToolDescriptor (PyStr romfile) None None.

Definition port_tool (p : Z) : tool_descriptor :=
  ToolDescriptor (PyInt p) (Some p) (Some (format_d p)).

(** The table [get_tool_descriptions] builds. *)
Definition description_table (tools : list tool_descriptor) : array pyobj :=
  imap (fun i tool => [PyInt (Z.of_nat i); description tool]) tools.

(** *** Relations between the object before and after a method *)

(** [R] relates the object a method found to the object it leaves, whether
    it returns or raises. *)
Definition preserves (R : NDITracker -> NDITracker -> Prop) {A} (m : M A)
  : Prop :=
  forall d tr, R d (final_self (m d tr)).

(** The tool list grew at its end and is otherwise the same. *)
Definition extends_tools (d d' : NDITracker) : Prop :=
  exists added, tool_descriptors d' = tool_descriptors d ++ added.

(** The same, up to the handles written into the descriptors. *)
Definition extends_descriptions (d d' : NDITracker) : Prop :=
  exists added,
    map description (tool_descriptors d') =
    map description (tool_descriptors d) ++ added.

(** The object a [connect] with a dummy configuration leaves. *)
Definition dummy_connected (cfg : configuration) (d : NDITracker) : NDITracker :=
  with_use_bx_transforms (Some true)
    (with_firmware_version (Some unknown_version)
       (with_device DevTrue
          (with_tool_descriptors
             (tool_descriptors d ++
              map romfile_tool (default [] (cfg_romfiles cfg)))
             (with_tracker_type (Some "dummy") d)))).

(** *** Configuration, as a whole *)

(** The tools a configuration adds: one for each rom file (vega, polaris,
    dummy) or one for each port (aurora). *)
Definition new_tools (cfg : configuration) : list tool_descriptor :=
  match cfg_tracker_type cfg with
  | Some "aurora" => map port_tool (default [] (cfg_ports_to_use cfg))
  | _ => map romfile_tool (default [] (cfg_romfiles cfg))
  end.

(** The configurations [_configure] turns down: those that lack a required
    field, and a vega without its address. *)
Definition rejected (cfg : configuration) : bool :=
  missing_required_field cfg
  || match cfg_tracker_type cfg with
     | Some t => String.eqb t "vega" && negb (has_key (cfg_ip_address cfg))
     | None => false
     end.

(** A vega without an address, but with rom files. *)
Definition vega_without_address : configuration :=
  {| cfg_tracker_type := Some "vega"; cfg_ip_address := None;
     cfg_port := Some 9000; cfg_romfiles := Some ["a.rom"];
     cfg_serial_port := None; cfg_number_of_ports_to_probe := None;
     cfg_ports_to_use := None |}.

Definition aurora_configuration (ports : list Z) : configuration :=
  {| cfg_tracker_type := Some "aurora"; cfg_ip_address := None; cfg_port := None;
     cfg_romfiles := None; cfg_serial_port := Some 2;
     cfg_number_of_ports_to_probe := None; cfg_ports_to_use := Some ports |}.

(** *** Tracking and connecting *)

(** The calls of a [start_tracking] that meets no error. *)
Definition start_calls (d : NDITracker) : trace :=
  [Call_ndiCommand (device d) "TSTART:"; Call_ndiGetError (device d)].

(** What a failed error check adds after the read of the error register. *)
Definition failure_calls (d : NDITracker) (errnum : Z) : trace :=
  [Call_ndiClose (device d); Call_ndiErrorString errnum].

(** The option [ping] is given to send one packet. *)
Definition ping_param (platform : string) : string :=
  if String.eqb (lower platform) "windows" then "-n" else "-c".

(** The [COMM] command of [_connect_serial]. *)
Definition comm_command (ndi : collaborators) : string :=
  "COMM:" +:+ format_d (NDI_115200 ndi) +:+ format_03d (NDI_8N1 ndi) +:+
  format_d (NDI_NOHANDSHAKE ndi).

(** The calls of the scan that ask for a device name. *)
Definition is_name_call (c : call) : bool :=
  match c with
  | Call_ndiDeviceName _ => true
  | _ => false
  end.

(** The only calls a scan makes: a name is asked, and a port that has a
    name is probed. *)
Definition scan_call (c : call) : Prop :=
  match c with
  | Call_ndiDeviceName _ => True
  | Call_ndiProbe n => truthy_name n = true
  | _ => False
  end.

(** A polaris configured for the serial port 3, not yet connected. *)
Definition polaris_on_port_3 : NDITracker :=
  {| device := DevNone;
     tool_descriptors := [romfile_tool "a.rom"];
     tracker_type := Some "polaris";
     ip_address := None;
     port := None;
     serial_port := Some 3;
     ports_to_probe := Some 20;
     _device_firmware_version := None;
     _use_bx_transforms := None;
     _state := None |}.

(** A vega configured for 10.0.0.1, not yet connected. *)
Definition vega_configured : NDITracker :=
  {| device := DevNone;
     tool_descriptors := [romfile_tool "a.rom"];
     tracker_type := Some "vega";
     ip_address := Some "10.0.0.1";
     port := Some 8765;
     serial_port := None;
     ports_to_probe := None;
     _device_firmware_version := None;
     _use_bx_transforms := None;
     _state := None |}.

(** Serial ports that have a name but behind which nothing answers. *)
Definition unanswered_ports : collaborators :=
  {| NDI_OKAY := 0; NDI_115200 := 5; NDI_8N1 := 0; NDI_NOHANDSHAKE := 0;
     reply_int := fun _ => 257;
     reply_str := fun _ => "Timeout";
     reply_name := fun tr => Some ("/dev/ttyS" +:+ format_d (Z.of_nat (length tr)));
     reply_device := fun _ => None;
     reply_transform := fun _ => MISSING;
     reply_time := fun _ => fin 0 |}.

(** A polaris configured to scan two candidate ports. *)
Definition polaris_scanning_two : NDITracker :=
  {| device := DevNone;
     tool_descriptors := [romfile_tool "a.rom"];
     tracker_type := Some "polaris";
     ip_address := None;
     port := None;
     serial_port := Some (-1);
     ports_to_probe := Some 2;
     _device_firmware_version := None;
     _use_bx_transforms := None;
     _state := None |}.

(** *** The port phases *)

(** The command and the context of the error check for a port handle, in
    [_initialise_ports] and in [_enable_tools]. *)
Definition init_command (z : Z) : string := "PINIT:" +:+ format_02x z.
Definition init_context (z : Z) : string :=
  "Initialising port handle " +:+ format_02x z +:+ ".".
Definition enable_command (z : Z) : string := "PENA:" +:+ format_02x z +:+ "D".
Definition enable_context (z : Z) : string :=
  "Enabling port handle " +:+ format_d z +:+ ".".

(** The calls one tool costs in such a phase when its check passes: the
    command for its handle and the read of the error register. *)
Definition port_command_calls (command : Z -> string) (d : NDITracker)
    (tool : tool_descriptor) : trace :=
  match port_handle tool with
  | Some z => [Call_ndiCommand (device d) (command z);
               Call_ndiGetError (device d)]
  | None => []
  end.

Definition has_handle (tool : tool_descriptor) : Prop :=
  port_handle tool <> None.

(** The error register reads [NDI_OKAY] after the command of each of
    [tools], when the phase starts from the history [tr]. *)
Definition checks_pass (ndi : collaborators) (command : Z -> string)
    (d : NDITracker) (tr : trace) (tools : list tool_descriptor) : Prop :=
  forall j, (j < length tools)%nat ->
    reply_int ndi
      (tr ++ flat_map (port_command_calls command d) (take (S j) tools))
    = NDI_OKAY ndi.

(** One turn of the loop of a port phase, in the form both phases share. *)
Definition port_step (ndi : collaborators) (command context : Z -> string)
    (tool : tool_descriptor) : M unit :=
  match port_handle tool with
  | None =>
      raise (TypeError "unsupported format string passed to NoneType.__format__")
  | Some z =>
      self <- get_self ;;
      ndiCommand ndi (device self) (command z) ;;;
      _check_for_errors ndi (context z)
  end.

(** A polaris with two tools that have their handles, ready. *)
Definition polaris_two_tools : NDITracker :=
  {| device := DevCapsule 1;
     tool_descriptors := [ToolDescriptor (PyStr "a.rom") (Some 10) (Some "10");
                          ToolDescriptor (PyStr "b.rom") (Some 11) (Some "11")];
     tracker_type := Some "polaris";
     ip_address := None;
     port := None;
     serial_port := Some (-1);
     ports_to_probe := Some 20;
     _device_firmware_version := None;
     _use_bx_transforms := None;
     _state := Some "ready" |}.

(** *** Allocation of the port handles *)

Definition is_upload (c : call) : bool :=
  match c with
  | Call_ndiPVWRFromFile _ _ _ => true
  | _ => false
  end.

(** The calls that ask for the handle of a port waiting to be freed. *)
Definition is_stale_query (c : call) : bool :=
  match c with
  | Call_ndiGetPHRQHandle _ (Some _) => true
  | _ => false
  end.

(** A descriptor once port handle [h] is written into it. *)
Definition assign_handle (tool : tool_descriptor) (h : Z) : tool_descriptor :=
  ToolDescriptor (description tool) (Some h) (Some (format_d h)).

(** The upload of the tool's definition file to handle [h]. *)
Definition upload_call (d : NDITracker) (tool : tool_descriptor) (h : Z) : call :=
  Call_ndiPVWRFromFile (device d) h (description tool).

(** A device whose error register reads [NDI_OKAY] whenever it is read. *)
Definition all_checks_pass (ndi : collaborators) : Prop :=
  forall h dev, reply_int ndi (h ++ [Call_ndiGetError dev]) = NDI_OKAY ndi.

(** One turn of the first loop of [_read_sroms_from_file]. *)
Definition free_stale_handle (ndi : collaborators) (tool_index : nat) : M unit :=
  self <- get_self ;;
  port_handle <- ndiGetPHRQHandle ndi (device self) (Some (Z.of_nat tool_index)) ;;
  ndiCommand ndi (device self) ("PHF:" +:+ format_02x port_handle) ;;;
  _check_for_errors ndi ("freeing port handle " +:+
                         format_02x (Z.of_nat tool_index) +:+ ".").

(** One turn of its second loop, for the tool of index [i]. *)
Definition allocate_and_load (ndi : collaborators) (i : nat) : M unit :=
  self <- get_self ;;
  ndiCommand ndi (device self) "PHRQ:*********1****" ;;;
  port_handle <- ndiGetPHRQHandle ndi (device self) None ;;
  update_handle i port_handle ;;;
  _check_for_errors ndi ("getting srom file port handle " +:+
                         format_d port_handle +:+ ".") ;;;
  tool <- get_tool i ;;
  self <- get_self ;;
  ndiPVWRFromFile ndi (device self) port_handle (description tool) ;;;
  _check_for_errors ndi ("setting srom file port handle " +:+
                         format_d port_handle +:+ ".").

(** *** A device on which nothing goes wrong *)

(** The error register always reads [NDI_OKAY], every serial port has a name
    and answers the probe, every open gives a device and every ping comes
    back. *)
Definition healthy (ndi : collaborators) : Prop :=
  all_checks_pass ndi /\
  (forall h, truthy_name (reply_name ndi h) = true) /\
  (forall h n, reply_int ndi (h ++ [Call_ndiProbe n]) = NDI_OKAY ndi) /\
  (forall h, reply_device ndi h <> None) /\
  (forall h param address, reply_int ndi (h ++ [Call_ping param address]) = 0).

(** The serial settings let [_connect_serial] reach a port: an explicit
    port, or a scan of at least one candidate. *)
Definition reaches_a_port (d : NDITracker) : Prop :=
  exists p, serial_port d = Some p /\
    (p <> -1 \/ exists n, ports_to_probe d = Some n /\ 0 < n).

(** The serial settings of a configuration let a port be reached: an
    explicit port, or a scan of at least one candidate (20 by default). *)
Definition findable (cfg : configuration) : Prop :=
  default (-1) (cfg_serial_port cfg) <> -1 \/
  0 < default 20 (cfg_number_of_ports_to_probe cfg).

(** *** The firmware revision a version reply carries *)

(** [line.split(':')[1]]. *)
Definition version_of_line (line : string) : string :=
  match split colon line with
  | _ :: version :: _ => version
  | _ => ""
  end.

(** The revision of a version reply: what follows the first colon (up to
    the next one) on the last line that starts with "Freeze Tag:", and the
    sentinel when there is no such line. *)
Definition reported_version (device_info : string) : string :=
  match last (freeze_tag_lines device_info) with
  | Some line => version_of_line line
  | None => unknown_version
  end.

(** A device whose version reply has two "Freeze Tag" lines. *)
Definition two_tags_device : collaborators :=
  {| NDI_OKAY := 0; NDI_115200 := 5; NDI_8N1 := 0; NDI_NOHANDSHAKE := 0;
     reply_int := fun _ => 0;
     reply_str := fun _ =>
       "Polaris Vega" +:+ nl +:+ "Freeze Tag: Vega 1.0:beta" +:+ nl +:+
       "Serial: 17" +:+ nl +:+ "Freeze Tag: AURORA Rev 007";
     reply_name := fun _ => Some "/dev/ttyS0";
     reply_device := fun _ => Some 1;
     reply_transform := fun _ => MISSING;
     reply_time := fun _ => fin 0 |}.

(** *** Sessions *)

(** The public methods of the driver. *)
Inductive method : Type :=
| Connect (cfg : configuration)
| Close
| StartTracking
| StopTracking
| GetFrame
| GetToolDescriptions.

(** One call by a client that catches whatever is raised: the object and
    the trace the call leaves, however it ends. *)
Definition run_method (ndi : collaborators) (m : method)
    (s : NDITracker * trace) : NDITracker * trace :=
  let (d, tr) := s in
  match m with
  | Connect cfg =>
      (final_self (connect ndi cfg d tr), final_trace (connect ndi cfg d tr))
  | Close => (final_self (close ndi d tr), final_trace (close ndi d tr))
  | StartTracking =>
      (final_self (start_tracking ndi d tr),
       final_trace (start_tracking ndi d tr))
  | StopTracking =>
      (final_self (stop_tracking ndi d tr), final_trace (stop_tracking ndi d tr))
  | GetFrame =>
      (final_self (get_frame ndi d tr), final_trace (get_frame ndi d tr))
  | GetToolDescriptions =>
      (final_self (get_tool_descriptions d tr),
       final_trace (get_tool_descriptions d tr))
  end.

(** A session: a new object, then any calls in any order. *)
Definition session (ndi : collaborators) (calls : list method)
  : NDITracker * trace :=
  fold_left (fun s m => run_method ndi m s) calls (__init__, []).

(** The wire form of a tool's handle is the decimal text of its handle, and
    is absent when the handle is. *)
Definition wire_handle_matches (tool : tool_descriptor) : Prop :=
  c_str_port_handle tool = option_map format_d (port_handle tool).

Definition well_formed (d : NDITracker) : Prop :=
  Forall wire_handle_matches (tool_descriptors d) /\
  (_state d = None \/ _state d = Some "ready" \/ _state d = Some "tracking") /\
  (forall t, tracker_type d = Some t -> In t supported_trackers) /\
  (forall b, _use_bx_transforms d = Some b ->
             exists v, _device_firmware_version d = Some v /\
                       b = negb (String.eqb v legacy_revision)).

Definition keeps_well_formed (d d' : NDITracker) : Prop :=
  well_formed d -> well_formed d'.

(** ** Properties *)

(** *** The monad *)

Lemma bind_returns {A B} (m : M A) (k : A -> M B) d tr a d' tr' :
  m d tr = Returns a d' tr' -> bind m k d tr = k a d' tr'.
Proof. unfold bind. intros ->. reflexivity. Qed.

Lemma bind_raises {A B} (m : M A) (k : A -> M B) d tr e d' tr' :
  m d tr = Raises e d' tr' -> bind m k d tr = Raises e d' tr'.
Proof. unfold bind. intros ->. reflexivity. Qed.

Lemma bind_returns_inv {A B} (m : M A) (k : A -> M B) d tr b d2 tr2 :
  bind m k d tr = Returns b d2 tr2 ->
  exists a d1 tr1, m d tr = Returns a d1 tr1 /\ k a d1 tr1 = Returns b d2 tr2.
Proof.
  unfold bind. destruct (m d tr) as [a d1 tr1 | e d1 tr1]; intros H.
  - exists a, d1, tr1. split; [reflexivity | exact H].
  - discriminate H.
Qed.

(** *** Strings *)

Lemma split_not_nil sep s : split sep s <> [].
Proof.
  destruct s as [| c s]; simpl; [discriminate |].
  destruct (Ascii.eqb c sep); [discriminate |].
  destruct (split sep s); discriminate.
Qed.

Lemma prefix_app p s :
  String.prefix p s = true -> exists rest, s = p +:+ rest.
Proof.
  revert s. induction p as [| c p IH]; intros s H.
  - exists s. reflexivity.
  - destruct s as [| c' s]; simpl in H; [discriminate |].
    destruct (ascii_dec c c') as [-> | ]; [| discriminate].
    destruct (IH s H) as [rest ->]. exists rest. reflexivity.
Qed.

Lemma split_after_separator sep p s :
  exists a b rest, split sep (p +:+ String sep s) = a :: b :: rest.
Proof.
  induction p as [| c p (a & b & rest & IH)]; simpl.
  - rewrite Ascii.eqb_refl.
    destruct (split sep s) as [| b rest] eqn:E.
    + exfalso. exact (split_not_nil _ _ E).
    + eauto.
  - change ((String c p +:+ String sep s)) with (String c (p +:+ String sep s)).
    simpl. rewrite IH. destruct (Ascii.eqb c sep); eauto.
Qed.

Lemma freeze_tag_line_has_version line :
  startswith "Freeze Tag:" line = true ->
  exists a version rest, split colon line = a :: version :: rest.
Proof.
  intros H. apply prefix_app in H as [rest ->].
  apply (split_after_separator colon "Freeze Tag" rest).
Qed.

(** *** Firmware probe and the choice of frame protocol *)

Lemma _set_use_bx_transforms_spec d tr :
  _set_use_bx_transforms d tr =
  Returns tt
    (with_use_bx_transforms
       (Some (negb match _device_firmware_version d with
                   | Some v => String.eqb v legacy_revision
                   | None => false
                   end)) d) tr.
Proof.
  unfold _set_use_bx_transforms, bind, modify, get_self, when, legacy_revision.
  simpl. destruct (_device_firmware_version d) as [v |]; [| reflexivity].
  destruct (String.eqb v " AURORA Rev 007"); reflexivity.
Qed.

Lemma firmware_scan lines :
  forall v0 d tr,
  exists v,
    for_each lines (fun line =>
      when (startswith "Freeze Tag:" line)
        match split colon line with
        | _ :: version :: _ => modify (with_firmware_version (Some version))
        | _ => raise (IndexError "list index out of range")
        end) (with_firmware_version (Some v0) d) tr
    = Returns tt (with_firmware_version (Some v) d) tr /\
    (filter (fun line => startswith "Freeze Tag:" line = true) lines = [] ->
     v = v0).
Proof.
  induction lines as [| line lines IH]; intros v0 d tr.
  - exists v0. split; reflexivity.
  - cbn [for_each]. rewrite filter_cons.
    destruct (startswith "Freeze Tag:" line) eqn:Hline.
    + destruct (freeze_tag_line_has_version line Hline) as (a & v1 & rest & E).
      destruct (IH v1 d tr) as (v & Hrun & _).
      exists v. split.
      * unfold bind, when. rewrite E. exact Hrun.
      * destruct (decide (true = true)); [discriminate | congruence].
    + destruct (IH v0 d tr) as (v & Hrun & Hv).
      exists v. split.
      * unfold bind, when at 1. exact Hrun.
      * destruct (decide (false = true)); [discriminate | exact Hv].
Qed.

Lemma _get_firmware_version_spec ndi d tr :
  exists v tr',
    _get_firmware_version ndi d tr =
      Returns tt (with_firmware_version (Some v) d) tr' /\
    (type_is d "dummy" = true \/
     freeze_tag_lines (reply_str ndi (tr ++ [Call_ndiVER (device d) 0])) = [] ->
     v = unknown_version).
Proof.
  unfold _get_firmware_version, bind, modify, get_self.
  change (type_is (with_firmware_version (Some "unknown 00.0") d) "dummy")
    with (type_is d "dummy").
  destruct (type_is d "dummy") eqn:Htype; simpl.
  - exists unknown_version, tr. split; [reflexivity | tauto].
  - unfold ndiVER, invoke. simpl.
    destruct (firmware_scan
                (split newline (reply_str ndi (tr ++ [Call_ndiVER (device d) 0])))
                "unknown 00.0" d (tr ++ [Call_ndiVER (device d) 0]))
      as (v & Hrun & Hv).
    exists v, (tr ++ [Call_ndiVER (device d) 0]). split; [exact Hrun |].
    intros [H | H]; [discriminate | exact (Hv H)].
Qed.

(** C2. For every firmware version string the flag [preferTextFrames], that
    is [not self._use_bx_transforms], is true exactly when the string equals
    the legacy revision [" AURORA Rev 007"]; this holds for the string the
    probe records, whatever the device answers, and when the answer has no
    "Freeze Tag" line (or the tracker is the dummy) the recorded string is
    the sentinel ["unknown 00.0"] and the flag is false. *)
Theorem prefer_text_frames_iff_legacy_revision :
  (forall v d tr,
     _device_firmware_version d = Some v ->
     exists d',
       _set_use_bx_transforms d tr = Returns tt d' tr /\
       (preferTextFrames d' = true <-> v = legacy_revision)) /\
  (forall ndi d tr,
     exists v d' tr',
       (_get_firmware_version ndi ;;; _set_use_bx_transforms) d tr
         = Returns tt d' tr' /\
       _device_firmware_version d' = Some v /\
       (preferTextFrames d' = true <-> v = legacy_revision) /\
       (type_is d "dummy" = true \/
        freeze_tag_lines (reply_str ndi (tr ++ [Call_ndiVER (device d) 0])) = [] ->
        v = unknown_version /\ preferTextFrames d' = false)).
Proof.
  assert (Hflag : forall v d,
    preferTextFrames
      (with_use_bx_transforms (Some (negb (String.eqb v legacy_revision))) d)
      = true <-> v = legacy_revision).
  { intros v d. unfold preferTextFrames. simpl.
    destruct (String.eqb_spec v legacy_revision) as [-> | Hne]; simpl.
    - tauto.
    - split; [discriminate | contradiction]. }
  split.
  - intros v d tr Hv. eexists. split.
    + apply _set_use_bx_transforms_spec.
    + rewrite Hv. apply Hflag.
  - intros ndi d tr.
    destruct (_get_firmware_version_spec ndi d tr) as (v & tr' & Hrun & Hunknown).
    exists v. eexists. exists tr'. split; [| split; [| split]].
    + erewrite bind_returns by exact Hrun. apply _set_use_bx_transforms_spec.
    + reflexivity.
    + simpl. apply Hflag.
    + intros H. specialize (Hunknown H). subst v. split; reflexivity.
Qed.

Lemma prefer_text_frames_iff_legacy_revision_witness :
  (exists d',
     _set_use_bx_transforms
       (with_firmware_version (Some " AURORA Rev 007") __init__) []
       = Returns tt d' [] /\
     preferTextFrames d' = true) /\
  (exists d' tr',
     (_get_firmware_version healthy_device ;;; _set_use_bx_transforms)
       (with_tracker_type (Some "dummy") __init__) [] = Returns tt d' tr' /\
     _device_firmware_version d' = Some "unknown 00.0" /\
     preferTextFrames d' = false).
Proof.
  destruct prefer_text_frames_iff_legacy_revision as [Hpure Hprobe]. split.
  - destruct (Hpure " AURORA Rev 007"
                (with_firmware_version (Some " AURORA Rev 007") __init__) []
                eq_refl) as (d' & Hrun & Hiff).
    exists d'. split; [exact Hrun | apply Hiff; reflexivity].
  - destruct (Hprobe healthy_device (with_tracker_type (Some "dummy") __init__) [])
      as (v & d' & tr' & Hrun & Hv & _ & Hunknown).
    destruct (Hunknown (or_introl eq_refl)) as [-> Hflag].
    exists d', tr'. repeat split; assumption.
Defined.

(** *** Validation of the configuration *)

Lemma supported_tracker_cases t :
  existsb (String.eqb t) supported_trackers = true ->
  t = "vega" \/ t = "polaris" \/ t = "aurora" \/ t = "dummy".
Proof.
  unfold supported_trackers. simpl. rewrite !orb_true_iff, !String.eqb_eq.
  intuition discriminate.
Qed.

Ltac raises_here :=
  do 2 eexists; (split; [| split]); [| reflexivity | reflexivity]; reflexivity.

(** C7. A configuration that lacks a required field (no tracker type, an
    unsupported tracker type, no rom files for vega or polaris, no port list
    for aurora) makes [_configure], and so [connect], raise a [KeyError] or a
    [ValueError] with the trace of collaborator calls unchanged: nothing was
    sent to a transport or to the device. *)
Theorem missing_field_is_configuration_error :
  forall ndi cfg d tr,
    missing_required_field cfg = true ->
    exists e d',
      is_configuration_error e = true /\
      _configure cfg d tr = Raises e d' tr /\
      connect ndi cfg d tr = Raises e d' tr.
Proof.
  intros ndi [t address p romfiles sp n ports] d tr.
  unfold missing_required_field, connect, _configure. simpl.
  destruct t as [t |]; [| intros _; raises_here].
  destruct (existsb (String.eqb t) supported_trackers) eqn:Hsupported.
  - apply supported_tracker_cases in Hsupported.
    destruct Hsupported as [-> | [-> | [-> | ->]]]; simpl.
    + destruct romfiles; [discriminate | intros _].
      destruct address, p; raises_here.
    + destruct romfiles; [discriminate | intros _].
      raises_here.
    + destruct ports; [discriminate | intros _].
      raises_here.
    + discriminate.
  - intros _. simpl in Hsupported. rewrite ?Hsupported. raises_here.
Qed.

Lemma missing_field_is_configuration_error_witness :
  exists e d',
    is_configuration_error e = true /\
    _configure aurora_without_ports __init__ [] = Raises e d' [] /\
    connect healthy_device aurora_without_ports __init__ [] = Raises e d' [].
Proof.
  apply (missing_field_is_configuration_error
           healthy_device aurora_without_ports __init__ []).
  reflexivity.
Defined.

(** *** The error check, stopping and closing *)

Lemma app_two {A} (l : list A) (a b : A) : (l ++ [a]) ++ [b] = l ++ [a; b].
Proof. rewrite <- app_assoc. reflexivity. Qed.

(** What [_check_for_errors] does, in both cases. *)
Lemma _check_for_errors_spec ndi message d tr :
  let tr1 := tr ++ [Call_ndiGetError (device d)] in
  let errnum := reply_int ndi tr1 in
  _check_for_errors ndi message d tr =
  if errnum =? NDI_OKAY ndi then Returns tt d tr1
  else
    let tr2 := tr1 ++ [Call_ndiClose (device d); Call_ndiErrorString errnum] in
    Raises (IOError (error_message message (reply_str ndi tr2))) d tr2.
Proof.
  unfold _check_for_errors, bind, get_self, ndiGetError, ndiClose,
    ndiErrorString, invoke, raise, ret.
  simpl. destruct (_ =? _); simpl; [reflexivity |].
  rewrite app_two. reflexivity.
Qed.

Lemma stop_tracking_spec ndi d tr :
  let tr1 := tr ++ stop_calls d in
  let errnum := reply_int ndi tr1 in
  stop_tracking ndi d tr =
  if errnum =? NDI_OKAY ndi then Returns tt (with_state (Some "ready") d) tr1
  else
    let tr2 := tr1 ++ [Call_ndiClose (device d); Call_ndiErrorString errnum] in
    Raises (IOError (error_message "stopping tracking." (reply_str ndi tr2)))
      d tr2.
Proof.
  unfold stop_tracking, stop_calls, bind, get_self, ndiCommand, invoke.
  rewrite _check_for_errors_spec. simpl. rewrite !app_two.
  destruct (_ =? _); reflexivity.
Qed.

Lemma close_spec ndi d tr :
  close ndi d tr =
  if negb (truthy_device (device d)) then
    Raises (ValueError "close called with no NDI device") d tr
  else if state_is d "tracking" then
    match stop_tracking ndi d tr with
    | Returns _ d1 tr1 =>
        Returns tt (with_device DevNone d1) (tr1 ++ teardown_calls d)
    | Raises e d1 tr1 => Raises e d1 tr1
    end
  else Returns tt (with_device DevNone d) (tr ++ teardown_calls d).
Proof.
  unfold close, bind, get_self, when, teardown_calls.
  destruct (truthy_device (device d)); simpl; [| reflexivity].
  assert (Htail : forall d1 tr1,
    (forall t, type_is d1 t = type_is d t) -> device d1 = device d ->
    match
      (if type_is d1 "vega" then ndiCloseNetwork ndi (device d1) else ret tt)
        d1 tr1
    with
    | Returns _ d2 tr2 =>
        match
          (if type_is d2 "aurora" || type_is d2 "polaris"
           then ndiClose ndi (device d2) else ret tt) d2 tr2
        with
        | Returns _ d3 tr3 => modify (with_device DevNone) d3 tr3
        | Raises e d3 tr3 => Raises e d3 tr3
        end
    | Raises e d2 tr2 => Raises e d2 tr2
    end =
    Returns tt (with_device DevNone d1)
      (tr1 ++ (if type_is d "vega" then [Call_ndiCloseNetwork (device d)] else [])
           ++ (if type_is d "aurora" || type_is d "polaris"
               then [Call_ndiClose (device d)] else []))).
  { intros d1 tr1 Htype Hdev.
    unfold ndiCloseNetwork, ndiClose, invoke, ret, modify.
    rewrite (Htype "vega"), Hdev.
    destruct (type_is d "vega"); simpl;
      rewrite (Htype "aurora"), (Htype "polaris"), ?Hdev;
      destruct (type_is d "aurora" || type_is d "polaris"); simpl;
      rewrite ?app_nil_r, ?app_two; reflexivity. }
  destruct (state_is d "tracking"); simpl.
  - rewrite stop_tracking_spec. simpl. destruct (_ =? _); [| reflexivity].
    apply Htail; reflexivity.
  - apply Htail; reflexivity.
Qed.

(** C8. [close] raises [ValueError] ("close called with no NDI device") when
    no device is held, leaving the object and the trace alone.  When a device
    is held it first stops tracking if the state is "tracking" (TSTOP and the
    error check come first in the trace), then runs the teardown of the
    tracker type, [ndiCloseNetwork] for vega and [ndiClose] for aurora and
    polaris, and clears the device. *)
Theorem close_requires_handle_then_tears_down :
  forall ndi d tr,
    (truthy_device (device d) = false ->
     close ndi d tr =
       Raises (ValueError "close called with no NDI device") d tr) /\
    (truthy_device (device d) = true ->
     state_is d "tracking" = false ->
     close ndi d tr =
       Returns tt (with_device DevNone d) (tr ++ teardown_calls d)) /\
    (truthy_device (device d) = true ->
     state_is d "tracking" = true ->
     reply_int ndi (tr ++ stop_calls d) = NDI_OKAY ndi ->
     close ndi d tr =
       Returns tt (with_device DevNone (with_state (Some "ready") d))
         (tr ++ stop_calls d ++ teardown_calls d)).
Proof.
  intros ndi d tr. rewrite close_spec. repeat split.
  - intros ->. reflexivity.
  - intros -> ->. reflexivity.
  - intros -> -> Hok. rewrite stop_tracking_spec. simpl.
    rewrite Hok, Z.eqb_refl, <- app_assoc. reflexivity.
Qed.

Lemma close_requires_handle_then_tears_down_witness :
  close healthy_device __init__ [] =
    Raises (ValueError "close called with no NDI device") __init__ [] /\
  close healthy_device ready_vega [] =
    Returns tt (with_device DevNone ready_vega)
      [Call_ndiCloseNetwork (DevCapsule 1)] /\
  close healthy_device tracking_polaris [] =
    Returns tt (with_device DevNone (with_state (Some "ready") tracking_polaris))
      [Call_ndiCommand (DevCapsule 1) "TSTOP:"; Call_ndiGetError (DevCapsule 1);
       Call_ndiClose (DevCapsule 1)].
Proof.
  split; [| split].
  - apply (close_requires_handle_then_tears_down healthy_device __init__ []).
    reflexivity.
  - apply (close_requires_handle_then_tears_down healthy_device ready_vega []);
      reflexivity.
  - apply (close_requires_handle_then_tears_down
             healthy_device tracking_polaris []); reflexivity.
Defined.

(** C3, as the code has it. A [close] that returns leaves no device held,
    from every state, and when the stored state was "tracking" it stopped
    tracking first; but it never resets the stored state, which is "ready"
    after a close from tracking and otherwise what it was.  So the driver is
    disconnected after [close] only in the sense that it holds no device:
    read off the stored state it is Disconnected exactly when it was neither
    ready nor tracking before. *)
Theorem close_clears_handle_keeps_stored_state :
  forall ndi d tr d' tr',
    close ndi d tr = Returns tt d' tr' ->
    device d' = DevNone /\
    (state_is d "tracking" = true ->
     _state d' = Some "ready" /\
     tr' = tr ++ stop_calls d ++ teardown_calls d) /\
    (state_is d "tracking" = false ->
     _state d' = _state d /\ tr' = tr ++ teardown_calls d) /\
    (lifecycle_state d' = Disconnected <->
     state_is d "tracking" = false /\ state_is d "ready" = false).
Proof.
  intros ndi d tr d' tr'. rewrite close_spec.
  destruct (truthy_device (device d)); simpl; [| discriminate].
  destruct (state_is d "tracking") eqn:Htracking.
  - rewrite stop_tracking_spec. simpl.
    destruct (_ =? _); [| discriminate].
    intros [= <- <-]. split; [reflexivity |]. split; [| split].
    + intros _. split; [reflexivity |]. rewrite <- app_assoc. reflexivity.
    + discriminate.
    + split; [discriminate |]. intros [H _]. discriminate H.
  - intros [= <- <-]. split; [reflexivity |]. split; [| split].
    + discriminate.
    + intros _. split; reflexivity.
    + unfold lifecycle_state.
      change (state_is (with_device DevNone d) "tracking")
        with (state_is d "tracking").
      change (state_is (with_device DevNone d) "ready")
        with (state_is d "ready").
      rewrite Htracking. simpl.
      destruct (state_is d "ready"); split; try discriminate; try tauto.
      intros [_ H]. discriminate H.
Qed.

Lemma close_clears_handle_keeps_stored_state_witness :
  exists d' tr',
    close healthy_device tracking_polaris [] = Returns tt d' tr' /\
    device d' = DevNone /\
    _state d' = Some "ready" /\
    tr' = [Call_ndiCommand (DevCapsule 1) "TSTOP:";
           Call_ndiGetError (DevCapsule 1); Call_ndiClose (DevCapsule 1)].
Proof.
  eexists. eexists. split; [reflexivity |].
  destruct (close_clears_handle_keeps_stored_state
              healthy_device tracking_polaris [] _ _ eq_refl)
    as (Hdev & Htracking & _).
  destruct (Htracking eq_refl) as [Hstate Htrace].
  split; [exact Hdev | split; [exact Hstate | exact Htrace]].
Defined.

(** C3, as the claim states it, fails: a polaris that is tracking satisfies
    the invariant, [close] returns, and afterwards the state is Ready while
    no device is held. *)
Lemma close_breaks_lifecycle_invariant :
  lifecycle_invariant tracking_polaris /\
  exists d' tr',
    close healthy_device tracking_polaris [] = Returns tt d' tr' /\
    _state d' = Some "ready" /\
    lifecycle_state d' = Ready /\
    device d' = DevNone /\
    ~ lifecycle_invariant d'.
Proof.
  split.
  - intros _. discriminate.
  - eexists. eexists. split; [reflexivity |].
    repeat split.
    intros H. apply H; [discriminate | reflexivity].
Qed.


(** C5, at the input where the code departs from it.  A vega is opened over
    the network and every phase goes through until the tool is enabled, when
    the error register reads 4.  [connect] raises the [IOError] with the
    context "Enabling port handle 10." and the device's text, the firmware is
    never queried, and the last calls are the error read, [ndiClose] and the
    error text: the device got from [ndiOpenNetwork] is closed with the
    serial [ndiClose], where the teardown [close] runs for this object is
    [ndiCloseNetwork]. *)
Theorem error_check_closes_vega_with_serial_close :
  exists d' tr',
    connect enable_fails_device (vega_configuration "10.0.0.1" ["a.rom"])
      __init__ [] =
    Raises
      (IOError (error_message "Enabling port handle 10." "Invalid port handle"))
      d'
      (tr' ++ [Call_ndiCommand (DevCapsule 1) "PENA:0aD";
               Call_ndiGetError (DevCapsule 1);
               Call_ndiClose (DevCapsule 1);
               Call_ndiErrorString 4]) /\
    tracker_type d' = Some "vega" /\
    device d' = DevCapsule 1 /\
    _device_firmware_version d' = None /\
    In (Call_ndiOpenNetwork (Some "10.0.0.1") (Some 8765)) tr' /\
    ~ In (Call_ndiCloseNetwork (DevCapsule 1)) tr' /\
    teardown_calls d' = [Call_ndiCloseNetwork (DevCapsule 1)].
Proof.
  eexists. exists
    [Call_system; Call_ping "-c" (Some "10.0.0.1");
     Call_ndiOpenNetwork (Some "10.0.0.1") (Some 8765);
     Call_ndiCommand (DevCapsule 1) "INIT:";
     Call_ndiGetError (DevCapsule 1);
     Call_ndiCommand (DevCapsule 1) "TSTOP:";
     Call_ndiGetError (DevCapsule 1);
     Call_ndiCommand (DevCapsule 1) "PHSR:01";
     Call_ndiGetPHSRNumberOfHandles (DevCapsule 1);
     Call_ndiCommand (DevCapsule 1) "PHRQ:*********1****";
     Call_ndiGetPHRQHandle (DevCapsule 1) None;
     Call_ndiGetError (DevCapsule 1);
     Call_ndiPVWRFromFile (DevCapsule 1) 10 (PyStr "a.rom");
     Call_ndiGetError (DevCapsule 1);
     Call_ndiCommand (DevCapsule 1) "PHSR:01";
     Call_ndiCommand (DevCapsule 1) "PHSR:02";
     Call_ndiCommand (DevCapsule 1) "PINIT:0a";
     Call_ndiGetError (DevCapsule 1);
     Call_ndiCommand (DevCapsule 1) "PHSR:03"].
  split; [vm_compute; reflexivity |].
  repeat split; try reflexivity.
  - simpl. tauto.
  - simpl. intros H. repeat destruct H as [H | H]; try discriminate H; exact H.
Qed.

(** *** The serial connection *)

Lemma probe_ports_without_names ndi candidates :
  (forall tr, truthy_name (reply_name ndi tr) = false) ->
  forall locals d tr,
  exists n,
    probe_ports ndi candidates locals d tr =
    Returns {| name := n; result := result locals |} d
      (tr ++ map (fun i => Call_ndiDeviceName (Some (Z.of_nat i))) candidates).
Proof.
  intros Hnone. induction candidates as [| c rest IH]; intros locals d tr.
  - exists (name locals). simpl. rewrite app_nil_r. destruct locals; reflexivity.
  - simpl. unfold bind, ndiDeviceName, invoke. rewrite Hnone. simpl.
    destruct (IH {| name := Some (reply_name ndi
                                    (tr ++ [Call_ndiDeviceName (Some (Z.of_nat c))]));
                    result := result locals |} d
                 (tr ++ [Call_ndiDeviceName (Some (Z.of_nat c))])) as [n Hn].
    exists n. rewrite Hn. simpl. rewrite <- app_assoc. reflexivity.
Qed.

(** A scan in which no candidate port has a device name never assigns
    [result]: the test that follows the loop raises [UnboundLocalError], and
    the [IOError] with the hints is not reached. *)
Lemma _connect_serial_without_names ndi d tr n :
  serial_port d = Some (-1) ->
  ports_to_probe d = Some n ->
  (forall tr', truthy_name (reply_name ndi tr') = false) ->
  _connect_serial ndi d tr =
  Raises (UnboundLocalError "result") d
    (tr ++ map (fun i => Call_ndiDeviceName (Some (Z.of_nat i)))
               (range (Z.to_nat n))).
Proof.
  intros Hport Hcount Hnone.
  unfold _connect_serial, bind, get_self. rewrite Hport, Hcount. simpl.
  destruct (probe_ports_without_names ndi (range (Z.to_nat n)) Hnone
              {| name := None; result := None |} d tr) as [m Hm].
  unfold ret at 1. rewrite Hm. reflexivity.
Qed.

(** With an explicit serial port only that port is asked for its name and
    probed; when it does not answer [NDI_OKAY] the [IOError] with the hints
    is raised and nothing else is called. *)
Lemma _connect_serial_explicit_port ndi d tr p :
  serial_port d = Some p ->
  p <> -1 ->
  let tr1 := tr ++ [Call_ndiDeviceName (Some p)] in
  let tr2 := tr1 ++ [Call_ndiProbe (reply_name ndi tr1)] in
  reply_int ndi tr2 <> NDI_OKAY ndi ->
  _connect_serial ndi d tr =
  Raises (IOError (no_device_message (ports_to_probe d))) d tr2.
Proof.
  intros Hport Hp tr1 tr2 Hfail.
  unfold _connect_serial, bind, get_self, ndiDeviceName, ndiProbe, invoke.
  rewrite Hport. apply Z.eqb_neq in Hp. rewrite Hp. simpl.
  fold tr1. fold tr2. apply Z.eqb_neq in Hfail. rewrite Hfail. reflexivity.
Qed.

(** The scan stops at the first candidate that has a name and answers
    [NDI_OKAY]: the candidates after it are not touched. *)
Lemma probe_ports_stops_at_responder ndi c rest locals d tr :
  let tr1 := tr ++ [Call_ndiDeviceName (Some (Z.of_nat c))] in
  let tr2 := tr1 ++ [Call_ndiProbe (reply_name ndi tr1)] in
  truthy_name (reply_name ndi tr1) = true ->
  reply_int ndi tr2 = NDI_OKAY ndi ->
  probe_ports ndi (c :: rest) locals d tr =
  Returns {| name := Some (reply_name ndi tr1);
             result := Some (NDI_OKAY ndi) |} d tr2.
Proof.
  intros tr1 tr2 Hname Hok. simpl.
  unfold bind, ndiDeviceName, ndiProbe, invoke. fold tr1. rewrite Hname. simpl.
  fold tr2. rewrite Hok, Z.eqb_refl. reflexivity.
Qed.

(** A named candidate that does not answer [NDI_OKAY] is passed over, and
    its answer is what [result] holds if the scan ends there. *)
Lemma probe_ports_passes_silent_port ndi c rest locals d tr :
  let tr1 := tr ++ [Call_ndiDeviceName (Some (Z.of_nat c))] in
  let tr2 := tr1 ++ [Call_ndiProbe (reply_name ndi tr1)] in
  truthy_name (reply_name ndi tr1) = true ->
  reply_int ndi tr2 <> NDI_OKAY ndi ->
  probe_ports ndi (c :: rest) locals d tr =
  probe_ports ndi rest
    {| name := Some (reply_name ndi tr1); result := Some (reply_int ndi tr2) |}
    d tr2.
Proof.
  intros tr1 tr2 Hname Hfail. simpl.
  unfold bind, ndiDeviceName, ndiProbe, invoke. fold tr1. rewrite Hname. simpl.
  fold tr2. apply Z.eqb_neq in Hfail. rewrite Hfail. reflexivity.
Qed.

(** C6, at the input where the code departs from it.  A polaris is
    configured with the default scan of twenty candidates on a host where no
    serial port has a device name.  All twenty candidates are exhausted
    without a responder, and [connect] raises [UnboundLocalError] for the
    local [result] instead of the [IOError] that lists the hints. *)
Theorem serial_scan_without_names_raises_unbound_local :
  exists d',
    connect absent_device (polaris_configuration ["a.rom"]) __init__ [] =
    Raises (UnboundLocalError "result") d'
      (map (fun i => Call_ndiDeviceName (Some (Z.of_nat i))) (range 20)) /\
    serial_port d' = Some (-1) /\
    ports_to_probe d' = Some 20 /\
    connect absent_device (polaris_configuration ["a.rom"]) __init__ [] <>
    Raises (IOError (no_device_message (Some 20))) d'
      (map (fun i => Call_ndiDeviceName (Some (Z.of_nat i))) (range 20)).
Proof.
  eexists. split; [vm_compute; reflexivity |].
  split; [reflexivity |]. split; [reflexivity |].
  vm_compute. discriminate.
Qed.

(** *** Arrays *)

Section Arrays.

Context {A : Type}.
Implicit Types (a done rest : array A) (row : list A).

Lemma insert_middle {B} (l1 l2 : list B) (x y : B) :
  <[length l1 := y]> (l1 ++ x :: l2) = l1 ++ y :: l2.
Proof.
  rewrite insert_app_r_alt by reflexivity. rewrite Nat.sub_diag. reflexivity.
Qed.

Lemma set_cell_middle done row rest i j v :
  length done = i ->
  (j < length row)%nat ->
  set_cell (done ++ row :: rest) i j v = inr (done ++ <[j := v]> row :: rest).
Proof.
  intros <- Hj. unfold set_cell. rewrite list_lookup_middle by reflexivity.
  apply Nat.ltb_lt in Hj. rewrite Hj. f_equal.
  rewrite insert_middle. reflexivity.
Qed.

Lemma set_slice_middle done row rest i lo hi vals :
  length done = i ->
  (hi <= length row)%nat ->
  set_slice (done ++ row :: rest) i lo hi vals =
  if (length vals =? hi - lo)%nat then
    inr (done ++ (take lo row ++ vals ++ drop hi row) :: rest)
  else match vals with
       | [v] => inr (done ++ (take lo row ++ replicate (hi - lo) v ++ drop hi row)
                          :: rest)
       | _ => inl (ValueError "could not broadcast input array")
       end.
Proof.
  intros <- Hhi. unfold set_slice. rewrite list_lookup_middle by reflexivity.
  rewrite Nat.min_l by exact Hhi.
  rewrite insert_middle.
  destruct vals as [| v [| w vals]]; rewrite ?insert_middle; reflexivity.
Qed.

End Arrays.

(** *** Acquisition of a frame *)

Lemma cons_middle {A} (l1 l2 : list A) (x : A) : l1 ++ x :: l2 = (l1 ++ [x]) ++ l2.
Proof. rewrite <- app_assoc. reflexivity. Qed.

(** The loop of the dummy fills the time stamp of every row. *)
Lemma dummy_loop_spec ts d tr m :
  forall done : array float,
    for_fold (seq (length done) m) (done ++ replicate m (replicate 11 nan))
      (fun i return_array => lift (set_cell return_array i 1 ts)) d tr =
    Returns (done ++ replicate m (dummy_row ts)) d tr.
Proof.
  induction m as [| m IH]; intros done; [reflexivity |].
  cbn [seq for_fold replicate]. unfold bind.
  rewrite set_cell_middle by (try reflexivity; simpl; lia).
  cbn [lift ret]. cbn [replicate insert list_insert].
  rewrite cons_middle.
  replace (S (length done)) with (length (done ++ [dummy_row ts]))
    by (rewrite length_app; simpl; lia).
  rewrite IH. rewrite <- cons_middle. reflexivity.
Qed.

Section Frames.

Variable ndi : collaborators.
Variables frame_read transform_read : pydevice -> option string -> call.

Let get_frame_number (dev : pydevice) (h : option string) : M Z :=
  invoke ndi (frame_read dev h) reply_int.
Let get_transform (dev : pydevice) (h : option string) : M transform :=
  invoke ndi (transform_read dev h) reply_transform.
Let reads (d : NDITracker) (tool : tool_descriptor) : trace :=
  [frame_read (device d) (c_str_port_handle tool);
   transform_read (device d) (c_str_port_handle tool)].

(** One turn of the loop on a row that is still blank. *)
Lemma read_tool_spec d ts i tool (done rest : array float) tr :
  tool_descriptors d !! i = Some tool ->
  length done = i ->
  read_tool get_frame_number get_transform ts i
    (done ++ replicate 11 nan :: rest) d tr =
  match expected_row ndi frame_read transform_read (device d) ts tool tr with
  | Some row => Returns (done ++ row :: rest) d (tr ++ reads d tool)
  | None =>
      Raises (ValueError "could not broadcast input array") d
        (tr ++ reads d tool)
  end.
Proof.
  intros Htool Hdone.
  assert (Hget : forall tr0, get_tool i d tr0 = Returns tool d tr0).
  { intros tr0. unfold get_tool, bind, get_self. rewrite Htool. reflexivity. }
  unfold read_tool, bind, get_self, get_frame_number, get_transform,
    invoke, expected_row, reads.
  rewrite Hget.
  rewrite set_cell_middle by (try assumption; simpl; lia).
  cbn [lift ret replicate insert list_insert].
  rewrite set_cell_middle by (try assumption; simpl; lia).
  cbn [lift ret replicate insert list_insert].
  rewrite Hget.
  rewrite set_cell_middle by (try assumption; simpl; lia).
  cbn [lift ret replicate insert list_insert].
  rewrite Hget.
  set (tr1 := tr ++ [frame_read (device d) (c_str_port_handle tool)]).
  set (tr2 := tr ++ [frame_read (device d) (c_str_port_handle tool);
                     transform_read (device d) (c_str_port_handle tool)]).
  replace (tr1 ++ [transform_read (device d) (c_str_port_handle tool)]) with tr2
    by (unfold tr1, tr2; rewrite app_two; reflexivity).
  destruct (reply_transform ndi tr2) as [| | vals]; try reflexivity.
  rewrite set_slice_middle by (try assumption; simpl; lia).
  unfold pose_block. change (11 - 3)%nat with 8%nat.
  destruct (length vals =? 8)%nat.
  - cbn [lift ret take drop app]. rewrite app_nil_r. reflexivity.
  - destruct vals as [| v [| w vals]]; reflexivity.
Qed.

(** The loop over the tools that are left, [post], when the rows of the
    tools before them, [pre], are written. *)
Lemma read_loop_spec d ts :
  forall post pre (done : array float) tr f d' tr',
    tool_descriptors d = pre ++ post ->
    length done = length pre ->
    for_fold (seq (length pre) (length post))
      (done ++ replicate (length post) (replicate 11 nan))
      (read_tool get_frame_number get_transform ts) d tr = Returns f d' tr' ->
    d' = d /\
    tr' = tr ++ flat_map (reads d) post /\
    exists rows,
      f = done ++ rows /\
      length rows = length post /\
      forall j tool,
        post !! j = Some tool ->
        rows !! j =
        expected_row ndi frame_read transform_read (device d) ts tool
          (tr ++ flat_map (reads d) (take j post)).
Proof.
  induction post as [| tool post IH]; intros pre done tr f d' tr' Htools Hdone.
  - cbn. intros [= <- <- <-]. rewrite !app_nil_r. repeat split.
    exists []. rewrite app_nil_r. repeat split. intros j tool H. discriminate H.
  - cbn [length seq for_fold replicate]. unfold bind.
    rewrite (read_tool_spec d ts (length pre) tool)
      by (try assumption; rewrite Htools; apply list_lookup_middle; reflexivity).
    destruct (expected_row ndi frame_read transform_read (device d) ts tool tr)
      as [row |] eqn:Hrow; [| discriminate].
    rewrite cons_middle.
    replace (S (length pre)) with (length (pre ++ [tool]))
      by (rewrite length_app; simpl; lia).
    intros Hloop.
    apply IH in Hloop as (-> & -> & rows & -> & Hlen & Hrows).
    + split; [reflexivity |]. split.
      { cbn [flat_map]. rewrite <- app_assoc. reflexivity. }
      exists (row :: rows). split; [rewrite <- cons_middle; reflexivity |].
      split; [simpl; rewrite Hlen; reflexivity |].
      intros [| j] tool' Hj.
      * injection Hj as <-. cbn. rewrite app_nil_r. symmetry. exact Hrow.
      * change ((tool :: post) !! S j) with (post !! j) in Hj.
        change ((row :: rows) !! S j) with (rows !! j).
        cbn [take flat_map].
        rewrite (Hrows j tool' Hj). rewrite <- app_assoc. reflexivity.
    + rewrite Htools, <- cons_middle. reflexivity.
    + rewrite !length_app. simpl. lia.
Qed.

Lemma get_frame_with_spec command d tr f d' tr' :
  type_is d "dummy" = false ->
  get_frame_with ndi command get_frame_number get_transform d tr
    = Returns f d' tr' ->
  d' = d /\
  length f = length (tool_descriptors d) /\
  forall i tool,
    tool_descriptors d !! i = Some tool ->
    f !! i =
    expected_row ndi frame_read transform_read (device d)
      (reply_time ndi (tr ++ [Call_time])) tool
      (tr ++ [Call_time; Call_ndiCommand (device d) command]
          ++ flat_map (reads d) (take i (tool_descriptors d))).
Proof.
  intros Htype.
  unfold get_frame_with, bind, get_self, time, ndiCommand, invoke, full.
  rewrite Htype. cbn [negb]. rewrite app_two.
  intros Hloop.
  apply (read_loop_spec d _ (tool_descriptors d) [] []) in Hloop
    as (-> & -> & rows & -> & Hlen & Hrows); try reflexivity.
  split; [reflexivity |]. split; [exact Hlen |].
  intros i tool Hi. cbn [app]. rewrite (Hrows i tool Hi).
  rewrite <- app_assoc. reflexivity.
Qed.

Lemma get_frame_with_dummy command d tr :
  type_is d "dummy" = true ->
  get_frame_with ndi command get_frame_number get_transform d tr =
  Returns
    (replicate (length (tool_descriptors d))
       (dummy_row (reply_time ndi (tr ++ [Call_time]))))
    d (tr ++ [Call_time]).
Proof.
  intros Htype. unfold get_frame_with, bind, get_self, time, invoke, full.
  rewrite Htype. cbn [negb].
  apply (dummy_loop_spec _ d _ _ []).
Qed.

End Frames.

Lemma pose_block_length t block :
  pose_block t = Some block -> length block = 8%nat.
Proof.
  destruct t as [| | vals]; simpl; try (intros [= <-]; reflexivity).
  destruct (length vals =? 8)%nat eqn:Hlen.
  - intros [= <-]. apply Nat.eqb_eq. exact Hlen.
  - destruct vals as [| v [| w vals]]; try discriminate.
    intros [= <-]. reflexivity.
Qed.

(** [get_frame] on an object that is not the dummy: every row is the one
    [expected_row] describes, for the protocol chosen by
    [_use_bx_transforms]. *)
Lemma get_frame_rows ndi d tr f d' tr' :
  type_is d "dummy" = false ->
  get_frame ndi d tr = Returns f d' tr' ->
  d' = d /\
  length f = length (tool_descriptors d) /\
  forall i tool,
    tool_descriptors d !! i = Some tool ->
    f !! i =
    expected_row ndi (frame_call d) (transform_call d) (device d)
      (reply_time ndi (tr ++ [Call_time])) tool (history_before d tr i).
Proof.
  intros Htype. unfold get_frame, bind, get_self, history_before, tool_calls,
    frame_call, transform_call, frame_command.
  destruct (_use_bx_transforms d) as [[|] |]; cbv beta iota.
  - apply (get_frame_with_spec ndi Call_ndiGetBXFrame Call_ndiGetBXTransform
             "BX:0801" d tr f d' tr' Htype).
  - apply (get_frame_with_spec ndi Call_ndiGetGXFrame Call_ndiGetGXTransform
             "GX:0801" d tr f d' tr' Htype).
  - apply (get_frame_with_spec ndi Call_ndiGetGXFrame Call_ndiGetGXTransform
             "GX:0801" d tr f d' tr' Htype).
Qed.

(** [get_frame] on the dummy, whichever protocol is selected. *)
Lemma get_frame_dummy ndi d tr :
  type_is d "dummy" = true ->
  get_frame ndi d tr =
  Returns
    (replicate (length (tool_descriptors d))
       (dummy_row (reply_time ndi (tr ++ [Call_time]))))
    d (tr ++ [Call_time]).
Proof.
  intros Htype. unfold get_frame, bind, get_self.
  destruct (_use_bx_transforms d) as [[|] |]; cbv beta iota.
  - apply (get_frame_with_dummy ndi Call_ndiGetBXFrame Call_ndiGetBXTransform
             "BX:0801" d tr Htype).
  - apply (get_frame_with_dummy ndi Call_ndiGetGXFrame Call_ndiGetGXTransform
             "GX:0801" d tr Htype).
  - apply (get_frame_with_dummy ndi Call_ndiGetGXFrame Call_ndiGetGXTransform
             "GX:0801" d tr Htype).
Qed.

(** C1. A [get_frame] that returns gives one row for each configured tool,
    whatever the tracker type and the tool list: the table has as many rows
    as [tool_descriptors], and the row of index [i] belongs to the tool of
    index [i]. Each row has 11 cells; cell 1 is the host time stamp, and
    when the tracker is not the dummy cell 0 is the tool's port handle, cell
    2 the frame number the device reported for this tool, and cells 3 to 10
    the eight numbers of the tool's transform in the order the device gave
    them (not-a-number when it gave none). *)
Theorem get_frame_rows_follow_configuration :
  forall ndi d tr f d' tr',
    get_frame ndi d tr = Returns f d' tr' ->
    length f = length (tool_descriptors d) /\
    forall i tool,
      tool_descriptors d !! i = Some tool ->
      exists row,
        f !! i = Some row /\
        length row = 11%nat /\
        row !! 1%nat = Some (reply_time ndi (tr ++ [Call_time])) /\
        (type_is d "dummy" = false ->
         let h := history_before d tr i in
         row !! 0%nat = Some (float_of_handle (port_handle tool)) /\
         row !! 2%nat =
           Some (float_of_int
                   (reply_int ndi
                      (h ++ [frame_call d (device d) (c_str_port_handle tool)]))) /\
         pose_block (reply_transform ndi (h ++ tool_calls d tool))
           = Some (drop 3 row)).
Proof.
  intros ndi d tr f d' tr' Hrun.
  destruct (type_is d "dummy") eqn:Htype.
  - rewrite get_frame_dummy in Hrun by exact Htype.
    injection Hrun as <- _ _. split; [apply length_replicate |].
    intros i tool Hi. apply lookup_lt_Some in Hi.
    eexists. split; [apply lookup_replicate_2; exact Hi |].
    split; [reflexivity |]. split; [reflexivity | discriminate].
  - apply get_frame_rows in Hrun as (_ & Hlen & Hrows); [| exact Htype].
    split; [exact Hlen |].
    intros i tool Hi. specialize (Hrows i tool Hi).
    assert (Hsome : is_Some (f !! i)).
    { apply lookup_lt_is_Some. rewrite Hlen. eapply lookup_lt_Some. exact Hi. }
    unfold expected_row in Hrows. unfold tool_calls. rewrite <- app_two.
    destruct (pose_block _) as [block |] eqn:Hblock.
    + eexists. split; [exact Hrows |].
      split; [simpl; rewrite (pose_block_length _ _ Hblock); reflexivity |].
      split; [reflexivity |].
      intros _. repeat split.
    + rewrite Hrows in Hsome. destruct Hsome as [x Hx]. discriminate Hx.
Qed.

(** C9. When the transform the device reports for a tool is "MISSING" or
    "DISABLED", the eight cells of the pose in that tool's row stay
    not-a-number, and the row still holds the port handle, the host time
    stamp and the frame number reported for the tool. *)
Theorem missing_or_disabled_tool_keeps_nan_pose :
  forall ndi d tr f d' tr' i tool,
    get_frame ndi d tr = Returns f d' tr' ->
    type_is d "dummy" = false ->
    tool_descriptors d !! i = Some tool ->
    let h := history_before d tr i in
    reply_transform ndi (h ++ tool_calls d tool) = MISSING \/
    reply_transform ndi (h ++ tool_calls d tool) = DISABLED ->
    f !! i =
    Some [float_of_handle (port_handle tool);
          reply_time ndi (tr ++ [Call_time]);
          float_of_int
            (reply_int ndi
               (h ++ [frame_call d (device d) (c_str_port_handle tool)]));
          nan; nan; nan; nan; nan; nan; nan; nan].
Proof.
  intros ndi d tr f d' tr' i tool Hrun Htype Hi h Hstatus.
  apply get_frame_rows in Hrun as (_ & _ & Hrows); [| exact Htype].
  rewrite (Hrows i tool Hi). unfold expected_row. fold h.
  unfold tool_calls in Hstatus. rewrite <- app_two in Hstatus.
  destruct Hstatus as [-> | ->]; reflexivity.
Qed.

Lemma get_frame_rows_follow_configuration_witness :
  exists f tr' row,
    get_frame healthy_device tracking_polaris [] =
      Returns f tracking_polaris tr' /\
    length f = 1%nat /\
    f !! 0%nat = Some row /\
    length row = 11%nat /\
    row !! 0%nat = Some (float_of_int 10) /\
    row !! 1%nat = Some (fin (3 # 2)) /\
    row !! 2%nat = Some (float_of_int 77) /\
    drop 3 row = sample_pose.
Proof.
  pose (o := get_frame healthy_device tracking_polaris []).
  assert (Hrun : get_frame healthy_device tracking_polaris [] = o)
    by reflexivity.
  vm_compute in (value of o). subst o.
  destruct (get_frame_rows_follow_configuration
              healthy_device tracking_polaris [] _ _ _ Hrun) as [Hlen Hrows].
  destruct (Hrows 0%nat _ eq_refl) as (row & Hrow & Hcells & Htime & Hrest).
  destruct (Hrest eq_refl) as (Hhandle & Hframe & Hpose).
  do 2 eexists. exists row. split; [exact Hrun |].
  split; [exact Hlen |]. split; [exact Hrow |]. split; [exact Hcells |].
  split; [exact Hhandle |]. split; [exact Htime |]. split; [exact Hframe |].
  injection Hpose as Hpose. symmetry. exact Hpose.
Defined.

Lemma missing_or_disabled_tool_keeps_nan_pose_witness :
  exists f tr',
    get_frame absent_device tracking_polaris [] =
      Returns f tracking_polaris tr' /\
    f !! 0%nat =
    Some [float_of_int 10; fin 0; float_of_int 1;
          nan; nan; nan; nan; nan; nan; nan; nan].
Proof.
  pose (o := get_frame absent_device tracking_polaris []).
  assert (Hrun : get_frame absent_device tracking_polaris [] = o)
    by reflexivity.
  vm_compute in (value of o). subst o.
  do 2 eexists. split; [exact Hrun |].
  apply (missing_or_disabled_tool_keeps_nan_pose
           absent_device tracking_polaris [] _ _ _ 0%nat
           (ToolDescriptor (PyStr "a.rom") (Some 10) (Some "10"))
           Hrun eq_refl eq_refl).
  left. reflexivity.
Defined.

(** *** Configuration only ever appends tools *)

Lemma with_tool_descriptors_same d l :
  l = tool_descriptors d -> with_tool_descriptors l d = d.
Proof. intros ->. destruct d. reflexivity. Qed.

Lemma for_each_append_tool {X} (g : X -> tool_descriptor) (l : list X) :
  forall d tr,
    for_each l (fun x => append_tool (g x)) d tr =
    Returns tt (with_tool_descriptors (tool_descriptors d ++ map g l) d) tr.
Proof.
  induction l as [| x l IH]; intros d tr.
  - simpl. rewrite with_tool_descriptors_same by (rewrite app_nil_r; reflexivity).
    reflexivity.
  - cbn [for_each map]. unfold bind, append_tool at 1, modify.
    rewrite IH. cbn [tool_descriptors with_tool_descriptors].
    rewrite <- app_assoc. reflexivity.
Qed.

Lemma append_romfiles_spec romfiles d tr :
  append_romfiles romfiles d tr =
  Returns tt
    (with_tool_descriptors (tool_descriptors d ++ map romfile_tool romfiles) d) tr.
Proof. apply (for_each_append_tool romfile_tool). Qed.

(** A relation between the object before and after a method that holds
    however the method ends is established step by step: by the primitive
    steps, and through sequencing, branches and loops. *)
Section Preservation.

Variable R : NDITracker -> NDITracker -> Prop.
Hypothesis R_refl : forall d, R d d.
Hypothesis R_trans : forall d1 d2 d3, R d1 d2 -> R d2 d3 -> R d1 d3.

Lemma preserves_ret {A} (a : A) : preserves R (ret a).
Proof. intros d tr. apply R_refl. Qed.

Lemma preserves_raise {A} (e : exn) : preserves R (@raise A e).
Proof. intros d tr. apply R_refl. Qed.

Lemma preserves_get_self : preserves R get_self.
Proof. intros d tr. apply R_refl. Qed.

Lemma preserves_lift {A} (r : exn + A) : preserves R (lift r).
Proof. destruct r; intros d tr; apply R_refl. Qed.

Lemma preserves_invoke ndi {A} (c : call) (answer : collaborators -> trace -> A) :
  preserves R (invoke ndi c answer).
Proof. intros d tr. apply R_refl. Qed.

Lemma preserves_modify (f : NDITracker -> NDITracker) :
  (forall d, R d (f d)) -> preserves R (modify f).
Proof. intros Hf d tr. apply Hf. Qed.

Lemma preserves_bind {A B} (m : M A) (k : A -> M B) :
  preserves R m -> (forall a, preserves R (k a)) -> preserves R (bind m k).
Proof.
  intros Hm Hk d tr. unfold bind. specialize (Hm d tr).
  destruct (m d tr) as [a d1 tr1 | e d1 tr1]; [| exact Hm].
  eapply R_trans; [exact Hm | apply Hk].
Qed.

Lemma preserves_when (c : bool) (body : M unit) :
  preserves R body -> preserves R (when c body).
Proof. intros Hbody. destruct c; [exact Hbody | apply preserves_ret]. Qed.

Lemma preserves_for_each {A} (l : list A) (body : A -> M unit) :
  (forall x, preserves R (body x)) -> preserves R (for_each l body).
Proof.
  intros Hbody. induction l as [| x l IH]; [apply preserves_ret |].
  apply preserves_bind; [apply Hbody | intros _; exact IH].
Qed.

Lemma preserves_for_fold {A S} (l : list A) (body : A -> S -> M S) :
  (forall x s, preserves R (body x s)) ->
  forall s, preserves R (for_fold l s body).
Proof.
  intros Hbody. induction l as [| x l IH]; intros s; [apply preserves_ret |].
  apply preserves_bind; [apply Hbody | intros s'; apply IH].
Qed.

End Preservation.

(** The relations used below all share three facts: a step that leaves the
    tool list alone is fine, and so are appending a tool and writing the
    handle of a tool. *)
Section MethodsPreserve.

Variable R : NDITracker -> NDITracker -> Prop.
Hypothesis R_refl : forall d, R d d.
Hypothesis R_trans : forall d1 d2 d3, R d1 d2 -> R d2 d3 -> R d1 d3.
Hypothesis R_same :
  forall d d', tool_descriptors d' = tool_descriptors d -> R d d'.
Hypothesis R_append :
  forall d tool,
    R d (with_tool_descriptors (tool_descriptors d ++ [tool]) d).
Hypothesis R_update :
  forall d i h,
    R d (with_tool_descriptors
           (alter (fun tool =>
                     ToolDescriptor (description tool) (Some h)
                       (Some (format_d h)))
                  i (tool_descriptors d)) d).

(** The steps of a method are taken apart down to the primitive ones. *)
Ltac preserve_step :=
  first
    [ apply (preserves_bind R R_trans); [| intros ?]
    | apply (preserves_when R R_refl)
    | apply (preserves_for_each R R_refl R_trans); intros ?
    | apply (preserves_ret R R_refl)
    | apply (preserves_raise R R_refl)
    | apply (preserves_get_self R R_refl)
    | apply (preserves_lift R R_refl)
    | apply (preserves_invoke R R_refl)
    | apply preserves_modify; intros ?;
      first [ apply R_same; reflexivity | apply R_append | apply R_update ]
    | match goal with
      | |- preserves _ (if ?c then _ else _) => destruct c
      | |- preserves _ (match ?x with _ => _ end) => destruct x
      end ].

Lemma _check_for_errors_preserves ndi message :
  preserves R (_check_for_errors ndi message).
Proof.
  unfold _check_for_errors, ndiGetError, ndiClose, ndiErrorString.
  repeat preserve_step.
Qed.

Lemma stop_tracking_preserves ndi : preserves R (stop_tracking ndi).
Proof.
  unfold stop_tracking, ndiCommand.
  repeat first [apply _check_for_errors_preserves | preserve_step].
Qed.

Lemma _configure_preserves cfg : preserves R (_configure cfg).
Proof.
  unfold _configure, _config_vega, _config_polaris, _config_aurora,
    _config_dummy, set_serial_options, append_romfiles, append_tool.
  repeat preserve_step.
Qed.

Lemma probe_ports_preserves ndi candidates :
  forall locals, preserves R (probe_ports ndi candidates locals).
Proof.
  induction candidates as [| c rest IH]; intros locals; cbn [probe_ports].
  - preserve_step.
  - unfold ndiDeviceName, ndiProbe.
    repeat first [apply IH | preserve_step].
Qed.

Lemma _connect_serial_preserves ndi : preserves R (_connect_serial ndi).
Proof.
  unfold _connect_serial, probe_range, ndiDeviceName, ndiProbe, ndiOpen,
    ndiCommand.
  repeat first [ apply probe_ports_preserves
               | apply _check_for_errors_preserves
               | preserve_step ].
Qed.

Lemma _connect_network_preserves ndi : preserves R (_connect_network ndi).
Proof.
  unfold _connect_network, system, ping, ndiOpenNetwork, ndiCommand.
  repeat first [apply _check_for_errors_preserves | preserve_step].
Qed.

Lemma _read_sroms_from_file_preserves ndi :
  preserves R (_read_sroms_from_file ndi).
Proof.
  unfold _read_sroms_from_file, ndiCommand, ndiGetPHSRNumberOfHandles,
    ndiGetPHRQHandle, ndiPVWRFromFile, update_handle, get_tool.
  repeat first [ apply stop_tracking_preserves
               | apply _check_for_errors_preserves
               | preserve_step ].
Qed.

Lemma _initialise_ports_preserves ndi : preserves R (_initialise_ports ndi).
Proof.
  unfold _initialise_ports, ndiCommand, format_handle_02x.
  repeat first [apply _check_for_errors_preserves | preserve_step].
Qed.

Lemma _enable_tools_preserves ndi : preserves R (_enable_tools ndi).
Proof.
  unfold _enable_tools, ndiCommand, format_handle_02x.
  repeat first [apply _check_for_errors_preserves | preserve_step].
Qed.

Lemma _get_firmware_version_preserves ndi :
  preserves R (_get_firmware_version ndi).
Proof.
  unfold _get_firmware_version, ndiVER. repeat preserve_step.
Qed.

Lemma connect_preserves ndi cfg : preserves R (connect ndi cfg).
Proof.
  unfold connect, _connect_vega, _connect_polaris, _connect_aurora,
    _set_use_bx_transforms.
  repeat first [ apply _configure_preserves
               | apply _connect_serial_preserves
               | apply _connect_network_preserves
               | apply _read_sroms_from_file_preserves
               | apply _initialise_ports_preserves
               | apply _enable_tools_preserves
               | apply _get_firmware_version_preserves
               | preserve_step ].
Qed.

End MethodsPreserve.

Lemma extends_tools_refl d : extends_tools d d.
Proof. exists []. rewrite app_nil_r. reflexivity. Qed.

Lemma extends_tools_trans d1 d2 d3 :
  extends_tools d1 d2 -> extends_tools d2 d3 -> extends_tools d1 d3.
Proof.
  intros [a1 H1] [a2 H2]. exists (a1 ++ a2).
  rewrite H2, H1, app_assoc. reflexivity.
Qed.

Lemma extends_descriptions_refl d : extends_descriptions d d.
Proof. exists []. rewrite app_nil_r. reflexivity. Qed.

Lemma extends_descriptions_trans d1 d2 d3 :
  extends_descriptions d1 d2 -> extends_descriptions d2 d3 ->
  extends_descriptions d1 d3.
Proof.
  intros [a1 H1] [a2 H2]. exists (a1 ++ a2).
  rewrite H2, H1, app_assoc. reflexivity.
Qed.

Lemma map_description_alter (f : tool_descriptor -> tool_descriptor) i l :
  (forall tool, description (f tool) = description tool) ->
  map description (alter f i l) = map description l.
Proof.
  intros Hf. revert i. induction l as [| tool l IH]; intros [| i];
    simpl; try reflexivity.
  - rewrite Hf. reflexivity.
  - f_equal. apply IH.
Qed.

(** [_configure] leaves the tools it found in place, whatever the
    configuration and however it ends. *)
Lemma _configure_extends_tools cfg : preserves extends_tools (_configure cfg).
Proof.
  apply _configure_preserves.
  - exact extends_tools_refl.
  - exact extends_tools_trans.
  - intros d d' H. exists []. rewrite H, app_nil_r. reflexivity.
  - intros d tool. exists [tool]. reflexivity.
Qed.

(** So does the whole of [connect], up to the handles it writes. *)
Lemma connect_extends_descriptions ndi cfg :
  preserves extends_descriptions (connect ndi cfg).
Proof.
  apply connect_preserves.
  - exact extends_descriptions_refl.
  - exact extends_descriptions_trans.
  - intros d d' H. exists []. rewrite H, app_nil_r. reflexivity.
  - intros d tool. exists [description tool]. simpl.
    rewrite map_app. reflexivity.
  - intros d i h. exists []. simpl. rewrite app_nil_r.
    apply map_description_alter. reflexivity.
Qed.

(** *** The dummy *)

Lemma _config_dummy_spec cfg d tr :
  _config_dummy cfg d tr =
  Returns tt
    (with_tool_descriptors
       (tool_descriptors d ++ map romfile_tool (default [] (cfg_romfiles cfg)))
       d) tr.
Proof.
  unfold _config_dummy. destruct (cfg_romfiles cfg) as [romfiles |]; simpl.
  - apply append_romfiles_spec.
  - rewrite with_tool_descriptors_same by (rewrite app_nil_r; reflexivity).
    reflexivity.
Qed.

(** [connect] with a dummy configuration calls no collaborator and returns. *)
Lemma connect_dummy_spec ndi cfg d tr :
  cfg_tracker_type cfg = Some "dummy" ->
  connect ndi cfg d tr = Returns tt (dummy_connected cfg d) tr.
Proof.
  intros Htype.
  assert (Hconfigure :
    _configure cfg d tr =
    Returns tt
      (with_tool_descriptors
         (tool_descriptors d ++ map romfile_tool (default [] (cfg_romfiles cfg)))
         (with_tracker_type (Some "dummy") d)) tr).
  { unfold _configure. rewrite Htype.
    unfold bind, modify, get_self, when. cbn -[_config_dummy].
    rewrite _config_dummy_spec. reflexivity. }
  unfold connect. erewrite bind_returns by exact Hconfigure.
  reflexivity.
Qed.

Lemma calls_since_app (tr new : trace) : calls_since tr (tr ++ new) = new.
Proof. unfold calls_since. apply drop_app_length. Qed.

(** C4. For every dummy configuration, whatever its list of rom files,
    [connect] returns without a call to any collaborator, and on every
    object of the dummy type [get_frame] returns: it calls the host clock
    and no transport collaborator, gives one row for each configured tool,
    and every cell of every row but the time stamp is not-a-number. *)
Theorem dummy_get_frame_needs_no_transport :
  (forall ndi cfg d tr,
     cfg_tracker_type cfg = Some "dummy" ->
     connect ndi cfg d tr = Returns tt (dummy_connected cfg d) tr /\
     type_is (dummy_connected cfg d) "dummy" = true /\
     tool_descriptors (dummy_connected cfg d) =
       tool_descriptors d ++ map romfile_tool (default [] (cfg_romfiles cfg))) /\
  (forall ndi d tr,
     type_is d "dummy" = true ->
     exists f tr',
       get_frame ndi d tr = Returns f d tr' /\
       Forall (fun c => is_transport c = false) (calls_since tr tr') /\
       length f = length (tool_descriptors d) /\
       forall row,
         row ∈ f ->
         row = [nan; reply_time ndi (tr ++ [Call_time]);
                nan; nan; nan; nan; nan; nan; nan; nan; nan]).
Proof.
  split.
  - intros ndi cfg d tr Htype. split; [| split].
    + apply connect_dummy_spec. exact Htype.
    + reflexivity.
    + reflexivity.
  - intros ndi d tr Htype. do 2 eexists. split; [| split; [| split]].
    + apply get_frame_dummy. exact Htype.
    + rewrite calls_since_app. repeat constructor.
    + apply length_replicate.
    + intros row Hrow. apply elem_of_replicate in Hrow as [-> _]. reflexivity.
Qed.

Lemma dummy_get_frame_needs_no_transport_witness :
  connect absent_device (dummy_configuration (Some ["a.rom"; "b.rom"]))
    __init__ [] =
  Returns tt
    (dummy_connected (dummy_configuration (Some ["a.rom"; "b.rom"])) __init__)
    [] /\
  get_frame absent_device
    (dummy_connected (dummy_configuration (Some ["a.rom"; "b.rom"])) __init__)
    [] =
  Returns
    [[nan; fin 0; nan; nan; nan; nan; nan; nan; nan; nan; nan];
     [nan; fin 0; nan; nan; nan; nan; nan; nan; nan; nan; nan]]
    (dummy_connected (dummy_configuration (Some ["a.rom"; "b.rom"])) __init__)
    [Call_time].
Proof.
  destruct dummy_get_frame_needs_no_transport as [Hconnect Hframe].
  split.
  - apply (Hconnect absent_device
             (dummy_configuration (Some ["a.rom"; "b.rom"])) __init__ []).
    reflexivity.
  - destruct (Hframe absent_device
                (dummy_connected (dummy_configuration (Some ["a.rom"; "b.rom"]))
                   __init__) [] eq_refl) as (f & tr' & Hrun & _).
    reflexivity.
Defined.

(** *** The table of tool descriptions *)

Lemma describe_tool_spec d tr i tool (done rest : array pyobj) :
  tool_descriptors d !! i = Some tool ->
  length done = i ->
  describe_tool i (done ++ replicate 2 (PyStr "empty") :: rest) d tr =
  Returns (done ++ [PyInt (Z.of_nat i); description tool] :: rest) d tr.
Proof.
  intros Htool Hdone. unfold describe_tool, bind.
  rewrite set_cell_middle by (try assumption; simpl; lia).
  cbn [lift ret replicate insert list_insert].
  unfold get_tool, bind, get_self. rewrite Htool. cbn [ret].
  rewrite set_cell_middle by (try assumption; simpl; lia).
  reflexivity.
Qed.

Lemma descriptions_loop_spec d tr :
  forall post pre (done : array pyobj),
    tool_descriptors d = pre ++ post ->
    length done = length pre ->
    for_fold (seq (length pre) (length post))
      (done ++ replicate (length post) (replicate 2 (PyStr "empty")))
      describe_tool d tr =
    Returns
      (done ++ imap (fun j tool =>
                       [PyInt (Z.of_nat (length pre + j)); description tool])
                    post) d tr.
Proof.
  induction post as [| tool post IH]; intros pre done Htools Hdone.
  - cbn. rewrite app_nil_r. reflexivity.
  - cbn [length seq for_fold]. rewrite replicate_S. unfold bind.
    rewrite (describe_tool_spec d tr (length pre) tool)
      by (try assumption; rewrite Htools; apply list_lookup_middle; reflexivity).
    rewrite cons_middle.
    replace (S (length pre)) with (length (pre ++ [tool]))
      by (rewrite length_app; simpl; lia).
    rewrite IH.
    + rewrite <- cons_middle. rewrite imap_cons. rewrite Nat.add_0_r.
      do 3 f_equal. apply imap_ext. intros j x _. simpl.
      rewrite length_app. simpl. do 3 f_equal. lia.
    + rewrite Htools, <- cons_middle. reflexivity.
    + rewrite !length_app. simpl. lia.
Qed.

Lemma get_tool_descriptions_spec d tr :
  get_tool_descriptions d tr =
  Returns (description_table (tool_descriptors d)) d tr.
Proof.
  unfold get_tool_descriptions, bind at 1, get_self at 1, full.
  apply (descriptions_loop_spec d tr (tool_descriptors d) [] []); reflexivity.
Qed.

(** C10. Configuring never removes tool descriptors.  [_configure] leaves
    the list it found and adds the new tools at its end, for every
    configuration and however it ends, and the rest of [connect] keeps every
    descriptor, only writing handles.  So of two [connect] calls on one
    object the second appends: after dummy configurations of [m] and then
    [n] rom files the tools are those of the first followed by those of the
    second, [get_frame] returns [m + n] rows and [get_tool_descriptions]
    lists [m + n] entries. *)
Theorem second_connect_appends_tools :
  (forall cfg d tr,
     exists added,
       tool_descriptors (final_self (_configure cfg d tr)) =
       tool_descriptors d ++ added) /\
  (forall ndi cfg d tr,
     exists added,
       map description (tool_descriptors (final_self (connect ndi cfg d tr))) =
       map description (tool_descriptors d) ++ added) /\
  (forall ndi roms1 roms2 tr,
     exists d1 d2 f table,
       connect ndi (dummy_configuration (Some roms1)) __init__ tr
         = Returns tt d1 tr /\
       connect ndi (dummy_configuration (Some roms2)) d1 tr
         = Returns tt d2 tr /\
       tool_descriptors d2 = map romfile_tool (roms1 ++ roms2) /\
       get_frame ndi d2 tr = Returns f d2 (tr ++ [Call_time]) /\
       length f = (length roms1 + length roms2)%nat /\
       get_tool_descriptions d2 tr = Returns table d2 tr /\
       length table = (length roms1 + length roms2)%nat /\
       map (fun row => row !! 1%nat) table =
         map (fun romfile => Some (PyStr romfile)) (roms1 ++ roms2)).
Proof.
  split; [| split].
  - intros cfg d tr. apply _configure_extends_tools.
  - intros ndi cfg d tr. apply connect_extends_descriptions.
  - intros ndi roms1 roms2 tr.
    set (d1 := dummy_connected (dummy_configuration (Some roms1)) __init__).
    set (d2 := dummy_connected (dummy_configuration (Some roms2)) d1).
    assert (Htools : tool_descriptors d2 = map romfile_tool (roms1 ++ roms2)).
    { unfold d2, d1. simpl. rewrite map_app. reflexivity. }
    exists d1, d2. do 2 eexists.
    split; [apply connect_dummy_spec; reflexivity |].
    split; [apply connect_dummy_spec; reflexivity |].
    split; [exact Htools |].
    split; [apply get_frame_dummy; reflexivity |].
    split; [rewrite length_replicate, Htools, length_map, length_app; reflexivity |].
    split; [apply get_tool_descriptions_spec |].
    rewrite Htools. unfold description_table. split.
    + rewrite length_imap, length_map, length_app. reflexivity.
    + generalize (roms1 ++ roms2). intros l.
      change (fun (i : nat) (tool : tool_descriptor) =>
                [PyInt (Z.of_nat i); description tool])
        with (fun i : nat => (fun z tool => [PyInt z; description tool])
                               (Z.of_nat i)).
      generalize Z.of_nat. induction l as [| x l IH]; intros g; [reflexivity |].
      simpl. f_equal. apply (IH (fun i => g (S i))).
Qed.

(** ** Further properties of the methods *)

(** *** The whole of [_configure] *)

Lemma set_serial_options_spec cfg d tr :
  set_serial_options cfg d tr =
  Returns tt
    (with_ports_to_probe (Some (default 20 (cfg_number_of_ports_to_probe cfg)))
       (with_serial_port (Some (default (-1) (cfg_serial_port cfg))) d)) tr.
Proof.
  unfold set_serial_options, bind, modify.
  destruct (cfg_serial_port cfg), (cfg_number_of_ports_to_probe cfg);
    reflexivity.
Qed.

(** What [_configure] does for each configuration: it raises for the
    rejected ones, and otherwise returns the object with the fields of the
    tracker type set and the new tools appended. *)
Lemma _configure_spec cfg d tr :
  match _configure cfg d tr with
  | Raises e d' tr' =>
      rejected cfg = true /\ is_configuration_error e = true /\ tr' = tr /\
      tool_descriptors d' = tool_descriptors d /\
      device d' = device d /\ _state d' = _state d
  | Returns _ d' tr' =>
      rejected cfg = false /\ tr' = tr /\
      tracker_type d' = cfg_tracker_type cfg /\
      tool_descriptors d' = tool_descriptors d ++ new_tools cfg /\
      device d' = device d /\ _state d' = _state d /\
      _use_bx_transforms d' = _use_bx_transforms d /\
      _device_firmware_version d' = _device_firmware_version d /\
      (type_is d' "vega" = true ->
       ip_address d' = cfg_ip_address cfg /\
       port d' = Some (default 8765 (cfg_port cfg)) /\
       serial_port d' = serial_port d /\
       ports_to_probe d' = ports_to_probe d) /\
      (type_is d' "polaris" || type_is d' "aurora" = true ->
       serial_port d' = Some (default (-1) (cfg_serial_port cfg)) /\
       ports_to_probe d' =
         Some (default 20 (cfg_number_of_ports_to_probe cfg)) /\
       ip_address d' = ip_address d /\ port d' = port d) /\
      (type_is d' "dummy" = true ->
       ip_address d' = ip_address d /\ port d' = port d /\
       serial_port d' = serial_port d /\ ports_to_probe d' = ports_to_probe d)
  end.
Proof.
  destruct cfg as [t address p romfiles sp n ports].
  unfold _configure, rejected, missing_required_field, new_tools.
  cbn [cfg_tracker_type cfg_ip_address cfg_romfiles cfg_ports_to_use].
  destruct t as [t |]; [| cbn; repeat split].
  destruct (existsb (String.eqb t) supported_trackers) eqn:Hsupported;
    [| cbn; repeat split].
  apply supported_tracker_cases in Hsupported.
  unfold bind at 1, modify at 1.
  destruct Hsupported as [-> | [-> | [-> | ->]]];
    unfold bind, get_self, when;
    cbn -[_config_vega _config_polaris _config_aurora _config_dummy].
  - unfold _config_vega, bind, modify.
    cbn [cfg_ip_address cfg_port cfg_romfiles].
    destruct address as [address |];
      [| cbn; repeat split; destruct romfiles; reflexivity].
    destruct p as [p |], romfiles as [romfiles |];
      rewrite ?append_romfiles_spec; cbn; repeat split; discriminate.
  - unfold _config_polaris, bind. cbn [cfg_romfiles].
    destruct romfiles as [romfiles |]; [| cbn; repeat split].
    rewrite append_romfiles_spec, set_serial_options_spec.
    cbn. repeat split; discriminate.
  - unfold _config_aurora, bind. cbn [cfg_ports_to_use].
    destruct ports as [ports |]; [| cbn; repeat split].
    rewrite (for_each_append_tool port_tool), set_serial_options_spec.
    cbn. repeat split; discriminate.
  - rewrite _config_dummy_spec. cbn. repeat split; discriminate.
Qed.

(** X1. A [_configure] that returns has recorded the tracker type, appended
    one tool for each rom file (or each aurora port) after the tools that
    were there, and filled the fields of the tracker type: for vega the
    address and the port, 8765 when none is given; for polaris and aurora
    the serial port, -1 (scan) when none is given, and the number of ports
    to probe, 20 when none is given.  It has made no call and touched
    neither the device nor the tracking state. *)
Theorem configure_fills_defaults :
  forall cfg d tr d' tr',
    _configure cfg d tr = Returns tt d' tr' ->
    tr' = tr /\
    tracker_type d' = cfg_tracker_type cfg /\
    tool_descriptors d' = tool_descriptors d ++ new_tools cfg /\
    device d' = device d /\ _state d' = _state d /\
    (type_is d' "vega" = true ->
     ip_address d' = cfg_ip_address cfg /\
     port d' = Some (default 8765 (cfg_port cfg))) /\
    (type_is d' "polaris" || type_is d' "aurora" = true ->
     serial_port d' = Some (default (-1) (cfg_serial_port cfg)) /\
     ports_to_probe d' = Some (default 20 (cfg_number_of_ports_to_probe cfg))).
Proof.
  intros cfg d tr d' tr' Hrun.
  pose proof (_configure_spec cfg d tr) as Hspec. rewrite Hrun in Hspec.
  destruct Hspec as (_ & ? & ? & ? & ? & ? & _ & _ & Hvega & Hserial & _).
  repeat (split; [assumption |]). split.
  - intros Ht. destruct (Hvega Ht) as (? & ? & _). split; assumption.
  - intros Ht. destruct (Hserial Ht) as (? & ? & _). split; assumption.
Qed.

Lemma configure_fills_defaults_witness :
  exists d',
    _configure (aurora_configuration [1; 2]) __init__ [] = Returns tt d' [] /\
    tool_descriptors d' = [port_tool 1; port_tool 2] /\
    serial_port d' = Some 2 /\
    ports_to_probe d' = Some 20.
Proof.
  eexists. split; [reflexivity |].
  destruct (configure_fills_defaults (aurora_configuration [1; 2]) __init__ []
              _ _ eq_refl) as (_ & _ & Htools & _ & _ & _ & Hserial).
  destruct (Hserial eq_refl) as [Hport Hprobe].
  split; [exact Htools | split; [exact Hport | exact Hprobe]].
Defined.

(** X2. [_configure] raises exactly for the rejected configurations: no
    tracker type, an unsupported one, vega without an address, vega or
    polaris without rom files, aurora without ports.  Whenever it raises,
    the exception is a [KeyError] or a [ValueError], no call was made, and
    the tool list, the device and the tracking state are as they were: a
    configuration is never half applied to the tool list. *)
Theorem configure_rejects_before_appending :
  forall cfg d tr,
    (rejected cfg = true <->
     exists e d', _configure cfg d tr = Raises e d' tr) /\
    (forall e d' tr',
       _configure cfg d tr = Raises e d' tr' ->
       is_configuration_error e = true /\ tr' = tr /\
       tool_descriptors d' = tool_descriptors d /\
       device d' = device d /\ _state d' = _state d).
Proof.
  intros cfg d tr. pose proof (_configure_spec cfg d tr) as Hspec.
  destruct (_configure cfg d tr) as [[] d1 tr1 | e d1 tr1].
  - destruct Hspec as (Hrej & _). split.
    + rewrite Hrej. split; [discriminate |]. intros (e & d' & H). discriminate H.
    + intros e d' tr' H. discriminate H.
  - destruct Hspec as (Hrej & Herr & -> & Htools & Hdev & Hstate). split.
    + split; [| intros _; exact Hrej]. intros _. exists e, d1. reflexivity.
    + intros e' d' tr' [= <- <- <-]. repeat split; assumption.
Qed.

Lemma configure_rejects_before_appending_witness :
  exists e d',
    _configure vega_without_address tracking_polaris [] = Raises e d' [] /\
    is_configuration_error e = true /\
    tool_descriptors d' = tool_descriptors tracking_polaris.
Proof.
  destruct (configure_rejects_before_appending
              vega_without_address tracking_polaris []) as [Hiff Hraise].
  destruct (proj1 Hiff eq_refl) as (e & d' & Hrun).
  exists e, d'. split; [exact Hrun |].
  destruct (Hraise e d' [] Hrun) as (Herr & _ & Htools & _).
  split; assumption.
Defined.

(** *** Starting and stopping *)

Lemma start_tracking_spec ndi d tr :
  let tr1 := tr ++ start_calls d in
  let errnum := reply_int ndi tr1 in
  start_tracking ndi d tr =
  if errnum =? NDI_OKAY ndi then Returns tt (with_state (Some "tracking") d) tr1
  else
    let tr2 := tr1 ++ failure_calls d errnum in
    Raises (IOError (error_message "starting tracking." (reply_str ndi tr2)))
      d tr2.
Proof.
  unfold start_tracking, start_calls, failure_calls, bind, get_self, ndiCommand,
    invoke.
  rewrite _check_for_errors_spec. simpl. rewrite !app_two.
  destruct (_ =? _); reflexivity.
Qed.

(** X3. [start_tracking] looks neither at the stored state nor at the
    device: from every object it sends TSTART and reads the error register.
    The stored state becomes "tracking" exactly when the register reads
    [NDI_OKAY]; otherwise an [IOError] with the context "starting tracking."
    is raised, the stored state is what it was, and the device has been
    closed with [ndiClose] but is still held.  A [stop_tracking] after a
    start that went through leaves the state "ready" and nothing else
    changed. *)
Theorem start_tracking_sets_state_on_success_only :
  forall ndi d tr,
    let tr1 := tr ++ start_calls d in
    let errnum := reply_int ndi tr1 in
    (errnum = NDI_OKAY ndi ->
     start_tracking ndi d tr =
       Returns tt (with_state (Some "tracking") d) tr1 /\
     (reply_int ndi (tr1 ++ stop_calls d) = NDI_OKAY ndi ->
      (start_tracking ndi ;;; stop_tracking ndi) d tr =
        Returns tt (with_state (Some "ready") d) (tr1 ++ stop_calls d))) /\
    (errnum <> NDI_OKAY ndi ->
     exists text,
       start_tracking ndi d tr =
       Raises (IOError (error_message "starting tracking." text)) d
         (tr1 ++ failure_calls d errnum)).
Proof.
  intros ndi d tr tr1 errnum. split.
  - intros Hok.
    assert (Hstart : start_tracking ndi d tr =
                     Returns tt (with_state (Some "tracking") d) tr1).
    { rewrite start_tracking_spec. fold tr1. fold errnum.
      rewrite Hok, Z.eqb_refl. reflexivity. }
    split; [exact Hstart |].
    intros Hstop. erewrite bind_returns by exact Hstart.
    rewrite stop_tracking_spec. cbn [device with_state].
    change (stop_calls (with_state (Some "tracking") d)) with (stop_calls d).
    rewrite Hstop, Z.eqb_refl. reflexivity.
  - intros Hfail. rewrite start_tracking_spec. fold tr1. fold errnum.
    apply Z.eqb_neq in Hfail. rewrite Hfail. eexists. reflexivity.
Qed.

Lemma start_tracking_sets_state_on_success_only_witness :
  (start_tracking healthy_device ;;; stop_tracking healthy_device)
    ready_vega [] =
  Returns tt ready_vega
    [Call_ndiCommand (DevCapsule 1) "TSTART:"; Call_ndiGetError (DevCapsule 1);
     Call_ndiCommand (DevCapsule 1) "TSTOP:"; Call_ndiGetError (DevCapsule 1)] /\
  exists text,
    start_tracking absent_device ready_vega [] =
    Raises (IOError (error_message "starting tracking." text)) ready_vega
      [Call_ndiCommand (DevCapsule 1) "TSTART:"; Call_ndiGetError (DevCapsule 1);
       Call_ndiClose (DevCapsule 1); Call_ndiErrorString 1].
Proof.
  split.
  - destruct (start_tracking_sets_state_on_success_only healthy_device ready_vega [])
      as [Hok _].
    destruct (Hok eq_refl) as [_ Hround]. exact (Hround eq_refl).
  - destruct (start_tracking_sets_state_on_success_only absent_device ready_vega [])
      as [_ Hfail].
    apply Hfail. discriminate.
Defined.



(** *** The network connection *)

(** X5. [_connect_network] pings the address once before anything else,
    with the option "-n" on a platform whose name is "windows" in any case
    and "-c" elsewhere.  When the ping fails it raises an [IOError] that
    names the address, without a call to [ndiOpenNetwork] and with the
    object untouched.  When the ping succeeds but [ndiOpenNetwork] gives no
    device it raises a different [IOError], and the device of the object is
    now [None].  When a device is opened it is recorded, INIT is sent and the
    error register is checked. *)
Theorem connect_network_pings_before_opening :
  forall ndi d tr,
    let tr1 := tr ++ [Call_system] in
    let tr2 := tr1 ++ [Call_ping (ping_param (reply_str ndi tr1)) (ip_address d)] in
    let tr3 := tr2 ++ [Call_ndiOpenNetwork (ip_address d) (port d)] in
    (reply_int ndi tr2 <> 0 ->
     _connect_network ndi d tr =
     Raises (IOError ("Could not find a device at " +:+
                      str_of_opt_str (ip_address d))) d tr2) /\
    (reply_int ndi tr2 = 0 ->
     reply_device ndi tr3 = None ->
     _connect_network ndi d tr =
     Raises (IOError ("Could not connect to network NDI device at " +:+
                      str_of_opt_str (ip_address d)))
       (with_device DevNone d) tr3) /\
    (forall h,
       reply_int ndi tr2 = 0 ->
       reply_device ndi tr3 = Some h ->
       let tr4 := tr3 ++ [Call_ndiCommand (DevCapsule h) "INIT:";
                          Call_ndiGetError (DevCapsule h)] in
       reply_int ndi tr4 = NDI_OKAY ndi ->
       _connect_network ndi d tr =
       Returns tt (with_device (DevCapsule h) d) tr4).
Proof.
  intros ndi d tr tr1 tr2 tr3.
  assert (Hunfold :
    _connect_network ndi d tr =
    if reply_int ndi tr2 =? 0 then
      match reply_device ndi tr3 with
      | None =>
          Raises (IOError ("Could not connect to network NDI device at " +:+
                           str_of_opt_str (ip_address d)))
            (with_device DevNone d) tr3
      | Some h =>
          _check_for_errors ndi "Sending INIT command"
            (with_device (DevCapsule h) d)
            (tr3 ++ [Call_ndiCommand (DevCapsule h) "INIT:"])
      end
    else
      Raises (IOError ("Could not find a device at " +:+
                       str_of_opt_str (ip_address d))) d tr2).
  { unfold _connect_network, system, ping, ndiOpenNetwork, ndiCommand,
      get_self, invoke, bind.
    fold tr1. fold (ping_param (reply_str ndi tr1)). fold tr2.
    destruct (reply_int ndi tr2 =? 0); [| reflexivity].
    cbn [ret]. fold tr3. destruct (reply_device ndi tr3); reflexivity. }
  rewrite Hunfold. split; [| split].
  - intros Hping. apply Z.eqb_neq in Hping. rewrite Hping. reflexivity.
  - intros Hping Hopen. rewrite Hping, Hopen. reflexivity.
  - intros h Hping Hopen tr4 Hok. rewrite Hping, Hopen. cbn [Z.eqb].
    rewrite _check_for_errors_spec. cbn [device with_device].
    rewrite app_two. fold tr4. rewrite Hok, Z.eqb_refl. reflexivity.
Qed.

Lemma connect_network_pings_before_opening_witness :
  _connect_network absent_device vega_configured [] =
    Raises (IOError "Could not find a device at 10.0.0.1") vega_configured
      [Call_system; Call_ping "-c" (Some "10.0.0.1")] /\
  _connect_network healthy_device vega_configured [] =
    Returns tt (with_device (DevCapsule 1) vega_configured)
      [Call_system; Call_ping "-c" (Some "10.0.0.1");
       Call_ndiOpenNetwork (Some "10.0.0.1") (Some 8765);
       Call_ndiCommand (DevCapsule 1) "INIT:";
       Call_ndiGetError (DevCapsule 1)].
Proof.
  split.
  - destruct (connect_network_pings_before_opening
                absent_device vega_configured []) as (Hping & _).
    apply Hping. discriminate.
  - destruct (connect_network_pings_before_opening
                healthy_device vega_configured []) as (_ & _ & Hopen).
    apply (Hopen 1); reflexivity.
Defined.

(** *** The serial connection, further *)

(** X6. With an explicit serial port [_connect_serial] asks for the name of
    that port and probes it, and nothing else is probed.  When the probe
    does not answer [NDI_OKAY] the [IOError] with the hints is raised.  When
    it does and [ndiOpen] gives no device, an [IOError] names the port and
    no command is sent.  When a device is opened, INIT is sent and checked,
    and the COMM command with the three communication parameters is sent
    last, with no error check after it. *)
Theorem connect_serial_explicit_port_outcomes :
  forall ndi d tr p,
    serial_port d = Some p ->
    p <> -1 ->
    let tr1 := tr ++ [Call_ndiDeviceName (Some p)] in
    let port_name := reply_name ndi tr1 in
    let tr2 := tr1 ++ [Call_ndiProbe port_name] in
    let tr3 := tr2 ++ [Call_ndiOpen port_name] in
    (reply_int ndi tr2 <> NDI_OKAY ndi ->
     _connect_serial ndi d tr =
     Raises (IOError (no_device_message (ports_to_probe d))) d tr2) /\
    (reply_int ndi tr2 = NDI_OKAY ndi ->
     reply_device ndi tr3 = None ->
     _connect_serial ndi d tr =
     Raises (IOError ("Could not connect to serial NDI device at " +:+
                      str_of_opt_str port_name))
       (with_device DevNone d) tr3) /\
    (forall h,
       reply_int ndi tr2 = NDI_OKAY ndi ->
       reply_device ndi tr3 = Some h ->
       let tr4 := tr3 ++ [Call_ndiCommand (DevCapsule h) "INIT:";
                          Call_ndiGetError (DevCapsule h)] in
       reply_int ndi tr4 = NDI_OKAY ndi ->
       _connect_serial ndi d tr =
       Returns tt (with_device (DevCapsule h) d)
         (tr4 ++ [Call_ndiCommand (DevCapsule h) (comm_command ndi)])).
Proof.
  intros ndi d tr p Hport Hp tr1 port_name tr2 tr3.
  split; [apply (_connect_serial_explicit_port ndi d tr p Hport Hp) |].
  assert (Hunfold :
    reply_int ndi tr2 = NDI_OKAY ndi ->
    _connect_serial ndi d tr =
    match reply_device ndi tr3 with
    | None =>
        Raises (IOError ("Could not connect to serial NDI device at " +:+
                         str_of_opt_str port_name))
          (with_device DevNone d) tr3
    | Some h =>
        match
          _check_for_errors ndi "Sending INIT command"
            (with_device (DevCapsule h) d)
            (tr3 ++ [Call_ndiCommand (DevCapsule h) "INIT:"])
        with
        | Returns _ d' tr' =>
            Returns tt d'
              (tr' ++ [Call_ndiCommand (device d') (comm_command ndi)])
        | Raises e d' tr' => Raises e d' tr'
        end
    end).
  { intros Hprobe.
    unfold _connect_serial, get_self, ndiDeviceName, ndiProbe, ndiOpen,
      ndiCommand, invoke, bind.
    rewrite Hport. apply Z.eqb_neq in Hp. rewrite Hp.
    cbn [ret result name]. fold tr1. fold port_name. fold tr2.
    rewrite Hprobe, Z.eqb_refl. cbn [negb]. fold tr3.
    destruct (reply_device ndi tr3); reflexivity. }
  split.
  - intros Hprobe Hopen. rewrite (Hunfold Hprobe), Hopen. reflexivity.
  - intros h Hprobe Hopen tr4 Hok. rewrite (Hunfold Hprobe), Hopen.
    rewrite _check_for_errors_spec. cbn [device with_device].
    rewrite app_two. fold tr4. rewrite Hok, Z.eqb_refl. reflexivity.
Qed.

Lemma connect_serial_explicit_port_outcomes_witness :
  _connect_serial healthy_device polaris_on_port_3 [] =
  Returns tt (with_device (DevCapsule 1) polaris_on_port_3)
    [Call_ndiDeviceName (Some 3); Call_ndiProbe (Some "/dev/ttyS0");
     Call_ndiOpen (Some "/dev/ttyS0");
     Call_ndiCommand (DevCapsule 1) "INIT:"; Call_ndiGetError (DevCapsule 1);
     Call_ndiCommand (DevCapsule 1) "COMM:50000"].
Proof.
  destruct (connect_serial_explicit_port_outcomes
              healthy_device polaris_on_port_3 [] 3 eq_refl)
    as (_ & _ & Hopen); [discriminate |].
  apply (Hopen 1); reflexivity.
Defined.

(** A [result] that is assigned stays assigned through the scan. *)
Lemma probe_ports_keeps_bound_result ndi candidates :
  forall locals d tr ls d' tr' r,
    result locals = Some r ->
    probe_ports ndi candidates locals d tr = Returns ls d' tr' ->
    exists r', result ls = Some r'.
Proof.
  induction candidates as [| c rest IH]; intros locals d tr ls d' tr' r Hr.
  - cbn. intros [= <- _ _]. eauto.
  - cbn [probe_ports]. unfold bind, ndiDeviceName, ndiProbe, invoke.
    destruct (truthy_name _); cbn [negb].
    + destruct (_ =? _).
      * intros [= <- _ _]. eauto.
      * apply IH with (r := reply_int ndi
          ((tr ++ [Call_ndiDeviceName (Some (Z.of_nat c))]) ++
           [Call_ndiProbe
              (reply_name ndi (tr ++ [Call_ndiDeviceName (Some (Z.of_nat c))]))])).
        reflexivity.
    + apply IH with (r := r). exact Hr.
Qed.

(** The scan, whatever the ports answer. *)
Lemma probe_ports_scan ndi candidates :
  forall locals d tr,
  exists ls new k,
    probe_ports ndi candidates locals d tr = Returns ls d (tr ++ new) /\
    (k <= length candidates)%nat /\
    filter (fun c => is_name_call c = true) new =
      map (fun i => Call_ndiDeviceName (Some (Z.of_nat i))) (take k candidates) /\
    Forall scan_call new /\
    (k = length candidates \/ result ls = Some (NDI_OKAY ndi)) /\
    ((result ls = result locals /\
      Forall (fun c => is_name_call c = true) new) \/
     (exists r nm, result ls = Some r /\ In (Call_ndiProbe nm) new)).
Proof.
  induction candidates as [| c rest IH]; intros locals d tr.
  - exists locals, [], 0%nat. cbn. rewrite app_nil_r.
    repeat split; try constructor; auto.
  - cbn [probe_ports]. unfold bind, ndiDeviceName, ndiProbe, invoke.
    set (tr1 := tr ++ [Call_ndiDeviceName (Some (Z.of_nat c))]).
    destruct (truthy_name (reply_name ndi tr1)) eqn:Hname; cbn [negb].
    + set (tr2 := tr1 ++ [Call_ndiProbe (reply_name ndi tr1)]).
      destruct (reply_int ndi tr2 =? NDI_OKAY ndi) eqn:Hok.
      * apply Z.eqb_eq in Hok.
        exists {| name := Some (reply_name ndi tr1);
                  result := Some (reply_int ndi tr2) |},
          [Call_ndiDeviceName (Some (Z.of_nat c));
           Call_ndiProbe (reply_name ndi tr1)], 1%nat.
        split; [unfold ret, tr2, tr1; rewrite <- app_assoc; reflexivity |].
        split; [simpl; lia |]. split; [reflexivity |].
        split; [repeat constructor; exact Hname |].
        split; [right; cbn; f_equal; exact Hok |].
        right. do 2 eexists. split; [reflexivity | simpl; eauto].
      * destruct (IH {| name := Some (reply_name ndi tr1);
                        result := Some (reply_int ndi tr2) |} d tr2)
          as (ls & new & k & Hrun & Hk & Hnames & Hcalls & Hstop & _).
        exists ls, (Call_ndiDeviceName (Some (Z.of_nat c)) ::
                    Call_ndiProbe (reply_name ndi tr1) :: new), (S k).
        split; [rewrite Hrun; unfold tr2, tr1; rewrite <- !app_assoc; reflexivity |].
        split; [simpl; lia |].
        split; [cbn; f_equal; exact Hnames |].
        split; [repeat constructor; assumption |].
        split; [destruct Hstop as [-> | Hstop]; [left; reflexivity | right; exact Hstop] |].
        right.
        assert (Hsome : exists r, result ls = Some r).
        { eapply probe_ports_keeps_bound_result; [| exact Hrun]. reflexivity. }
        destruct Hsome as [r Hr]. exists r. eexists. split; [exact Hr |].
        simpl. eauto.
    + destruct (IH {| name := Some (reply_name ndi tr1);
                      result := result locals |} d tr1)
        as (ls & new & k & Hrun & Hk & Hnames & Hcalls & Hstop & Hresult).
      exists ls, (Call_ndiDeviceName (Some (Z.of_nat c)) :: new), (S k).
      split; [rewrite Hrun; unfold tr1; rewrite <- app_assoc; reflexivity |].
      split; [simpl; lia |].
      split; [cbn; f_equal; exact Hnames |].
      split; [constructor; [exact I | exact Hcalls] |].
      split; [destruct Hstop as [-> | Hstop]; [left; reflexivity | right; exact Hstop] |].
      destruct Hresult as [[Hsame Hall] | (r & nm & Hr & Hin)].
      * left. split; [exact Hsame | constructor; [reflexivity | exact Hall]].
      * right. exists r, nm. split; [exact Hr | right; exact Hin].
Qed.


(** X8. When the scan has probed at least one port and ends without a port
    that answered [NDI_OKAY], [_connect_serial] raises the [IOError] that
    gives the number of candidates and the three hints; no device is opened
    and the object is untouched. *)
Theorem scan_without_responder_raises_hints :
  forall ndi d tr n ls new,
    serial_port d = Some (-1) ->
    ports_to_probe d = Some n ->
    probe_ports ndi (range (Z.to_nat n)) {| name := None; result := None |} d tr
      = Returns ls d (tr ++ new) ->
    (exists nm, In (Call_ndiProbe nm) new) ->
    result ls <> Some (NDI_OKAY ndi) ->
    _connect_serial ndi d tr =
    Raises (IOError (no_device_message (Some n))) d (tr ++ new).
Proof.
  intros ndi d tr n ls new Hport Hcount Hrun [nm Hprobe] Hnone.
  destruct (probe_ports_scan ndi (range (Z.to_nat n))
              {| name := None; result := None |} d tr)
    as (ls' & new' & k & Hrun' & _ & _ & _ & _ & Hresult).
  rewrite Hrun in Hrun'. injection Hrun' as <- Hnew.
  apply app_inv_head in Hnew as <-.
  unfold _connect_serial, bind, get_self. rewrite Hport, Hcount.
  change (-1 =? -1) with true. cbn [probe_range]. unfold ret at 1.
  rewrite Hrun.
  destruct Hresult as [[_ Hall] | (r & _ & Hr & _)].
  - rewrite Forall_forall in Hall. apply list_elem_of_In in Hprobe.
    apply Hall in Hprobe. discriminate Hprobe.
  - rewrite Hr in *.
    destruct (r =? NDI_OKAY ndi) eqn:Hok; [| reflexivity].
    apply Z.eqb_eq in Hok. subst r. contradiction.
Qed.

Lemma scan_without_responder_raises_hints_witness :
  _connect_serial unanswered_ports polaris_scanning_two [] =
  Raises (IOError (no_device_message (Some 2))) polaris_scanning_two
    [Call_ndiDeviceName (Some 0); Call_ndiProbe (Some "/dev/ttyS1");
     Call_ndiDeviceName (Some 1); Call_ndiProbe (Some "/dev/ttyS3")].
Proof.
  apply (scan_without_responder_raises_hints unanswered_ports
           polaris_scanning_two [] 2
           {| name := Some (Some "/dev/ttyS3"); result := Some 257 |}
           [Call_ndiDeviceName (Some 0); Call_ndiProbe (Some "/dev/ttyS1");
            Call_ndiDeviceName (Some 1); Call_ndiProbe (Some "/dev/ttyS3")]).
  - reflexivity.
  - reflexivity.
  - reflexivity.
  - exists (Some "/dev/ttyS1"). simpl. tauto.
  - discriminate.
Defined.

(** *** The port phases: initialise and enable *)

Lemma for_each_ext {A} (l : list A) (f g : A -> M unit) d tr :
  (forall x d tr, f x d tr = g x d tr) ->
  for_each l f d tr = for_each l g d tr.
Proof.
  intros Hfg. revert d tr. induction l as [| x l IH]; intros d tr;
    [reflexivity |].
  cbn [for_each]. unfold bind. rewrite Hfg.
  destruct (g x d tr); [apply IH | reflexivity].
Qed.

Lemma for_each_app {A} (l1 l2 : list A) (f : A -> M unit) d tr :
  for_each (l1 ++ l2) f d tr = (for_each l1 f ;;; for_each l2 f) d tr.
Proof.
  revert d tr. induction l1 as [| x l1 IH]; intros d tr; [reflexivity |].
  cbn [for_each app]. unfold bind.
  destruct (f x d tr) as [[] d1 tr1 | e d1 tr1]; [| reflexivity].
  rewrite IH. reflexivity.
Qed.

Section PortPhase.

Variable ndi : collaborators.
Variables command context : Z -> string.
Variable d : NDITracker.

Let calls := port_command_calls command d.
Let step := port_step ndi command context.

Lemma port_step_spec tool tr :
  step tool d tr =
  match port_handle tool with
  | None =>
      Raises
        (TypeError "unsupported format string passed to NoneType.__format__")
        d tr
  | Some z =>
      let tr1 := tr ++ calls tool in
      if reply_int ndi tr1 =? NDI_OKAY ndi then Returns tt d tr1
      else
        let tr2 := tr1 ++ failure_calls d (reply_int ndi tr1) in
        Raises (IOError (error_message (context z) (reply_str ndi tr2))) d tr2
  end.
Proof.
  unfold step, port_step, calls, port_command_calls.
  destruct (port_handle tool) as [z |]; [| reflexivity].
  unfold bind, get_self, ndiCommand, invoke.
  rewrite _check_for_errors_spec. cbv zeta. rewrite !app_two. reflexivity.
Qed.

(** Every tool has a handle and every check passes: the phase returns. *)
Lemma port_steps_return tools :
  forall tr,
    Forall has_handle tools ->
    checks_pass ndi command d tr tools ->
    for_each tools step d tr = Returns tt d (tr ++ flat_map calls tools).
Proof.
  induction tools as [| tool tools IH]; intros tr Hhandles Hok.
  - cbn. rewrite app_nil_r. reflexivity.
  - cbn [for_each]. unfold bind. rewrite port_step_spec.
    apply Forall_cons in Hhandles as [Hhandle Hhandles].
    destruct (port_handle tool) as [z |] eqn:Hz; [| contradiction].
    cbv zeta.
    pose proof (Hok 0%nat ltac:(simpl; lia)) as H0.
    cbn [take flat_map] in H0. rewrite app_nil_r in H0.
    fold calls in H0. rewrite H0, Z.eqb_refl.
    rewrite IH; [cbn [flat_map]; rewrite <- app_assoc; reflexivity | exact Hhandles |].
    intros j Hj. specialize (Hok (S j) ltac:(simpl; lia)).
    cbn [take flat_map] in Hok. rewrite app_assoc in Hok. exact Hok.
Qed.

(** The tools before [tool] pass, the check after the command of [tool]
    fails: the phase raises there, and the tools after it get no command. *)
Lemma port_steps_abort pre tool post z tr :
  Forall has_handle pre ->
  checks_pass ndi command d tr pre ->
  port_handle tool = Some z ->
  let tr1 := tr ++ flat_map calls pre ++ calls tool in
  reply_int ndi tr1 <> NDI_OKAY ndi ->
  let tr2 := tr1 ++ failure_calls d (reply_int ndi tr1) in
  for_each (pre ++ tool :: post) step d tr =
  Raises (IOError (error_message (context z) (reply_str ndi tr2))) d tr2.
Proof.
  intros Hhandles Hok Hz tr1 Hfail tr2.
  rewrite for_each_app. unfold bind at 1.
  rewrite (port_steps_return pre tr Hhandles Hok).
  cbn [for_each]. unfold bind. rewrite port_step_spec, Hz. cbv zeta.
  rewrite <- app_assoc. fold tr1.
  apply Z.eqb_neq in Hfail. rewrite Hfail. reflexivity.
Qed.

(** A tool without a handle stops the phase with a [TypeError] before any
    command is sent for it. *)
Lemma port_steps_no_handle pre tool post tr :
  Forall has_handle pre ->
  checks_pass ndi command d tr pre ->
  port_handle tool = None ->
  for_each (pre ++ tool :: post) step d tr =
  Raises (TypeError "unsupported format string passed to NoneType.__format__")
    d (tr ++ flat_map calls pre).
Proof.
  intros Hhandles Hok Hz.
  rewrite for_each_app. unfold bind at 1.
  rewrite (port_steps_return pre tr Hhandles Hok).
  cbn [for_each]. unfold bind. rewrite port_step_spec, Hz. reflexivity.
Qed.

End PortPhase.

Lemma _enable_tools_as_steps ndi d tr :
  truthy_device (device d) = true ->
  _enable_tools ndi d tr =
  for_each (tool_descriptors d) (port_step ndi enable_command enable_context) d
    (tr ++ [Call_ndiCommand (device d) "PHSR:03"]).
Proof.
  intros Hdev. unfold _enable_tools, bind at 1, get_self at 1.
  rewrite Hdev. cbn [negb]. unfold bind at 1, ndiCommand at 1, invoke.
  unfold bind at 1, get_self at 1.
  apply for_each_ext. intros tool d0 tr0.
  unfold port_step, format_handle_02x, enable_command, enable_context.
  destruct (port_handle tool); reflexivity.
Qed.

Lemma _initialise_ports_as_steps ndi d tr :
  truthy_device (device d) = true ->
  _initialise_ports ndi d tr =
  for_each (tool_descriptors d) (port_step ndi init_command init_context) d
    (tr ++ [Call_ndiCommand (device d) "PHSR:02"]).
Proof.
  intros Hdev. unfold _initialise_ports, bind at 1, get_self at 1.
  rewrite Hdev. cbn [negb]. unfold bind at 1, ndiCommand at 1, invoke.
  unfold bind at 1, get_self at 1.
  apply for_each_ext. intros tool d0 tr0.
  unfold port_step, format_handle_02x, init_command, init_context.
  destruct (port_handle tool); reflexivity.
Qed.

(** X9. [_enable_tools] raises a [ValueError] without any call when no
    device is held.  With a device it sends PHSR:03 and then, tool by tool
    in the order of the configuration, the PENA command for the handle in
    two hexadecimal digits and mode D, each followed by a check of the error
    register.  It returns, with the object untouched, when every tool has a
    handle and every check passes.  At the first check that fails it raises
    the [IOError] with the context "Enabling port handle <handle>." (the
    handle in decimal) after closing the device, and at the first tool
    without a handle it raises a [TypeError]; in both cases no command is
    sent for the tools that follow. *)
Theorem enable_tools_stops_at_first_failure :
  forall ndi d tr,
    let calls := port_command_calls enable_command d in
    let tr0 := tr ++ [Call_ndiCommand (device d) "PHSR:03"] in
    (truthy_device (device d) = false ->
     _enable_tools ndi d tr =
     Raises (ValueError "enable tools called with no NDI device") d tr) /\
    (truthy_device (device d) = true ->
     Forall has_handle (tool_descriptors d) ->
     checks_pass ndi enable_command d tr0 (tool_descriptors d) ->
     _enable_tools ndi d tr =
     Returns tt d (tr0 ++ flat_map calls (tool_descriptors d))) /\
    (forall pre tool post,
       truthy_device (device d) = true ->
       tool_descriptors d = pre ++ tool :: post ->
       Forall has_handle pre ->
       checks_pass ndi enable_command d tr0 pre ->
       match port_handle tool with
       | None =>
           _enable_tools ndi d tr =
           Raises
             (TypeError "unsupported format string passed to NoneType.__format__")
             d (tr0 ++ flat_map calls pre)
       | Some z =>
           let tr1 := tr0 ++ flat_map calls pre ++ calls tool in
           reply_int ndi tr1 <> NDI_OKAY ndi ->
           let tr2 := tr1 ++ failure_calls d (reply_int ndi tr1) in
           _enable_tools ndi d tr =
           Raises (IOError (error_message (enable_context z) (reply_str ndi tr2)))
             d tr2
       end).
Proof.
  intros ndi d tr calls tr0. split; [| split].
  - intros Hdev. unfold _enable_tools, bind, get_self. rewrite Hdev. reflexivity.
  - intros Hdev Hhandles Hok. rewrite _enable_tools_as_steps by exact Hdev.
    apply port_steps_return; assumption.
  - intros pre tool post Hdev Htools Hhandles Hok.
    rewrite _enable_tools_as_steps by exact Hdev. rewrite Htools.
    destruct (port_handle tool) as [z |] eqn:Hz.
    + intros tr1 Hfail tr2.
      apply (port_steps_abort ndi enable_command enable_context d
               pre tool post z tr0 Hhandles Hok Hz Hfail).
    + apply port_steps_no_handle; assumption.
Qed.

Lemma enable_tools_stops_at_first_failure_witness :
  _enable_tools healthy_device polaris_two_tools [] =
    Returns tt polaris_two_tools
      [Call_ndiCommand (DevCapsule 1) "PHSR:03";
       Call_ndiCommand (DevCapsule 1) "PENA:0aD"; Call_ndiGetError (DevCapsule 1);
       Call_ndiCommand (DevCapsule 1) "PENA:0bD"; Call_ndiGetError (DevCapsule 1)] /\
  _enable_tools enable_fails_device polaris_two_tools [] =
    Raises (IOError "error when Enabling port handle 10.. the error was: Invalid port handle")
      polaris_two_tools
      [Call_ndiCommand (DevCapsule 1) "PHSR:03";
       Call_ndiCommand (DevCapsule 1) "PENA:0aD"; Call_ndiGetError (DevCapsule 1);
       Call_ndiClose (DevCapsule 1); Call_ndiErrorString 4].
Proof.
  split.
  - destruct (enable_tools_stops_at_first_failure healthy_device
                polaris_two_tools []) as (_ & Hreturn & _).
    apply Hreturn.
    + reflexivity.
    + repeat constructor; discriminate.
    + intros [| [| j]] Hj; [reflexivity | reflexivity | simpl in Hj; lia].
  - destruct (enable_tools_stops_at_first_failure enable_fails_device
                polaris_two_tools []) as (_ & _ & Habort).
    apply (Habort [] (ToolDescriptor (PyStr "a.rom") (Some 10) (Some "10"))
             [ToolDescriptor (PyStr "b.rom") (Some 11) (Some "11")]).
    + reflexivity.
    + reflexivity.
    + constructor.
    + intros j Hj. simpl in Hj. lia.
    + discriminate.
Defined.

(** X10. [_initialise_ports] has the same shape: a [ValueError] and no call
    without a device; otherwise PHSR:02, then for each tool in order the
    PINIT command for its handle and a check.  It returns when every tool
    has a handle and every check passes, and stops at the first check that
    fails, with the context "Initialising port handle <handle>." (the handle
    in two hexadecimal digits), or at the first tool without a handle. *)
Theorem initialise_ports_stops_at_first_failure :
  forall ndi d tr,
    let calls := port_command_calls init_command d in
    let tr0 := tr ++ [Call_ndiCommand (device d) "PHSR:02"] in
    (truthy_device (device d) = false ->
     _initialise_ports ndi d tr =
     Raises (ValueError "init ports called with no NDI device") d tr) /\
    (truthy_device (device d) = true ->
     Forall has_handle (tool_descriptors d) ->
     checks_pass ndi init_command d tr0 (tool_descriptors d) ->
     _initialise_ports ndi d tr =
     Returns tt d (tr0 ++ flat_map calls (tool_descriptors d))) /\
    (forall pre tool post,
       truthy_device (device d) = true ->
       tool_descriptors d = pre ++ tool :: post ->
       Forall has_handle pre ->
       checks_pass ndi init_command d tr0 pre ->
       match port_handle tool with
       | None =>
           _initialise_ports ndi d tr =
           Raises
             (TypeError "unsupported format string passed to NoneType.__format__")
             d (tr0 ++ flat_map calls pre)
       | Some z =>
           let tr1 := tr0 ++ flat_map calls pre ++ calls tool in
           reply_int ndi tr1 <> NDI_OKAY ndi ->
           let tr2 := tr1 ++ failure_calls d (reply_int ndi tr1) in
           _initialise_ports ndi d tr =
           Raises (IOError (error_message (init_context z) (reply_str ndi tr2)))
             d tr2
       end).
Proof.
  intros ndi d tr calls tr0. split; [| split].
  - intros Hdev. unfold _initialise_ports, bind, get_self. rewrite Hdev.
    reflexivity.
  - intros Hdev Hhandles Hok. rewrite _initialise_ports_as_steps by exact Hdev.
    apply port_steps_return; assumption.
  - intros pre tool post Hdev Htools Hhandles Hok.
    rewrite _initialise_ports_as_steps by exact Hdev. rewrite Htools.
    destruct (port_handle tool) as [z |] eqn:Hz.
    + intros tr1 Hfail tr2.
      apply (port_steps_abort ndi init_command init_context d
               pre tool post z tr0 Hhandles Hok Hz Hfail).
    + apply port_steps_no_handle; assumption.
Qed.

Lemma initialise_ports_stops_at_first_failure_witness :
  _initialise_ports healthy_device polaris_two_tools [] =
    Returns tt polaris_two_tools
      [Call_ndiCommand (DevCapsule 1) "PHSR:02";
       Call_ndiCommand (DevCapsule 1) "PINIT:0a"; Call_ndiGetError (DevCapsule 1);
       Call_ndiCommand (DevCapsule 1) "PINIT:0b"; Call_ndiGetError (DevCapsule 1)] /\
  _initialise_ports healthy_device
    (with_device (DevCapsule 1)
       (dummy_connected (dummy_configuration (Some ["a.rom"])) __init__)) [] =
    Raises (TypeError "unsupported format string passed to NoneType.__format__")
      (with_device (DevCapsule 1)
         (dummy_connected (dummy_configuration (Some ["a.rom"])) __init__))
      [Call_ndiCommand (DevCapsule 1) "PHSR:02"].
Proof.
  split.
  - destruct (initialise_ports_stops_at_first_failure healthy_device
                polaris_two_tools []) as (_ & Hreturn & _).
    apply Hreturn.
    + reflexivity.
    + repeat constructor; discriminate.
    + intros [| [| j]] Hj; [reflexivity | reflexivity | simpl in Hj; lia].
  - destruct (initialise_ports_stops_at_first_failure healthy_device
                (with_device (DevCapsule 1)
                   (dummy_connected (dummy_configuration (Some ["a.rom"]))
                      __init__)) []) as (_ & _ & Habort).
    apply (Habort [] (romfile_tool "a.rom") []).
    + reflexivity.
    + reflexivity.
    + constructor.
    + intros j Hj. simpl in Hj. lia.
Defined.

(** *** Allocation of the port handles *)

Lemma alter_middle {A} (f : A -> A) (l1 l2 : list A) (x : A) :
  alter f (length l1) (l1 ++ x :: l2) = l1 ++ f x :: l2.
Proof.
  induction l1 as [| y l1 IH]; [reflexivity |].
  cbn [length app]. change (alter f (S (length l1)) (y :: (l1 ++ x :: l2)))
    with (y :: alter f (length l1) (l1 ++ x :: l2)).
  rewrite IH. reflexivity.
Qed.

Lemma with_tool_descriptors_twice l1 l2 d :
  with_tool_descriptors l1 (with_tool_descriptors l2 d) =
  with_tool_descriptors l1 d.
Proof. reflexivity. Qed.

Lemma check_passes ndi message d tr :
  all_checks_pass ndi ->
  _check_for_errors ndi message d tr =
  Returns tt d (tr ++ [Call_ndiGetError (device d)]).
Proof.
  intros Hok. rewrite _check_for_errors_spec. cbv zeta.
  rewrite Hok, Z.eqb_refl. reflexivity.
Qed.

(** [_read_sroms_from_file] is its guard, the stop, and its two loops. *)
Lemma _read_sroms_from_file_unfold ndi d tr :
  _read_sroms_from_file ndi d tr =
  if negb (truthy_device (device d)) then
    Raises (ValueError "read srom called with no NDI device") d tr
  else
    (stop_tracking ndi ;;;
     self <- get_self ;;
     ndiCommand ndi (device self) "PHSR:01" ;;;
     number_of_tools <- ndiGetPHSRNumberOfHandles ndi (device self) ;;
     for_each (range (Z.to_nat number_of_tools)) (free_stale_handle ndi) ;;;
     self <- get_self ;;
     for_each (range (length (tool_descriptors self))) (allocate_and_load ndi) ;;;
     self <- get_self ;;
     ndiCommand ndi (device self) "PHSR:01") d tr.
Proof.
  unfold _read_sroms_from_file, bind at 1, get_self at 1.
  destruct (truthy_device (device d)); reflexivity.
Qed.

(** The first loop on a device that reports no error: it asks the handle of
    each waiting port in order and uploads nothing. *)
Lemma free_stale_handles_spec ndi d indices :
  all_checks_pass ndi ->
  forall tr,
  exists new,
    for_each indices (free_stale_handle ndi) d tr = Returns tt d (tr ++ new) /\
    filter (fun c => is_upload c = true) new = [] /\
    filter (fun c => is_stale_query c = true) new =
      map (fun i => Call_ndiGetPHRQHandle (device d) (Some (Z.of_nat i))) indices.
Proof.
  intros Hok. induction indices as [| i indices IH]; intros tr.
  - exists []. cbn. rewrite app_nil_r. repeat split.
  - cbn [for_each]. unfold bind at 1.
    unfold free_stale_handle at 1, bind, get_self, ndiGetPHRQHandle, ndiCommand,
      invoke.
    rewrite check_passes by exact Hok.
    match goal with
    | |- context [for_each indices _ d ?t] => destruct (IH t) as (new & Hrun & Hup & Hq)
    end.
    rewrite Hrun. eexists. split.
    + rewrite <- !app_assoc. reflexivity.
    + split; cbn; [exact Hup | f_equal; exact Hq].
Qed.

(** The second loop on a device that reports no error, for the tools [post]
    that are left when those before them, [done], have their handle. *)
Lemma allocate_and_load_loop ndi d0 :
  all_checks_pass ndi ->
  forall post (done : list tool_descriptor) tr,
  exists handles new,
    for_each (seq (length done) (length post)) (allocate_and_load ndi)
      (with_tool_descriptors (done ++ post) d0) tr =
    Returns tt
      (with_tool_descriptors (done ++ zip_with assign_handle post handles) d0)
      (tr ++ new) /\
    length handles = length post /\
    filter (fun c => is_upload c = true) new =
      zip_with (upload_call d0) post handles /\
    filter (fun c => is_stale_query c = true) new = [].
Proof.
  intros Hok. induction post as [| tool post IH]; intros done tr.
  - exists [], []. cbn. rewrite !app_nil_r. repeat split.
  - cbn [length seq for_each]. unfold bind at 1.
    unfold allocate_and_load at 1, bind, get_self, ndiCommand, ndiGetPHRQHandle,
      ndiPVWRFromFile, update_handle, modify, invoke.
    cbn [device with_tool_descriptors tool_descriptors].
    rewrite alter_middle.
    rewrite check_passes by exact Hok.
    unfold get_tool, bind, get_self.
    cbn [device with_tool_descriptors tool_descriptors].
    rewrite list_lookup_middle by reflexivity. cbn [ret description].
    rewrite check_passes by exact Hok.
    cbn [device with_tool_descriptors tool_descriptors].
    match goal with
    | |- context [ToolDescriptor (description tool) (Some ?h) _] =>
        set (handle := h)
    end.
    fold (assign_handle tool handle).
    rewrite with_tool_descriptors_twice.
    rewrite (cons_middle done post (assign_handle tool handle)).
    replace (S (length done))
      with (length (done ++ [assign_handle tool handle]))
      by (rewrite length_app; simpl; lia).
    match goal with
    | |- context [for_each _ _ _ ?t] =>
        destruct (IH (done ++ [assign_handle tool handle]) t)
          as (handles & new & Hrun & Hlen & Hup & Hq)
    end.
    rewrite Hrun. exists (handle :: handles). eexists. split.
    + rewrite <- !app_assoc. cbn [zip_with app]. reflexivity.
    + split; [simpl; rewrite Hlen; reflexivity |].
      split; cbn; [f_equal; exact Hup | exact Hq].
Qed.

Lemma stop_passes ndi d tr :
  all_checks_pass ndi ->
  stop_tracking ndi d tr =
  Returns tt (with_state (Some "ready") d) (tr ++ stop_calls d).
Proof.
  intros Hok. unfold stop_tracking, stop_calls, bind, get_self, ndiCommand, invoke.
  rewrite check_passes by exact Hok. rewrite app_two. reflexivity.
Qed.

Lemma _read_sroms_from_file_healthy ndi d tr :
  truthy_device (device d) = true ->
  all_checks_pass ndi ->
  exists handles new,
    _read_sroms_from_file ndi d tr =
    Returns tt
      (with_tool_descriptors
         (zip_with assign_handle (tool_descriptors d) handles)
         (with_state (Some "ready") d))
      (tr ++ new) /\
    length handles = length (tool_descriptors d) /\
    filter (fun c => is_upload c = true) new =
      zip_with (upload_call d) (tool_descriptors d) handles.
Proof.
  intros Hdev Hok. rewrite _read_sroms_from_file_unfold, Hdev. cbn [negb].
  unfold bind at 1. rewrite stop_passes by exact Hok.
  unfold bind at 1, get_self at 1. unfold bind at 1, ndiCommand at 1, invoke.
  unfold bind at 1, ndiGetPHSRNumberOfHandles, invoke.
  set (d0 := with_state (Some "ready") d).
  unfold bind at 1.
  match goal with
  | |- context [for_each ?l (free_stale_handle ndi) d0 ?t] =>
      destruct (free_stale_handles_spec ndi d0 l Hok t) as (new1 & Hfree & Hup1 & _)
  end.
  rewrite Hfree. unfold bind at 1, get_self at 1. unfold bind at 1.
  match goal with
  | |- context [for_each _ (allocate_and_load ndi) d0 ?t] =>
      destruct (allocate_and_load_loop ndi d0 Hok (tool_descriptors d0) [] t)
        as (handles & new2 & Hload & Hlen & Hup2 & _)
  end.
  cbn [length app] in Hload.
  rewrite with_tool_descriptors_same in Hload by reflexivity.
  unfold range. rewrite Hload.
  unfold bind, get_self, ndiCommand, invoke.
  exists handles. eexists. split; [| split].
  - rewrite <- !app_assoc. reflexivity.
  - exact Hlen.
  - unfold stop_calls. cbn [app].
    repeat (rewrite filter_cons_False by (cbn; discriminate)).
    rewrite !filter_app, Hup1, Hup2. cbn. rewrite app_nil_r. reflexivity.
Qed.

(** X11. [_read_sroms_from_file] raises a [ValueError] without any call when
    no device is held.  On a device whose error register always reads
    [NDI_OKAY] it returns: tracking was stopped first, so the stored state
    is "ready"; every tool, in the order of the configuration, has received
    a port handle and, as its wire form, the decimal text of that handle,
    its description unchanged; and the uploads made are exactly one for each
    tool, in order, of the tool's description to the tool's new handle. *)
Theorem read_sroms_gives_every_tool_a_handle :
  forall ndi d tr,
    (truthy_device (device d) = false ->
     _read_sroms_from_file ndi d tr =
     Raises (ValueError "read srom called with no NDI device") d tr) /\
    (truthy_device (device d) = true ->
     all_checks_pass ndi ->
     exists handles new,
       _read_sroms_from_file ndi d tr =
       Returns tt
         (with_tool_descriptors
            (zip_with assign_handle (tool_descriptors d) handles)
            (with_state (Some "ready") d))
         (tr ++ new) /\
       length handles = length (tool_descriptors d) /\
       filter (fun c => is_upload c = true) new =
         zip_with (upload_call d) (tool_descriptors d) handles).
Proof.
  intros ndi d tr. split.
  - intros Hdev. rewrite _read_sroms_from_file_unfold, Hdev. reflexivity.
  - apply _read_sroms_from_file_healthy.
Qed.

Lemma healthy_device_is_healthy : healthy healthy_device.
Proof.
  unfold healthy, all_checks_pass. cbn.
  repeat split; intros; rewrite ?last_snoc; try reflexivity; discriminate.
Qed.

Lemma read_sroms_gives_every_tool_a_handle_witness :
  exists handles new,
    _read_sroms_from_file healthy_device polaris_two_tools [] =
    Returns tt
      (with_tool_descriptors
         (zip_with assign_handle (tool_descriptors polaris_two_tools) handles)
         (with_state (Some "ready") polaris_two_tools))
      ([] ++ new) /\
    length handles = 2%nat.
Proof.
  destruct (read_sroms_gives_every_tool_a_handle healthy_device
              polaris_two_tools []) as [_ Hreturn].
  destruct (Hreturn eq_refl (proj1 healthy_device_is_healthy))
    as (handles & new & Hrun & Hlen & _).
  exists handles, new. split; [exact Hrun | exact Hlen].
Defined.

(** *** [connect] on a device on which nothing goes wrong *)

Lemma checks_pass_of_all ndi command d tr tools :
  all_checks_pass ndi ->
  Forall has_handle tools ->
  checks_pass ndi command d tr tools.
Proof.
  intros Hok Hhandles j Hj.
  destruct (lookup_lt_is_Some_2 tools j Hj) as [tool Htool].
  rewrite (take_S_r tools j tool Htool), flat_map_app. cbn [flat_map].
  rewrite app_nil_r.
  assert (Hhandle : has_handle tool).
  { rewrite Forall_forall in Hhandles. apply Hhandles.
    eapply list_elem_of_lookup_2. exact Htool. }
  unfold port_command_calls at 2. unfold has_handle in Hhandle.
  destruct (port_handle tool) as [z |]; [| congruence].
  rewrite (cons_middle _ [Call_ndiGetError (device d)]), !app_assoc.
  apply Hok.
Qed.

Lemma assigned_tools_have_handles tools handles :
  Forall has_handle (zip_with assign_handle tools handles).
Proof.
  revert handles. induction tools as [| tool tools IH]; intros [| h handles];
    cbn; constructor; [discriminate | apply IH].
Qed.

Lemma _connect_network_healthy ndi d tr :
  healthy ndi ->
  exists c new,
    _connect_network ndi d tr =
    Returns tt (with_device (DevCapsule c) d) (tr ++ new).
Proof.
  intros (Hok & _ & _ & Hopen & Hping).
  unfold _connect_network, system, ping, ndiOpenNetwork, ndiCommand, get_self,
    invoke, bind.
  rewrite Hping. cbn [Z.eqb ret].
  match goal with
  | |- context [device_of_reply (reply_device ndi ?t)] =>
      destruct (reply_device ndi t) as [c |] eqn:Hc; [| destruct (Hopen _ Hc)]
  end.
  cbn [device_of_reply modify with_device device truthy_device negb ret].
  rewrite check_passes by exact Hok.
  exists c. eexists. rewrite <- !app_assoc. reflexivity.
Qed.

Lemma _connect_serial_healthy ndi d tr :
  healthy ndi ->
  reaches_a_port d ->
  exists c new,
    _connect_serial ndi d tr =
    Returns tt (with_device (DevCapsule c) d) (tr ++ new).
Proof.
  intros (Hok & Hname & Hprobe & Hopen & _) (p & Hport & Hreach).
  assert (Htail : forall message n r tr0,
    r = NDI_OKAY ndi ->
    exists c new,
      (match result {| name := Some n; result := Some r |} with
       | None => raise (UnboundLocalError "result")
       | Some r =>
           if negb (r =? NDI_OKAY ndi) then
             raise (IOError message)
           else
             match name {| name := Some n; result := Some r |} with
             | None => raise (UnboundLocalError "name")
             | Some n =>
                 dev <- ndiOpen ndi n ;;
                 modify (with_device dev) ;;;
                 self <- get_self ;;
                 (if negb (truthy_device (device self)) then
                    raise (IOError ("Could not connect to serial NDI device at " +:+
                                    str_of_opt_str n))
                  else ret tt) ;;;
                 ndiCommand ndi (device self) "INIT:" ;;;
                 _check_for_errors ndi "Sending INIT command" ;;;
                 self <- get_self ;;
                 ndiCommand ndi (device self)
                   ("COMM:" +:+ format_d (NDI_115200 ndi) +:+
                    format_03d (NDI_8N1 ndi) +:+ format_d (NDI_NOHANDSHAKE ndi))
             end
       end) d tr0 =
      Returns tt (with_device (DevCapsule c) d) (tr0 ++ new)).
  { intros message n r tr0 ->. cbn [result name]. rewrite Z.eqb_refl. cbn [negb].
    unfold ndiOpen, ndiCommand, get_self, invoke, bind. cbn [ret].
    match goal with
    | |- context [device_of_reply (reply_device ndi ?t)] =>
        destruct (reply_device ndi t) as [c |] eqn:Hc; [| destruct (Hopen _ Hc)]
    end.
    cbn [device_of_reply modify with_device device truthy_device negb ret].
    rewrite check_passes by exact Hok.
    exists c. eexists. rewrite <- !app_assoc. reflexivity. }
  unfold _connect_serial. unfold bind at 1, get_self at 1. rewrite Hport.
  destruct (p =? -1) eqn:Hp.
  - apply Z.eqb_eq in Hp. subst p.
    destruct Hreach as [Hne | (n & Hcount & Hpos)]; [contradiction Hne; reflexivity |].
    rewrite Hcount. unfold bind at 1. unfold bind at 1, probe_range, ret at 1.
    destruct (Z.to_nat n) as [| m] eqn:Hm; [lia |].
    unfold range. cbn [seq].
    rewrite probe_ports_stops_at_responder by (auto using Hname, Hprobe).
    destruct (Htail (no_device_message (Some n))
                (reply_name ndi (tr ++ [Call_ndiDeviceName (Some (Z.of_nat 0))]))
                (NDI_OKAY ndi)
                ((tr ++ [Call_ndiDeviceName (Some (Z.of_nat 0))]) ++
                 [Call_ndiProbe
                    (reply_name ndi (tr ++ [Call_ndiDeviceName (Some (Z.of_nat 0))]))])
                eq_refl) as (c & new & Hrun).
    exists c. eexists. etransitivity; [exact Hrun |].
    rewrite <- !app_assoc. reflexivity.
  - unfold bind at 1. unfold bind at 1, ndiDeviceName at 1, invoke.
    unfold bind at 1, ndiProbe at 1, invoke. unfold ret at 1.
    destruct (Htail (no_device_message (ports_to_probe d))
                (reply_name ndi (tr ++ [Call_ndiDeviceName (Some p)]))
                (reply_int ndi
                   ((tr ++ [Call_ndiDeviceName (Some p)]) ++
                    [Call_ndiProbe (reply_name ndi (tr ++ [Call_ndiDeviceName (Some p)]))]))
                ((tr ++ [Call_ndiDeviceName (Some p)]) ++
                 [Call_ndiProbe (reply_name ndi (tr ++ [Call_ndiDeviceName (Some p)]))])
                (Hprobe _ _)) as (c & new & Hrun).
    exists c. eexists. etransitivity; [exact Hrun |].
    rewrite <- !app_assoc. reflexivity.
Qed.

Lemma port_phases_healthy ndi d tr :
  all_checks_pass ndi ->
  truthy_device (device d) = true ->
  Forall has_handle (tool_descriptors d) ->
  exists new,
    (_initialise_ports ndi ;;; _enable_tools ndi) d tr = Returns tt d (tr ++ new).
Proof.
  intros Hok Hdev Hhandles. unfold bind.
  rewrite _initialise_ports_as_steps by exact Hdev.
  rewrite port_steps_return
    by (try assumption; apply checks_pass_of_all; assumption).
  rewrite _enable_tools_as_steps by exact Hdev.
  rewrite port_steps_return
    by (try assumption; apply checks_pass_of_all; assumption).
  eexists. rewrite <- !app_assoc. reflexivity.
Qed.

Lemma after_sroms_healthy ndi d tr :
  all_checks_pass ndi ->
  truthy_device (device d) = true ->
  exists handles new,
    (_read_sroms_from_file ndi ;;; _initialise_ports ndi ;;; _enable_tools ndi)
      d tr =
    Returns tt
      (with_tool_descriptors
         (zip_with assign_handle (tool_descriptors d) handles)
         (with_state (Some "ready") d))
      (tr ++ new) /\
    length handles = length (tool_descriptors d).
Proof.
  intros Hok Hdev.
  destruct (_read_sroms_from_file_healthy ndi d tr Hdev Hok)
    as (handles & new1 & Hsroms & Hlen & _).
  erewrite bind_returns by exact Hsroms.
  match goal with
  | |- context [bind _ _ ?d2 (tr ++ new1)] =>
      destruct (port_phases_healthy ndi d2 (tr ++ new1) Hok Hdev
                  (assigned_tools_have_handles _ _)) as (new2 & Hphases)
  end.
  exists handles. eexists. split; [| exact Hlen].
  etransitivity; [exact Hphases |]. rewrite <- app_assoc. reflexivity.
Qed.

Lemma _connect_vega_healthy ndi d tr :
  healthy ndi ->
  exists c handles new,
    _connect_vega ndi d tr =
    Returns tt
      (with_tool_descriptors
         (zip_with assign_handle (tool_descriptors d) handles)
         (with_state (Some "ready") (with_device (DevCapsule c) d)))
      (tr ++ new) /\
    length handles = length (tool_descriptors d).
Proof.
  intros Hhealthy.
  destruct (_connect_network_healthy ndi d tr Hhealthy) as (c & new1 & Hnet).
  destruct (after_sroms_healthy ndi (with_device (DevCapsule c) d) (tr ++ new1)
              (proj1 Hhealthy) eq_refl) as (handles & new2 & Hrest & Hlen).
  exists c, handles. eexists. split; [| exact Hlen].
  unfold _connect_vega. erewrite bind_returns by exact Hnet.
  etransitivity; [exact Hrest |]. rewrite <- app_assoc. reflexivity.
Qed.

Lemma _connect_polaris_healthy ndi d tr :
  healthy ndi ->
  reaches_a_port d ->
  exists c handles new,
    _connect_polaris ndi d tr =
    Returns tt
      (with_tool_descriptors
         (zip_with assign_handle (tool_descriptors d) handles)
         (with_state (Some "ready") (with_device (DevCapsule c) d)))
      (tr ++ new) /\
    length handles = length (tool_descriptors d).
Proof.
  intros Hhealthy Hreach.
  destruct (_connect_serial_healthy ndi d tr Hhealthy Hreach) as (c & new1 & Hser).
  destruct (after_sroms_healthy ndi (with_device (DevCapsule c) d) (tr ++ new1)
              (proj1 Hhealthy) eq_refl) as (handles & new2 & Hrest & Hlen).
  exists c, handles. eexists. split; [| exact Hlen].
  unfold _connect_polaris. erewrite bind_returns by exact Hser.
  etransitivity; [exact Hrest |]. rewrite <- app_assoc. reflexivity.
Qed.

Lemma _connect_aurora_healthy ndi d tr :
  healthy ndi ->
  reaches_a_port d ->
  Forall has_handle (tool_descriptors d) ->
  exists c new,
    _connect_aurora ndi d tr =
    Returns tt (with_device (DevCapsule c) d) (tr ++ new).
Proof.
  intros Hhealthy Hreach Hhandles.
  destruct (_connect_serial_healthy ndi d tr Hhealthy Hreach) as (c & new1 & Hser).
  destruct (port_phases_healthy ndi (with_device (DevCapsule c) d) (tr ++ new1)
              (proj1 Hhealthy) eq_refl Hhandles) as (new2 & Hrest).
  exists c. eexists.
  unfold _connect_aurora. erewrite bind_returns by exact Hser.
  etransitivity; [exact Hrest |]. rewrite <- app_assoc. reflexivity.
Qed.

(** The loop over the lines of the version reply keeps the revision of the
    last "Freeze Tag" line. *)
Lemma firmware_scan_last lines :
  forall v0 d tr,
    for_each lines (fun line =>
      when (startswith "Freeze Tag:" line)
        match split colon line with
        | _ :: version :: _ => modify (with_firmware_version (Some version))
        | _ => raise (IndexError "list index out of range")
        end) (with_firmware_version (Some v0) d) tr
    = Returns tt
        (with_firmware_version
           (Some match last (filter (fun line => startswith "Freeze Tag:" line = true)
                               lines) with
                 | Some line => version_of_line line
                 | None => v0
                 end) d) tr.
Proof.
  induction lines as [| line lines IH]; intros v0 d tr; [reflexivity |].
  cbn [for_each]. rewrite filter_cons.
  destruct (startswith "Freeze Tag:" line) eqn:Hline.
  - destruct (freeze_tag_line_has_version line Hline) as (a & v1 & rest & E).
    unfold bind, when. rewrite E.
    etransitivity; [exact (IH v1 d tr) |].
    destruct (decide (true = true)); [| congruence].
    rewrite last_cons. destruct (last _); [reflexivity |].
    unfold version_of_line. rewrite E. reflexivity.
  - unfold bind, when at 1.
    etransitivity; [exact (IH v0 d tr) |].
    destruct (decide (false = true)); [discriminate | reflexivity].
Qed.

Lemma _get_firmware_version_full ndi d tr :
  _get_firmware_version ndi d tr =
  if type_is d "dummy" then
    Returns tt (with_firmware_version (Some unknown_version) d) tr
  else
    Returns tt
      (with_firmware_version
         (Some (reported_version
                  (reply_str ndi (tr ++ [Call_ndiVER (device d) 0])))) d)
      (tr ++ [Call_ndiVER (device d) 0]).
Proof.
  unfold _get_firmware_version, bind, modify, get_self.
  change (type_is (with_firmware_version (Some "unknown 00.0") d) "dummy")
    with (type_is d "dummy").
  destruct (type_is d "dummy"); cbn [negb when]; [reflexivity |].
  unfold ndiVER, invoke. cbn [device with_firmware_version].
  apply firmware_scan_last.
Qed.

(** The end of [connect]: the firmware is probed and the protocol chosen. *)
Lemma connect_finish_spec ndi d tr :
  exists v new,
    (_get_firmware_version ndi ;;; _set_use_bx_transforms) d tr =
    Returns tt
      (with_use_bx_transforms (Some (negb (String.eqb v legacy_revision)))
         (with_firmware_version (Some v) d))
      (tr ++ new).
Proof.
  unfold bind. rewrite _get_firmware_version_full.
  destruct (type_is d "dummy"); rewrite _set_use_bx_transforms_spec.
  - exists unknown_version, []. rewrite app_nil_r. reflexivity.
  - eexists. eexists. reflexivity.
Qed.

(** X12. [_get_firmware_version] never raises.  For the dummy it asks the
    device nothing and records "unknown 00.0".  Otherwise it makes one
    [ndiVER] call and records the revision of the last line of the reply
    that starts with "Freeze Tag:", which is the text between the first
    colon of that line and the next one; with no such line it records
    "unknown 00.0". *)
Theorem firmware_version_is_last_freeze_tag :
  forall ndi d tr,
    (type_is d "dummy" = true ->
     _get_firmware_version ndi d tr =
     Returns tt (with_firmware_version (Some unknown_version) d) tr) /\
    (type_is d "dummy" = false ->
     let tr1 := tr ++ [Call_ndiVER (device d) 0] in
     _get_firmware_version ndi d tr =
     Returns tt
       (with_firmware_version (Some (reported_version (reply_str ndi tr1))) d)
       tr1).
Proof.
  intros ndi d tr. rewrite _get_firmware_version_full.
  split; intros ->; reflexivity.
Qed.

Lemma firmware_version_is_last_freeze_tag_witness :
  _get_firmware_version two_tags_device
    (with_tracker_type (Some "dummy") tracking_polaris) [] =
  Returns tt
    (with_firmware_version (Some "unknown 00.0")
       (with_tracker_type (Some "dummy") tracking_polaris)) [] /\
  _get_firmware_version two_tags_device tracking_polaris [] =
  Returns tt (with_firmware_version (Some " AURORA Rev 007") tracking_polaris)
    [Call_ndiVER (DevCapsule 1) 0].
Proof.
  split.
  - apply (firmware_version_is_last_freeze_tag two_tags_device
             (with_tracker_type (Some "dummy") tracking_polaris) []).
    reflexivity.
  - apply (firmware_version_is_last_freeze_tag two_tags_device
             tracking_polaris []).
    reflexivity.
Defined.

Lemma type_is_of d t s :
  tracker_type d = Some t -> type_is d s = String.eqb t s.
Proof. unfold type_is. intros ->. reflexivity. Qed.

Lemma accepted_tracker cfg :
  rejected cfg = false ->
  exists t,
    cfg_tracker_type cfg = Some t /\
    (t = "vega" \/ t = "polaris" \/ t = "aurora" \/ t = "dummy").
Proof.
  unfold rejected, missing_required_field.
  destruct (cfg_tracker_type cfg) as [t |]; [| discriminate].
  destruct (existsb (String.eqb t) supported_trackers) eqn:Hsupported;
    [| discriminate].
  intros _. exists t. split; [reflexivity |].
  apply supported_tracker_cases. exact Hsupported.
Qed.

(** X13. On a device on which nothing goes wrong, [connect] returns for
    every configuration that [_configure] accepts, provided the serial
    settings name a port or let at least one candidate be scanned and, for
    aurora, the tools already in the object have a handle.  Afterwards a
    device is held, the descriptions are those that were there followed by
    the new ones, the firmware revision is recorded and the frame protocol
    is the text one exactly for the legacy revision; unless the tracker is
    the dummy every tool has a port handle, and for vega and polaris the
    stored state is "ready". *)
Theorem connect_returns_on_healthy_device :
  forall ndi cfg d tr,
    healthy ndi ->
    rejected cfg = false ->
    findable cfg ->
    (cfg_tracker_type cfg = Some "aurora" ->
     Forall has_handle (tool_descriptors d)) ->
    exists d' new v,
      connect ndi cfg d tr = Returns tt d' (tr ++ new) /\
      truthy_device (device d') = true /\
      tracker_type d' = cfg_tracker_type cfg /\
      map description (tool_descriptors d') =
        map description (tool_descriptors d ++ new_tools cfg) /\
      _device_firmware_version d' = Some v /\
      _use_bx_transforms d' = Some (negb (String.eqb v legacy_revision)) /\
      (type_is d' "dummy" = false -> Forall has_handle (tool_descriptors d')) /\
      (type_is d' "vega" || type_is d' "polaris" = true ->
       _state d' = Some "ready").
Proof.
  intros ndi cfg d tr Hhealthy Haccept Hfind Haurora.
  destruct (accepted_tracker cfg Haccept) as (t & Ht & Hcases).
  pose proof (_configure_spec cfg d tr) as Hspec.
  destruct (_configure cfg d tr) as [[] d1 tr1 | e d1 tr1] eqn:Hconfigure;
    [| destruct Hspec as [Hrej _]; congruence].
  destruct Hspec as (_ & -> & Htype & Htools & Hdev & Hstate & _ & _
                     & _ & Hserial & _).
  rewrite Ht in Htype.
  unfold connect. erewrite bind_returns by exact Hconfigure.
  unfold bind at 1, get_self at 1.
  assert (Hreach : t = "polaris" \/ t = "aurora" -> reaches_a_port d1).
  { intros Hser.
    destruct Hserial as (Hport & Hprobe & _).
    { rewrite !(type_is_of d1 t) by exact Htype.
      destruct Hser as [-> | ->]; reflexivity. }
    exists (default (-1) (cfg_serial_port cfg)). split; [exact Hport |].
    destruct Hfind as [Hp | Hn]; [left; exact Hp |].
    right. eexists. split; [exact Hprobe | exact Hn]. }
  assert (Hmap : forall handles,
    length handles = length (tool_descriptors d1) ->
    map description (zip_with assign_handle (tool_descriptors d1) handles) =
    map description (tool_descriptors d1)).
  { intros handles. generalize (tool_descriptors d1). intros l. revert handles.
    induction l as [| x l IH]; intros [| h handles] Hlen;
      try discriminate Hlen; [reflexivity |].
    cbn. f_equal. apply IH. injection Hlen as Hlen. exact Hlen. }
  destruct Hcases as [-> | [-> | [-> | ->]]];
    rewrite !(type_is_of d1 _ _ Htype); cbn [String.eqb Ascii.eqb Bool.eqb when].
  - (* vega *)
    destruct (_connect_vega_healthy ndi d1 tr Hhealthy)
      as (c & handles & new1 & Hrun & Hlen).
    unfold bind at 1. rewrite Hrun.
    set (d2 := with_tool_descriptors _ _).
    assert (Htype2 : tracker_type d2 = Some "vega") by exact Htype.
    unfold bind at 1, get_self at 1.
    rewrite !(type_is_of d2 _ _ Htype2); cbn [String.eqb Ascii.eqb Bool.eqb when].
    unfold bind at 1, ret at 1. unfold bind at 1, get_self at 1.
    rewrite !(type_is_of d2 _ _ Htype2); cbn [String.eqb Ascii.eqb Bool.eqb when].
    unfold bind at 1, ret at 1. unfold bind at 1, get_self at 1.
    rewrite !(type_is_of d2 _ _ Htype2); cbn [String.eqb Ascii.eqb Bool.eqb when].
    unfold bind at 1, ret at 1.
    destruct (connect_finish_spec ndi d2 (tr ++ new1)) as (v & new2 & Hfinish).
    eexists. eexists. exists v. split.
    { etransitivity; [exact Hfinish |]. rewrite <- app_assoc. reflexivity. }
    split; [reflexivity |]. split; [rewrite Ht; exact Htype |].
    split; [cbn; rewrite Hmap, Htools by exact Hlen; reflexivity |].
    split; [reflexivity |]. split; [reflexivity |].
    split; [intros _; apply assigned_tools_have_handles | reflexivity].
  - (* polaris *)
    unfold bind at 1, ret at 1. unfold bind at 1, get_self at 1.
    rewrite !(type_is_of d1 _ _ Htype); cbn [String.eqb Ascii.eqb Bool.eqb when].
    unfold bind at 1, ret at 1. unfold bind at 1, get_self at 1.
    rewrite !(type_is_of d1 _ _ Htype); cbn [String.eqb Ascii.eqb Bool.eqb when].
    destruct (_connect_polaris_healthy ndi d1 tr Hhealthy (Hreach (or_introl eq_refl)))
      as (c & handles & new1 & Hrun & Hlen).
    unfold bind at 1. rewrite Hrun.
    set (d2 := with_tool_descriptors _ _).
    assert (Htype2 : tracker_type d2 = Some "polaris") by exact Htype.
    unfold bind at 1, get_self at 1.
    rewrite !(type_is_of d2 _ _ Htype2); cbn [String.eqb Ascii.eqb Bool.eqb when].
    unfold bind at 1, ret at 1.
    destruct (connect_finish_spec ndi d2 (tr ++ new1)) as (v & new2 & Hfinish).
    eexists. eexists. exists v. split.
    { etransitivity; [exact Hfinish |]. rewrite <- app_assoc. reflexivity. }
    split; [reflexivity |]. split; [rewrite Ht; exact Htype |].
    split; [cbn; rewrite Hmap, Htools by exact Hlen; reflexivity |].
    split; [reflexivity |]. split; [reflexivity |].
    split; [intros _; apply assigned_tools_have_handles | reflexivity].
  - (* aurora *)
    unfold bind at 1, ret at 1. unfold bind at 1, get_self at 1.
    rewrite !(type_is_of d1 _ _ Htype); cbn [String.eqb Ascii.eqb Bool.eqb when].
    assert (Hhandles : Forall has_handle (tool_descriptors d1)).
    { rewrite Htools. apply Forall_app. split; [apply Haurora; exact Ht |].
      unfold new_tools. rewrite Ht.
      generalize (default [] (cfg_ports_to_use cfg)). intros ports.
      induction ports; constructor; [discriminate | assumption]. }
    destruct (_connect_aurora_healthy ndi d1 tr Hhealthy
                (Hreach (or_intror eq_refl)) Hhandles) as (c & new1 & Hrun).
    unfold bind at 1. rewrite Hrun.
    set (d2 := with_device _ _).
    assert (Htype2 : tracker_type d2 = Some "aurora") by exact Htype.
    unfold bind at 1, get_self at 1.
    rewrite !(type_is_of d2 _ _ Htype2); cbn [String.eqb Ascii.eqb Bool.eqb when].
    unfold bind at 1, ret at 1. unfold bind at 1, get_self at 1.
    rewrite !(type_is_of d2 _ _ Htype2); cbn [String.eqb Ascii.eqb Bool.eqb when].
    unfold bind at 1, ret at 1.
    destruct (connect_finish_spec ndi d2 (tr ++ new1)) as (v & new2 & Hfinish).
    eexists. eexists. exists v. split.
    { etransitivity; [exact Hfinish |]. rewrite <- app_assoc. reflexivity. }
    split; [reflexivity |]. split; [rewrite Ht; exact Htype |].
    split; [cbn; rewrite Htools; reflexivity |].
    split; [reflexivity |]. split; [reflexivity |].
    split; [intros _; exact Hhandles |].
    unfold type_is. cbn. rewrite Htype. discriminate.
  - (* dummy *)
    unfold bind at 1, ret at 1. unfold bind at 1, get_self at 1.
    rewrite !(type_is_of d1 _ _ Htype); cbn [String.eqb Ascii.eqb Bool.eqb when].
    unfold bind at 1, ret at 1. unfold bind at 1, get_self at 1.
    rewrite !(type_is_of d1 _ _ Htype); cbn [String.eqb Ascii.eqb Bool.eqb when].
    unfold bind at 1, ret at 1. unfold bind at 1, get_self at 1.
    rewrite !(type_is_of d1 _ _ Htype); cbn [String.eqb Ascii.eqb Bool.eqb when].
    unfold bind at 1, modify at 1.
    destruct (connect_finish_spec ndi (with_device DevTrue d1) tr)
      as (v & new2 & Hfinish).
    eexists. eexists. exists v. split; [exact Hfinish |].
    split; [reflexivity |]. split; [rewrite Ht; exact Htype |].
    split; [cbn; rewrite Htools; reflexivity |].
    split; [reflexivity |]. split; [reflexivity |].
    split.
    + unfold type_is. cbn. rewrite Htype. discriminate.
    + unfold type_is. cbn. rewrite Htype. discriminate.
Qed.

Lemma connect_returns_on_healthy_device_witness :
  exists d' new v,
    connect healthy_device (polaris_configuration ["a.rom"; "b.rom"]) __init__ []
      = Returns tt d' ([] ++ new) /\
    truthy_device (device d') = true /\
    map description (tool_descriptors d') = [PyStr "a.rom"; PyStr "b.rom"] /\
    _device_firmware_version d' = Some v /\
    Forall has_handle (tool_descriptors d') /\
    _state d' = Some "ready".
Proof.
  destruct (connect_returns_on_healthy_device healthy_device
              (polaris_configuration ["a.rom"; "b.rom"]) __init__ []
              healthy_device_is_healthy eq_refl)
    as (d' & new & v & Hrun & Hdev & Htype & Hmap & Hv & _ & Hhandles & Hstate).
  - right. reflexivity.
  - discriminate.
  - exists d', new, v.
    assert (Hpolaris : type_is d' "polaris" = true).
    { unfold type_is. rewrite Htype. reflexivity. }
    assert (Hvega : type_is d' "vega" = false).
    { unfold type_is. rewrite Htype. reflexivity. }
    assert (Hdummy : type_is d' "dummy" = false).
    { unfold type_is. rewrite Htype. reflexivity. }
    split; [exact Hrun |]. split; [exact Hdev |]. split; [exact Hmap |].
    split; [exact Hv |]. split; [exact (Hhandles Hdummy) |].
    apply Hstate. rewrite Hvega, Hpolaris. reflexivity.
Defined.

(** *** More on frames and descriptions *)

Lemma get_frame_trace ndi d tr f d' tr' :
  type_is d "dummy" = false ->
  get_frame ndi d tr = Returns f d' tr' ->
  tr' = history_before d tr (length (tool_descriptors d)).
Proof.
  intros Htype.
  assert (Hwith : forall fr tf command,
    get_frame_with ndi command
      (fun dev h => invoke ndi (fr dev h) reply_int)
      (fun dev h => invoke ndi (tf dev h) reply_transform) d tr
      = Returns f d' tr' ->
    tr' = tr ++ [Call_time; Call_ndiCommand (device d) command]
             ++ flat_map (fun tool => [fr (device d) (c_str_port_handle tool);
                                       tf (device d) (c_str_port_handle tool)])
                         (tool_descriptors d)).
  { intros fr tf command.
    unfold get_frame_with, bind, get_self, time, ndiCommand, invoke, full.
    rewrite Htype. cbn [negb]. rewrite app_two. intros Hloop.
    apply (read_loop_spec ndi fr tf d _ (tool_descriptors d) [] []) in Hloop
      as (_ & -> & _); try reflexivity.
    rewrite <- app_assoc. reflexivity. }
  unfold get_frame, bind, get_self, history_before, tool_calls, frame_call,
    transform_call, frame_command.
  rewrite firstn_all.
  destruct (_use_bx_transforms d) as [[|] |]; cbv beta iota; apply Hwith.
Qed.

(** X14. A [get_frame] that returns has left the object as it was and has
    made, after reading the host clock, one frame request and then for each
    tool, in the order of the configuration, the read of the frame number
    and the read of the transform, both under the tool's wire handle: the
    BX request and reads when [_use_bx_transforms] is true, the GX ones
    otherwise, never a mix.  For the dummy the clock is the only call. *)
Theorem get_frame_reads_tools_in_order :
  forall ndi d tr f d' tr',
    get_frame ndi d tr = Returns f d' tr' ->
    d' = d /\
    tr' =
      if type_is d "dummy" then tr ++ [Call_time]
      else tr ++ [Call_time; Call_ndiCommand (device d) (frame_command d)]
              ++ flat_map (tool_calls d) (tool_descriptors d).
Proof.
  intros ndi d tr f d' tr' Hrun.
  destruct (type_is d "dummy") eqn:Htype.
  - rewrite get_frame_dummy in Hrun by exact Htype.
    injection Hrun as _ <- <-. split; reflexivity.
  - split.
    + apply get_frame_rows in Hrun as (Hd & _); assumption.
    + apply get_frame_trace in Hrun; [| exact Htype].
      rewrite Hrun. unfold history_before. rewrite firstn_all. reflexivity.
Qed.

Lemma get_frame_reads_tools_in_order_witness :
  exists f,
    get_frame healthy_device polaris_two_tools [] =
    Returns f polaris_two_tools
      [Call_time; Call_ndiCommand (DevCapsule 1) "GX:0801";
       Call_ndiGetGXFrame (DevCapsule 1) (Some "10");
       Call_ndiGetGXTransform (DevCapsule 1) (Some "10");
       Call_ndiGetGXFrame (DevCapsule 1) (Some "11");
       Call_ndiGetGXTransform (DevCapsule 1) (Some "11")].
Proof.
  pose (o := get_frame healthy_device polaris_two_tools []).
  assert (Hrun : get_frame healthy_device polaris_two_tools [] = o)
    by reflexivity.
  vm_compute in (value of o). subst o.
  destruct (get_frame_reads_tools_in_order healthy_device polaris_two_tools []
              _ _ _ Hrun) as [_ Htrace].
  eexists. exact Hrun.
Defined.

Section FrameOutcomes.

Variable ndi : collaborators.
Variables frame_read transform_read : pydevice -> option string -> call.

Let get_frame_number (dev : pydevice) (h : option string) : M Z :=
  invoke ndi (frame_read dev h) reply_int.
Let get_transform (dev : pydevice) (h : option string) : M transform :=
  invoke ndi (transform_read dev h) reply_transform.



End FrameOutcomes.



(** X16. [get_tool_descriptions] always returns, calls no collaborator and
    leaves the object alone.  Its table has one row for each tool, in the
    order of the configuration, and the row of index [i] is made of [i] and
    of the description of the tool of index [i]; the table of an object
    without tools is empty. *)
Theorem tool_descriptions_list_every_tool :
  forall d tr,
  exists table,
    get_tool_descriptions d tr = Returns table d tr /\
    length table = length (tool_descriptors d) /\
    (forall i tool,
       tool_descriptors d !! i = Some tool ->
       table !! i = Some [PyInt (Z.of_nat i); description tool]) /\
    (tool_descriptors d = [] -> table = []).
Proof.
  intros d tr. exists (description_table (tool_descriptors d)).
  split; [apply get_tool_descriptions_spec |].
  unfold description_table. split; [apply length_imap |]. split.
  - intros i tool Hi. rewrite list_lookup_imap, Hi. reflexivity.
  - intros ->. reflexivity.
Qed.

Lemma tool_descriptions_list_every_tool_witness :
  get_tool_descriptions polaris_two_tools [Call_time] =
  Returns [[PyInt 0; PyStr "a.rom"]; [PyInt 1; PyStr "b.rom"]]
    polaris_two_tools [Call_time].
Proof.
  destruct (tool_descriptions_list_every_tool polaris_two_tools [Call_time])
    as (table & Hrun & Hlen & Hrows & _).
  pose proof (Hrows 0%nat _ eq_refl) as H0.
  pose proof (Hrows 1%nat _ eq_refl) as H1.
  destruct table as [| r0 [| r1 [| r2 table]]]; try discriminate Hlen.
  injection H0 as ->. injection H1 as ->. exact Hrun.
Defined.

(** *** What holds of the object throughout a session *)

Lemma keeps_well_formed_refl d : keeps_well_formed d d.
Proof. intros H. exact H. Qed.

Lemma keeps_well_formed_trans d1 d2 d3 :
  keeps_well_formed d1 d2 -> keeps_well_formed d2 d3 -> keeps_well_formed d1 d3.
Proof. unfold keeps_well_formed. auto. Qed.

Lemma well_formed_same d d' :
  tool_descriptors d' = tool_descriptors d ->
  _state d' = _state d ->
  tracker_type d' = tracker_type d ->
  _use_bx_transforms d' = _use_bx_transforms d ->
  _device_firmware_version d' = _device_firmware_version d ->
  keeps_well_formed d d'.
Proof.
  intros Htools Hstate Htype Hbx Hfw (H1 & H2 & H3 & H4).
  unfold well_formed. rewrite Htools, Hstate, Htype, Hbx, Hfw. auto.
Qed.

Lemma well_formed_state d s :
  s = "ready" \/ s = "tracking" ->
  keeps_well_formed d (with_state (Some s) d).
Proof.
  intros Hs (H1 & _ & H3 & H4). repeat split; try assumption.
  cbn. destruct Hs as [-> | ->]; auto.
Qed.

Lemma well_formed_type d t :
  existsb (String.eqb t) supported_trackers = true ->
  keeps_well_formed d (with_tracker_type (Some t) d).
Proof.
  intros Ht (H1 & H2 & _ & H4). repeat split; try assumption.
  cbn. intros t' [= <-].
  apply existsb_exists in Ht as (x & Hin & Hx).
  apply String.eqb_eq in Hx. subst x. exact Hin.
Qed.

Lemma well_formed_append d tool :
  wire_handle_matches tool ->
  keeps_well_formed d
    (with_tool_descriptors (tool_descriptors d ++ [tool]) d).
Proof.
  intros Htool (H1 & H2 & H3 & H4). repeat split; try assumption.
  cbn. apply Forall_app. split; [exact H1 | repeat constructor; exact Htool].
Qed.

Lemma well_formed_update d i h :
  keeps_well_formed d
    (with_tool_descriptors
       (alter (fun tool =>
                 ToolDescriptor (description tool) (Some h) (Some (format_d h)))
              i (tool_descriptors d)) d).
Proof.
  intros (H1 & H2 & H3 & H4). repeat split; try assumption.
  cbn. apply Forall_alter; [exact H1 |]. intros tool _ _. reflexivity.
Qed.

Lemma connect_finish_keeps ndi :
  preserves keeps_well_formed
    (_get_firmware_version ndi ;;; _set_use_bx_transforms).
Proof.
  intros d tr. destruct (connect_finish_spec ndi d tr) as (v & new & Hrun).
  rewrite Hrun. intros (H1 & H2 & H3 & _). repeat split; try assumption.
  cbn. intros b [= <-]. exists v. split; reflexivity.
Qed.

(** The steps of a method, down to the updates of the object. *)
Ltac well_formed_step :=
  first
    [ apply connect_finish_keeps
    | apply (preserves_bind keeps_well_formed keeps_well_formed_trans);
      [| intros ?]
    | apply (preserves_when keeps_well_formed keeps_well_formed_refl)
    | apply (preserves_for_each keeps_well_formed keeps_well_formed_refl
               keeps_well_formed_trans); intros ?
    | apply (preserves_for_fold keeps_well_formed keeps_well_formed_refl
               keeps_well_formed_trans); intros ? ?
    | apply (preserves_ret keeps_well_formed keeps_well_formed_refl)
    | apply (preserves_raise keeps_well_formed keeps_well_formed_refl)
    | apply (preserves_get_self keeps_well_formed keeps_well_formed_refl)
    | apply (preserves_lift keeps_well_formed keeps_well_formed_refl)
    | apply (preserves_invoke keeps_well_formed keeps_well_formed_refl)
    | apply preserves_modify; intros ?;
      first [ apply well_formed_same; reflexivity
            | apply well_formed_state; auto
            | apply well_formed_type; assumption
            | apply well_formed_append; reflexivity
            | apply well_formed_update ]
    | match goal with
      | |- preserves _ (if ?c then _ else _) => destruct c eqn:?
      | |- preserves _ (match ?x with _ => _ end) => destruct x
      end ].

Lemma _check_for_errors_keeps ndi message :
  preserves keeps_well_formed (_check_for_errors ndi message).
Proof.
  unfold _check_for_errors, ndiGetError, ndiClose, ndiErrorString.
  repeat well_formed_step.
Qed.

Lemma stop_tracking_keeps ndi : preserves keeps_well_formed (stop_tracking ndi).
Proof.
  unfold stop_tracking, ndiCommand.
  repeat first [apply _check_for_errors_keeps | well_formed_step].
Qed.

Lemma start_tracking_keeps ndi : preserves keeps_well_formed (start_tracking ndi).
Proof.
  unfold start_tracking, ndiCommand.
  repeat first [apply _check_for_errors_keeps | well_formed_step].
Qed.

Lemma close_keeps ndi : preserves keeps_well_formed (close ndi).
Proof.
  unfold close, ndiCloseNetwork, ndiClose.
  repeat first [apply stop_tracking_keeps | well_formed_step].
Qed.

Lemma _configure_keeps cfg : preserves keeps_well_formed (_configure cfg).
Proof.
  unfold _configure, _config_vega, _config_polaris, _config_aurora,
    _config_dummy, set_serial_options, append_romfiles, append_tool.
  repeat well_formed_step.
Qed.

Lemma probe_ports_keeps ndi candidates :
  forall locals, preserves keeps_well_formed (probe_ports ndi candidates locals).
Proof.
  induction candidates as [| c rest IH]; intros locals; cbn [probe_ports].
  - well_formed_step.
  - unfold ndiDeviceName, ndiProbe.
    repeat first [apply IH | well_formed_step].
Qed.

Lemma _connect_serial_keeps ndi : preserves keeps_well_formed (_connect_serial ndi).
Proof.
  unfold _connect_serial, probe_range, ndiDeviceName, ndiProbe, ndiOpen,
    ndiCommand.
  repeat first [ apply probe_ports_keeps
               | apply _check_for_errors_keeps
               | well_formed_step ].
Qed.

Lemma _connect_network_keeps ndi :
  preserves keeps_well_formed (_connect_network ndi).
Proof.
  unfold _connect_network, system, ping, ndiOpenNetwork, ndiCommand.
  repeat first [apply _check_for_errors_keeps | well_formed_step].
Qed.

Lemma _read_sroms_from_file_keeps ndi :
  preserves keeps_well_formed (_read_sroms_from_file ndi).
Proof.
  unfold _read_sroms_from_file, ndiCommand, ndiGetPHSRNumberOfHandles,
    ndiGetPHRQHandle, ndiPVWRFromFile, update_handle, get_tool.
  repeat first [ apply stop_tracking_keeps
               | apply _check_for_errors_keeps
               | well_formed_step ].
Qed.

Lemma _initialise_ports_keeps ndi :
  preserves keeps_well_formed (_initialise_ports ndi).
Proof.
  unfold _initialise_ports, ndiCommand, format_handle_02x.
  repeat first [apply _check_for_errors_keeps | well_formed_step].
Qed.

Lemma _enable_tools_keeps ndi : preserves keeps_well_formed (_enable_tools ndi).
Proof.
  unfold _enable_tools, ndiCommand, format_handle_02x.
  repeat first [apply _check_for_errors_keeps | well_formed_step].
Qed.

Lemma connect_keeps ndi cfg : preserves keeps_well_formed (connect ndi cfg).
Proof.
  unfold connect, _connect_vega, _connect_polaris, _connect_aurora.
  repeat first [ apply _configure_keeps
               | apply _connect_serial_keeps
               | apply _connect_network_keeps
               | apply _read_sroms_from_file_keeps
               | apply _initialise_ports_keeps
               | apply _enable_tools_keeps
               | well_formed_step ].
Qed.

Lemma get_frame_keeps ndi : preserves keeps_well_formed (get_frame ndi).
Proof.
  unfold get_frame, _get_frame_bx, _get_frame_gx, get_frame_with, read_tool,
    get_tool, time, ndiCommand, ndiGetBXFrame, ndiGetBXTransform,
    ndiGetGXFrame, ndiGetGXTransform.
  repeat well_formed_step.
Qed.

Lemma get_tool_descriptions_keeps :
  preserves keeps_well_formed get_tool_descriptions.
Proof.
  unfold get_tool_descriptions, describe_tool, get_tool.
  repeat well_formed_step.
Qed.

Lemma run_method_keeps ndi m d tr :
  well_formed d -> well_formed (fst (run_method ndi m (d, tr))).
Proof.
  destruct m; cbn [run_method fst].
  - apply connect_keeps.
  - apply close_keeps.
  - apply start_tracking_keeps.
  - apply stop_tracking_keeps.
  - apply get_frame_keeps.
  - apply get_tool_descriptions_keeps.
Qed.

(** X17. Whatever methods a client calls on a new object, in whatever order
    and whatever the collaborators answer, exceptions included, the object
    stays well formed: the wire form of every tool's handle is the decimal
    text of its port handle (and absent when the handle is), the stored
    state is unset, "ready" or "tracking", the tracker type is unset or one
    of the four supported ones, and once the frame protocol is chosen a
    firmware revision is recorded and the text protocol is the choice
    exactly for the legacy revision. *)
Theorem session_keeps_object_well_formed :
  forall ndi calls, well_formed (fst (session ndi calls)).
Proof.
  intros ndi calls. unfold session.
  assert (Hinit : well_formed (fst (__init__, @nil call))).
  { repeat split; cbn; auto; try discriminate. }
  revert Hinit. generalize (__init__, @nil call).
  induction calls as [| m calls IH]; intros s Hs; [exact Hs |].
  cbn [fold_left]. apply IH. destruct s as [d tr].
  apply run_method_keeps. exact Hs.
Qed.

(** *** A tool without a handle in an aurora connection *)

Lemma first_without_handle (l : list tool_descriptor) :
  ~ Forall has_handle l ->
  exists pre tool post,
    l = pre ++ tool :: post /\ Forall has_handle pre /\ port_handle tool = None.
Proof.
  induction l as [| x l IH]; intros Hnot.
  - destruct Hnot. constructor.
  - destruct (port_handle x) as [z |] eqn:Hx.
    + destruct IH as (pre & tool & post & -> & Hpre & Htool).
      * intros Hall. apply Hnot. constructor; [| exact Hall].
        unfold has_handle. rewrite Hx. discriminate.
      * exists (x :: pre), tool, post. split; [reflexivity |].
        split; [| exact Htool]. constructor; [| exact Hpre].
        unfold has_handle. rewrite Hx. discriminate.
    + exists [], x, l. repeat split; [constructor | exact Hx].
Qed.

(** X18. An aurora connection writes no handle into the tools it finds in
    the object.  So when the object already holds a tool without a handle
    (one a dummy or a failed configuration left there), [connect] with an
    aurora configuration raises a [TypeError] in the initialise phase, even
    on a device on which nothing goes wrong; the serial device opened a
    moment before stays held by the object, and neither the firmware
    revision nor the frame protocol is set. *)
Theorem aurora_connect_raises_on_tool_without_handle :
  forall ndi cfg d tr,
    healthy ndi ->
    cfg_tracker_type cfg = Some "aurora" ->
    rejected cfg = false ->
    findable cfg ->
    ~ Forall has_handle (tool_descriptors d) ->
    exists d' c new,
      connect ndi cfg d tr =
      Raises (TypeError "unsupported format string passed to NoneType.__format__")
        d' (tr ++ new) /\
      device d' = DevCapsule c /\
      tool_descriptors d' = tool_descriptors d ++ new_tools cfg /\
      _use_bx_transforms d' = _use_bx_transforms d /\
      _device_firmware_version d' = _device_firmware_version d.
Proof.
  intros ndi cfg d tr Hhealthy Ht Haccept Hfind Hnot.
  pose proof (_configure_spec cfg d tr) as Hspec.
  destruct (_configure cfg d tr) as [[] d1 tr1 | e d1 tr1] eqn:Hconfigure;
    [| destruct Hspec as [Hrej _]; congruence].
  destruct Hspec as (_ & -> & Htype & Htools & Hdev & Hstate & Hbx & Hfw
                     & _ & Hserial & _).
  rewrite Ht in Htype.
  destruct Hserial as (Hport & Hprobe & _).
  { rewrite !(type_is_of d1 "aurora") by exact Htype. reflexivity. }
  assert (Hreach : reaches_a_port d1).
  { exists (default (-1) (cfg_serial_port cfg)). split; [exact Hport |].
    destruct Hfind as [Hp | Hn]; [left; exact Hp |].
    right. eexists. split; [exact Hprobe | exact Hn]. }
  destruct (first_without_handle (tool_descriptors d1))
    as (pre & tool & post & Hsplit & Hpre & Htool).
  { rewrite Htools. intros Hall. apply Hnot.
    apply Forall_app in Hall as [Hall _]. exact Hall. }
  destruct (_connect_serial_healthy ndi d1 tr Hhealthy Hreach) as (c & new1 & Hser).
  set (d2 := with_device (DevCapsule c) d1) in *.
  assert (Hinit :
    _initialise_ports ndi d2 (tr ++ new1) =
    Raises (TypeError "unsupported format string passed to NoneType.__format__")
      d2 ((tr ++ new1 ++ [Call_ndiCommand (device d2) "PHSR:02"])
          ++ flat_map (port_command_calls init_command d2) pre)).
  { rewrite _initialise_ports_as_steps by reflexivity.
    change (tool_descriptors d2) with (tool_descriptors d1). rewrite Hsplit.
    rewrite port_steps_no_handle;
      [rewrite <- !app_assoc; reflexivity | exact Hpre | | exact Htool].
    apply checks_pass_of_all; [exact (proj1 Hhealthy) | exact Hpre]. }
  exists d2, c. eexists. split; [| repeat split; assumption].
  unfold connect. erewrite bind_returns by exact Hconfigure.
  unfold bind at 1, get_self at 1.
  rewrite !(type_is_of d1 _ _ Htype); cbn [String.eqb Ascii.eqb Bool.eqb when].
  unfold bind at 1, ret at 1. unfold bind at 1, get_self at 1.
  rewrite !(type_is_of d1 _ _ Htype); cbn [String.eqb Ascii.eqb Bool.eqb when].
  unfold bind at 1, _connect_aurora.
  erewrite bind_returns by exact Hser.
  erewrite bind_raises by exact Hinit.
  rewrite <- !app_assoc. reflexivity.
Qed.

Lemma aurora_connect_raises_on_tool_without_handle_witness :
  exists d' c new,
    connect healthy_device (aurora_configuration [1; 2])
      (dummy_connected (dummy_configuration (Some ["a.rom"])) __init__) [] =
    Raises (TypeError "unsupported format string passed to NoneType.__format__")
      d' ([] ++ new) /\
    device d' = DevCapsule c.
Proof.
  destruct (aurora_connect_raises_on_tool_without_handle healthy_device
              (aurora_configuration [1; 2])
              (dummy_connected (dummy_configuration (Some ["a.rom"])) __init__)
              [] healthy_device_is_healthy eq_refl eq_refl)
    as (d' & c & new & Hrun & Hdev & _).
  - left. discriminate.
  - intros Hall. apply Forall_cons in Hall as [Hhandle _].
    apply Hhandle. reflexivity.
  - exists d', c, new. split; [exact Hrun | exact Hdev].
Defined.

(** *** Closing while the device reports errors *)

(** X19. When the stored state is "tracking" and the error register does
    not read [NDI_OKAY] after TSTOP, [close] raises the [IOError] of the
    stop, with the context "stopping tracking.".  The object is exactly what
    it was: the device is still held and the state still "tracking"; the only
    close call made is the serial [ndiClose] of the error check, and the
    teardown of the tracker type has not run. *)
Theorem close_keeps_device_when_stop_fails :
  forall ndi d tr,
    truthy_device (device d) = true ->
    state_is d "tracking" = true ->
    let tr1 := tr ++ stop_calls d in
    reply_int ndi tr1 <> NDI_OKAY ndi ->
    exists text,
      close ndi d tr =
      Raises (IOError (error_message "stopping tracking." text)) d
        (tr1 ++ failure_calls d (reply_int ndi tr1)).
Proof.
  intros ndi d tr Hdev Hstate tr1 Hfail.
  rewrite close_spec, Hdev, Hstate. cbn [negb].
  rewrite stop_tracking_spec. fold tr1.
  apply Z.eqb_neq in Hfail. rewrite Hfail. eexists. reflexivity.
Qed.

Lemma close_keeps_device_when_stop_fails_witness :
  exists text,
    close absent_device (with_tracker_type (Some "vega") tracking_polaris) [] =
    Raises (IOError (error_message "stopping tracking." text))
      (with_tracker_type (Some "vega") tracking_polaris)
      [Call_ndiCommand (DevCapsule 1) "TSTOP:"; Call_ndiGetError (DevCapsule 1);
       Call_ndiClose (DevCapsule 1); Call_ndiErrorString 1].
Proof.
  apply (close_keeps_device_when_stop_fails absent_device
           (with_tracker_type (Some "vega") tracking_polaris) []).
  - reflexivity.
  - reflexivity.
  - discriminate.
Defined.
